(** * smartprompt: a shallow embedding of the tool dispatch loop, the storage
    providers, the prompt loader and the model orchestrator.

    Part I embeds the Python sources (one block per source file, the functions
    under their own names).  Part II states and proves the properties.
    Part III proves further properties of the same code and of the blob
    storage client.

    Conventions of the embedding.
    - A Python [str] is a [string]: the bytes of its UTF-8 encoding.  Hence
      [encode("utf-8")] is the list of those bytes and [decode("utf-8")]
      checks that a byte sequence is well-formed UTF-8.
    - A call that may raise returns a [Result]; code that also reads or
      writes an object living across calls (the global tool registry, the
      transport client) runs in the state-and-exception monad [Py S].
    - Library functions that the repository only calls ([json], the
      operating system, the chat-completion client) are parameters,
      collected in the classes [JsonModule], [OS] and [ChatClient]; so are
      the environment, the constructors and the parsing call of the OpenAI
      SDK, and the Azure container client ([Environ], [OpenAILib],
      [OpenAISDK], [ParseClient], [ContainerClient]). *)

From Stdlib Require Import Strings.Ascii Strings.Byte ZArith NArith Lia DecimalString.
From stdpp Require Import gmap strings list.

Set Warnings "-register-all".

(** Let [simpl] compute the append of strings on a literal head. *)
Arguments String.append !s1 s2 : simpl nomatch.

(* ===================================================================== *)
(** * Part I.  The embedding                                              *)
(* ===================================================================== *)

(* --------------------------------------------------------------------- *)
(** ** Python values, exceptions, results                                 *)
(* --------------------------------------------------------------------- *)

(** The dynamically typed values that flow through the code as [Any]:
    decoded JSON, tool results, tool schemas.  [PyObject shown] is any other
    object, carried with the text [str()] gives for it. *)
Inductive PyValue : Type :=
| PyNone
| PyBool (b : bool)
| PyInt (z : Z)
| PyStr (s : string)
| PyList (items : list PyValue)
| PyDict (entries : list (string * PyValue))
| PyObject (shown : string).

(** The exception classes the code raises or meets.  All of them derive from
    [Exception], so an [except Exception] clause catches every [PyExc]. *)
Inductive ExcClass : Type :=
| ValueError
| TypeError
| IndexError
| OSError
| JSONDecodeError
| UnicodeDecodeError
| OtherException (class_name : string).

(** An exception object: its class and the text of [str(e)].  The texts of
    the exceptions that the repository raises are exact; those of the
    exceptions that the runtime and the libraries raise are indicative. *)
Record PyExc : Type := mkExc { exc_class : ExcClass; exc_str : string }.

(** [isinstance(e, ValueError)]: [json.JSONDecodeError] and
    [UnicodeDecodeError] are subclasses of [ValueError]. *)
Definition is_ValueError (e : PyExc) : bool :=
  match exc_class e with
  | ValueError | JSONDecodeError | UnicodeDecodeError => true
  | _ => false
  end.

Inductive Result (A : Type) : Type :=
| Ok (a : A)
| Raise (e : PyExc).
Arguments Ok {A} a.
Arguments Raise {A} e.

(** State-and-exception monad: the state survives a raised exception, as the
    heap does in Python. *)
Definition Py (S A : Type) : Type := S -> Result A * S.

Definition ret {S A} (a : A) : Py S A := fun s => (Ok a, s).
Definition raise {S A} (e : PyExc) : Py S A := fun s => (Raise e, s).
Definition bind {S A B} (m : Py S A) (k : A -> Py S B) : Py S B :=
  fun s => match m s with
           | (Ok a, s') => k a s'
           | (Raise e, s') => (Raise e, s')
           end.
(** [try: body  except Exception as e: handler(e)] *)
Definition try_except {S A} (body : Py S A) (handler : PyExc -> Py S A) : Py S A :=
  fun s => match body s with
           | (Ok a, s') => (Ok a, s')
           | (Raise e, s') => handler e s'
           end.
Definition get_state {S} : Py S S := fun s => (Ok s, s).
Definition modify_state {S} (f : S -> S) : Py S unit := fun s => (Ok tt, f s).
(** A call that raises or returns without touching the state. *)
Definition lift {S A} (r : Result A) : Py S A := fun s => (r, s).

Declare Scope py_scope.
Delimit Scope py_scope with py.
Notation "x <- m ;; k" := (bind m (fun x => k))
  (at level 100, m at next level, right associativity) : py_scope.
Notation "m ;;; k" := (bind m (fun _ => k))
  (at level 100, right associativity) : py_scope.

(** The pure fragment: [Result] itself as an exception monad. *)
Definition rbind {A B} (r : Result A) (k : A -> Result B) : Result B :=
  match r with
  | Ok a => k a
  | Raise e => Raise e
  end.
Notation "x <-r m ;; k" := (rbind m (fun x => k))
  (at level 100, m at next level, right associativity) : py_scope.

Open Scope py_scope.

(* --------------------------------------------------------------------- *)
(** ** Strings: the library functions the code calls on [str]             *)
(* --------------------------------------------------------------------- *)

Abbreviation squote := ("'"%char) (only parsing).
Abbreviation dquote := ("034"%char) (only parsing).
Abbreviation backslash := ("\"%char) (only parsing).
Abbreviation newline := ("010"%char) (only parsing).
Abbreviation lbrace := ("{"%char) (only parsing).
Abbreviation rbrace := ("}"%char) (only parsing).

Definition char_eqb (a b : ascii) : bool := bool_decide (a = b).

(** [c in s] for a one-character [c]. *)
Fixpoint contains_char (c : ascii) (s : string) : bool :=
  match s with
  | EmptyString => false
  | String d s' => char_eqb c d || contains_char c s'
  end.

(** [sep.join(parts)] *)
Fixpoint join (sep : string) (parts : list string) : string :=
  match parts with
  | [] => ""
  | [p] => p
  | p :: rest => p +:+ sep +:+ join sep rest
  end.

(** [s.startswith(p)] *)
Fixpoint startswith (p s : string) : bool :=
  match p, s with
  | EmptyString, _ => true
  | String a p', String b s' => char_eqb a b && startswith p' s'
  | String _ _, EmptyString => false
  end.

Definition hex_digit (n : N) : ascii :=
  match n with
  | 0 => "0" | 1 => "1" | 2 => "2" | 3 => "3" | 4 => "4" | 5 => "5"
  | 6 => "6" | 7 => "7" | 8 => "8" | 9 => "9" | 10 => "a" | 11 => "b"
  | 12 => "c" | 13 => "d" | 14 => "e" | _ => "f"
  end%N%char.

(** [repr] of one character inside quotes [q].  Bytes above 127 belong to a
    multi-byte character and are kept: non-ASCII characters are taken to be
    printable. *)
Definition repr_char (q c : ascii) : string :=
  let n := N_of_ascii c in
  if char_eqb c q || char_eqb c backslash then String backslash (String c "")
  else if (n =? 9)%N then "\t"
  else if (n =? 10)%N then "\n"
  else if (n =? 13)%N then "\r"
  else if (n <? 32)%N || (n =? 127)%N
       then "\x" +:+ String (hex_digit (n / 16)) (String (hex_digit (n mod 16)) "")
  else String c "".

Fixpoint repr_chars (q : ascii) (s : string) : string :=
  match s with
  | EmptyString => ""
  | String c s' => repr_char q c +:+ repr_chars q s'
  end.

(** [repr(s)] for a [str]: single quotes, unless the text holds a single quote
    and no double quote. *)
Definition repr_str (s : string) : string :=
  let q := if contains_char squote s && negb (contains_char dquote s)
           then dquote else squote in
  String q (repr_chars q s) +:+ String q "".

Definition str_of_int (z : Z) : string := NilZero.string_of_int (Z.to_int z).

(** [repr(v)], and below [str(v)], which differs on a [str] only. *)
Fixpoint py_repr (v : PyValue) : string :=
  match v with
  | PyNone => "None"
  | PyBool true => "True"
  | PyBool false => "False"
  | PyInt z => str_of_int z
  | PyStr s => repr_str s
  | PyList items => "[" +:+ join ", " (map py_repr items) +:+ "]"
  | PyDict entries =>
      "{" +:+ join ", " (map (fun kv => repr_str (fst kv) +:+ ": " +:+ py_repr (snd kv))
                             entries) +:+ "}"
  | PyObject shown => shown
  end.

Definition py_str (v : PyValue) : string :=
  match v with
  | PyStr s => s
  | _ => py_repr v
  end.

(** [s.replace(old, new)] for a non-empty [old]: the occurrences of [old] are
    found from left to right and do not overlap.  [skip] counts the characters
    of the occurrence just replaced that are still to be passed over. *)
Fixpoint replace_from (old new : string) (skip : nat) (s : string) : string :=
  match s with
  | EmptyString => ""
  | String c s' =>
      match skip with
      | S k => replace_from old new k s'
      | O => if startswith old s
             then new +:+ replace_from old new (String.length old - 1) s'
             else String c (replace_from old new 0 s')
      end
  end.

Definition str_replace (old new s : string) : string := replace_from old new 0 s.

(** The tail of the pattern [r"{(.*?)}"] after its opening brace: the lazy
    group stops at the first closing brace, and [.] matches no newline. *)
Fixpoint lazy_group (s : string) : option string :=
  match s with
  | EmptyString => None
  | String c s' =>
      if char_eqb c rbrace then Some ""
      else if char_eqb c newline then None
      else option_map (String c) (lazy_group s')
  end.

(** The pattern [r"{(.*?)}"] matched at the head of [s]: the text of its
    group. *)
Definition match_placeholder (s : string) : option string :=
  match s with
  | String c s' => if char_eqb c lbrace then lazy_group s' else None
  | EmptyString => None
  end.

(** [re.findall(r"{(.*?)}", s)]: the groups of the matches, scanning from left
    to right; the scan resumes after the closing brace of a match. *)
Fixpoint findall_from (skip : nat) (s : string) : list string :=
  match s with
  | EmptyString => []
  | String c s' =>
      match skip with
      | S k => findall_from k s'
      | O => match match_placeholder s with
             | Some name => name :: findall_from (S (String.length name)) s'
             | None => findall_from 0 s'
             end
      end
  end.

Definition findall_placeholders (s : string) : list string := findall_from 0 s.

(** [s.encode("utf-8")] and [b.decode("utf-8")]. *)
Definition bytes : Type := list byte.

Definition in_range (lo hi : N) (b : byte) : bool :=
  ((lo <=? Byte.to_N b) && (Byte.to_N b <=? hi))%N.

(** Well-formed UTF-8 (no overlong form, no surrogate, nothing above
    U+10FFFF).  [more] continuation bytes are still due, the next of them
    within [lo..hi]. *)
Fixpoint utf8_valid_from (more : nat) (lo hi : N) (bs : bytes) : bool :=
  match bs with
  | [] => match more with O => true | S _ => false end
  | b :: bs' =>
      match more with
      | S k => in_range lo hi b && utf8_valid_from k 128 191 bs'
      | O =>
          if in_range 0 127 b then utf8_valid_from 0 0 0 bs'
          else if in_range 194 223 b then utf8_valid_from 1 128 191 bs'
          else if in_range 224 224 b then utf8_valid_from 2 160 191 bs'
          else if in_range 237 237 b then utf8_valid_from 2 128 159 bs'
          else if in_range 225 239 b then utf8_valid_from 2 128 191 bs'
          else if in_range 240 240 b then utf8_valid_from 3 144 191 bs'
          else if in_range 241 243 b then utf8_valid_from 3 128 191 bs'
          else if in_range 244 244 b then utf8_valid_from 3 128 143 bs'
          else false
      end
  end.

Definition utf8_valid (bs : bytes) : bool := utf8_valid_from 0 0 0 bs.

Definition str_encode (s : string) : bytes := String.list_byte_of_string s.

Definition bytes_decode (bs : bytes) : Result string :=
  if utf8_valid bs then Ok (String.string_of_list_byte bs)
  else Raise (mkExc UnicodeDecodeError "'utf-8' codec can't decode bytes").

(** A [string] that is the encoding of a text, that is, a Python [str]. *)
Definition is_text (s : string) : Prop := utf8_valid (str_encode s) = true.

(** [dict] with [str] keys where the order of insertion shows (printing,
    [keys()]): an association list without repeated keys.  Assigning to a key
    that is present keeps its place. *)
Fixpoint dict_get {V} (k : string) (d : list (string * V)) : option V :=
  match d with
  | [] => None
  | (k', v) :: d' => if bool_decide (k = k') then Some v else dict_get k d'
  end.

Fixpoint dict_set {V} (k : string) (v : V) (d : list (string * V)) : list (string * V) :=
  match d with
  | [] => [(k, v)]
  | (k', v') :: d' =>
      if bool_decide (k = k') then (k, v) :: d' else (k', v') :: dict_set k v d'
  end.

Definition dict_keys {V} (d : list (string * V)) : list string := map fst d.

(* --------------------------------------------------------------------- *)
(** ** tool_registry.py                                                   *)
(* --------------------------------------------------------------------- *)

(** A tool class (a pydantic model with an [execute] method), as far as the
    dispatch loop uses one: its [__name__], its constructor called with the
    decoded arguments as keywords (validation may raise), and [execute] on
    the instance built (the tool may raise). *)
Module ToolClass.
Record t : Type := mk {
  __name__ : string;
  Instance_ : Type;
  __init__ : PyValue -> Result Instance_;
  execute : Instance_ -> Result PyValue;
}.
End ToolClass.

(** [openai.pydantic_function_tool], which turns a tool class into the
    declaration of the tool that is sent to the model; it raises for a
    class whose fields have no JSON schema. *)
Class OpenAILib : Type := {
  pydantic_function_tool : ToolClass.t -> Result PyValue;
}.

Module ToolRegistry.

(** The registry object: [self._tools]. *)
Record t : Type := mk { _tools : list (string * ToolClass.t) }.

(** [ToolRegistry()] *)
Definition __init__ : t := mk [].

Definition register_tool (tool_class : ToolClass.t) : Py t unit :=
  modify_state (fun self =>
    mk (dict_set (ToolClass.__name__ tool_class) tool_class (_tools self))).

Definition get_tool_names : Py t (list string) :=
  self <- get_state ;; ret (dict_keys (_tools self)).

Definition get_tool (name : string) : Py t ToolClass.t :=
  self <- get_state ;;
  match dict_get name (_tools self) with
  | None =>
      raise (mkExc ValueError
               ("Tool '" +:+ name +:+ "' not found. Available tools: "
                +:+ py_str (PyList (map PyStr (dict_keys (_tools self))))))
  | Some tool_class => ret tool_class
  end.

Definition get_all_tools : Py t (list (string * ToolClass.t)) :=
  self <- get_state ;; ret (_tools self).

Section WithOpenAI.
Context {openai : OpenAILib}.

(** The list comprehension [[self.get_tool(name) for name in tool_names]]. *)
Fixpoint get_tools (tool_names : list string) : Py t (list ToolClass.t) :=
  match tool_names with
  | [] => ret []
  | name :: rest =>
      tool_class <- get_tool name ;;
      tool_classes <- get_tools rest ;;
      ret (tool_class :: tool_classes)
  end.

(** The list comprehension [[pydantic_function_tool(cls) for cls in
    tool_classes]]. *)
Fixpoint declare_tools (tool_classes : list ToolClass.t) : Result (list PyValue) :=
  match tool_classes with
  | [] => Ok []
  | cls :: rest =>
      declaration <-r pydantic_function_tool cls ;;
      declarations <-r declare_tools rest ;;
      Ok (declaration :: declarations)
  end.

(** [create_pydantic_tools(tool_names=None)] *)
Definition create_pydantic_tools (tool_names : option (list string))
  : Py t (list PyValue) :=
  tool_classes <- match tool_names with
                  | None => self <- get_state ;; ret (map snd (_tools self))
                  | Some names => get_tools names
                  end ;;
  lift (declare_tools tool_classes).

End WithOpenAI.

End ToolRegistry.

(** The module-level functions act on the global registry, the state of the
    monad. *)
Definition register_tool (tool_class : ToolClass.t) : Py ToolRegistry.t unit :=
  ToolRegistry.register_tool tool_class.

Definition get_pydantic_tools {openai : OpenAILib} (tool_names : option (list string))
  : Py ToolRegistry.t (list PyValue) :=
  ToolRegistry.create_pydantic_tools tool_names.

(* --------------------------------------------------------------------- *)
(** ** tool_runner.py                                                     *)
(* --------------------------------------------------------------------- *)

Module ToolCallRequest.
Record t : Type := mk {
  id : string;
  function_name : string;
  arguments : PyValue;
}.
End ToolCallRequest.

Module ToolCallResponse.
Record t : Type := mk {
  tool_call_id : string;
  function_name : string;
  arguments : PyValue;
  result : PyValue;
  status : string;
}.
End ToolCallResponse.

(** The runner keeps a reference to the global registry, so its methods run
    on the registry as their state. *)
Module ToolRunner.

Definition _dispatch_tool_call (tool_request : ToolCallRequest.t)
  : Py ToolRegistry.t ToolCallResponse.t :=
  try_except
    (tool_class <- ToolRegistry.get_tool (ToolCallRequest.function_name tool_request) ;;
     tool_instance <- lift (ToolClass.__init__ tool_class
                              (ToolCallRequest.arguments tool_request)) ;;
     result <- lift (ToolClass.execute tool_class tool_instance) ;;
     ret (ToolCallResponse.mk
            (ToolCallRequest.id tool_request)
            (ToolCallRequest.function_name tool_request)
            (ToolCallRequest.arguments tool_request)
            result
            "success"))
    (fun e =>
     ret (ToolCallResponse.mk
            (ToolCallRequest.id tool_request)
            (ToolCallRequest.function_name tool_request)
            (ToolCallRequest.arguments tool_request)
            (PyStr (exc_str e))
            "error")).

(** The [for] loop of [run_tools], [tool_call_responses] being the list
    built so far. *)
Fixpoint run_tools_loop (tool_call_requests : list ToolCallRequest.t)
    (tool_call_responses : list ToolCallResponse.t)
  : Py ToolRegistry.t (list ToolCallResponse.t) :=
  match tool_call_requests with
  | [] => ret tool_call_responses
  | tool_call :: rest =>
      response <- _dispatch_tool_call tool_call ;;
      run_tools_loop rest (tool_call_responses ++ [response])
  end.

Definition run_tools (tool_call_requests : list ToolCallRequest.t)
  : Py ToolRegistry.t (list ToolCallResponse.t) :=
  match tool_call_requests with
  | [] => ret []
  | _ => run_tools_loop tool_call_requests []
  end.

End ToolRunner.

(* --------------------------------------------------------------------- *)
(** ** prompt.py                                                          *)
(* --------------------------------------------------------------------- *)

Module PromptSettings.
Record t : Type := mk { provider : string; model : string }.

(** [self.__dict__] *)
Definition __dict__ (self : t) : PyValue :=
  PyDict [("provider", PyStr (provider self)); ("model", PyStr (model self))].

(** [PromptSettings] called with the entries of a decoded JSON value as its
    keywords: the call needs a mapping whose keys are exactly the two field
    names.  The fields are
    declared [str] and the embedding is typed, so a value of another JSON
    type counts as a shape error too. *)
Definition from_kwargs (kwargs : PyValue) : Result t :=
  match kwargs with
  | PyDict entries =>
      if forallb (fun k => bool_decide (k ∈ ["provider"; "model"])) (dict_keys entries)
      then match dict_get "provider" entries, dict_get "model" entries with
           | Some (PyStr p), Some (PyStr m) => Ok (mk p m)
           | _, _ => Raise (mkExc TypeError "PromptSettings.__init__() missing arguments")
           end
      else Raise (mkExc TypeError
                    "PromptSettings.__init__() got an unexpected keyword argument")
  | _ => Raise (mkExc TypeError "argument after ** must be a mapping")
  end.
End PromptSettings.

Module Prompt.
Record t : Type := mk {
  system_prompt : string;
  user_prompt : string;
  settings : PromptSettings.t;
  response_schema : option PyValue;
  tools : option (list PyValue);
}.

(** The default of the optional parameter [tools] of [from_definition]. *)
Definition default_tools : option (list PyValue) := None.

Definition from_definition (system_prompt user_prompt : string)
    (prompt_settings : PromptSettings.t)
    (response_schema : option PyValue) (tools : option (list PyValue)) : t :=
  mk system_prompt user_prompt prompt_settings response_schema tools.
End Prompt.

(* --------------------------------------------------------------------- *)
(** ** storage_providers.py                                               *)
(* --------------------------------------------------------------------- *)

(** [json.dumps] and [json.loads], as the code calls them. *)
Class JsonModule : Type := {
  json_dumps : PyValue -> string;
  json_loads : string -> Result PyValue;
}.

(** What the file system provider asks of the operating system.
    [os.path.exists], [isdir] and [isfile] answer [False] on any error;
    [os.listdir], [os.stat] and reading an opened file may raise. *)
Module stat_result.
Record t : Type := mk { st_size : nat; st_ctime : PyValue; st_mtime : PyValue }.
End stat_result.

Class OS : Type := {
  os_path_exists : string -> bool;
  os_path_isdir : string -> bool;
  os_path_isfile : string -> bool;
  os_listdir : string -> Result (list string);
  os_stat : string -> Result stat_result.t;
  (** [with open(path, 'rb') as f: return f.read()] *)
  open_rb_read : string -> Result bytes;
}.

(** The record [list_files] returns for one file (a [dict] with these six
    keys). *)
Module FileRecord.
Record t : Type := mk {
  name : string;
  filename : string;
  size : nat;
  created_at : PyValue;
  modified_at : PyValue;
  content_type : string;
}.
End FileRecord.

(** [not file_name or not file_name.strip()], the test the blob storage
    client makes before it downloads: the name is empty or all white space
    (of the ASCII white space: space, tab to carriage return, and the four
    separators 28 to 31). *)
Definition isspace (c : ascii) : bool :=
  let n := N_of_ascii c in
  ((n =? 32) || ((9 <=? n) && (n <=? 13)) || ((28 <=? n) && (n <=? 31)))%N.

Fixpoint blank (file_name : string) : bool :=
  match file_name with
  | EmptyString => true
  | String c rest => isspace c && blank rest
  end.

(** The abstract base class: the three methods every provider has. *)
Class StorageProviderBase (P : Type) : Type := {
  list_files : P -> list FileRecord.t;
  download_file : P -> string -> option bytes;
  file_exists : P -> string -> bool;
}.

Module MemoryProvider.
Section WithJson.
Context {json : JsonModule}.

Record t : Type := mk {
  _system_prompt : string;
  _prompt_settings : PromptSettings.t;
  _user_prompt : string;
}.

(** [MemoryProvider(system_prompt, prompt_settings, user_prompt="")] *)
Definition __init__ (system_prompt : string) (prompt_settings : PromptSettings.t)
    (user_prompt : string) : t :=
  mk system_prompt prompt_settings user_prompt.

(** Truth value of a [str]. *)
Definition truthy (s : string) : bool := negb (bool_decide (s = "")).

Definition list_files (self : t) : list FileRecord.t :=
  let files :=
    [ FileRecord.mk "settings.json" "settings.json"
        (String.length (json_dumps (PromptSettings.__dict__ (_prompt_settings self))))
        (PyInt 0) (PyInt 0) "application/json";
      FileRecord.mk "system.md" "system.md"
        (length (str_encode (_system_prompt self)))
        (PyInt 0) (PyInt 0) "text/markdown" ] in
  if truthy (_user_prompt self)
  then files ++ [ FileRecord.mk "user.md" "user.md"
                    (length (str_encode (_user_prompt self)))
                    (PyInt 0) (PyInt 0) "text/markdown" ]
  else files.

Definition download_file (self : t) (file_name : string) : option bytes :=
  if bool_decide (file_name = "settings.json")
  then Some (str_encode (json_dumps (PromptSettings.__dict__ (_prompt_settings self))))
  else if bool_decide (file_name = "system.md")
  then Some (str_encode (_system_prompt self))
  else if bool_decide (file_name = "user.md")
  then (if truthy (_user_prompt self) then Some (str_encode (_user_prompt self)) else None)
  else None.

Definition file_exists (self : t) (file_name : string) : bool :=
  if bool_decide (file_name = "user.md")
  then truthy (_user_prompt self)
  else bool_decide (file_name ∈ ["settings.json"; "system.md"]).

End WithJson.
End MemoryProvider.

#[global] Instance MemoryProvider_is_provider {json : JsonModule}
  : StorageProviderBase MemoryProvider.t :=
  {| list_files := MemoryProvider.list_files;
     download_file := MemoryProvider.download_file;
     file_exists := MemoryProvider.file_exists |}.

(** [os.path.join(a, b)] on a POSIX system. *)
Fixpoint endswith_char (c : ascii) (s : string) : bool :=
  match s with
  | EmptyString => false
  | String d EmptyString => char_eqb c d
  | String _ s' => endswith_char c s'
  end.

Definition os_path_join (a b : string) : string :=
  if startswith "/" b then b
  else if bool_decide (a = "") || endswith_char "/" a then a +:+ b
  else a +:+ "/" +:+ b.

(** [os.path.splitext(p)[1]]: the text from the last dot of the last path
    component on, unless only dots come before that dot. *)
Fixpoint last_component (p : string) : string :=
  match p with
  | EmptyString => ""
  | String c p' => if contains_char "/" p then last_component p' else p
  end.

Fixpoint strip_leading_dots (s : string) : string :=
  match s with
  | String c s' => if char_eqb c "." then strip_leading_dots s' else s
  | EmptyString => ""
  end.

Fixpoint from_last_dot (s : string) : option string :=
  match s with
  | EmptyString => None
  | String c s' =>
      match from_last_dot s' with
      | Some ext => Some ext
      | None => if char_eqb c "." then Some s else None
      end
  end.

Definition splitext_ext (p : string) : string :=
  default "" (from_last_dot (strip_leading_dots (last_component p))).

(** [s.lower()] on the ASCII letters (a lowered non-ASCII letter is none of
    the characters of the extensions looked up below). *)
Definition lower_char (c : ascii) : ascii :=
  let n := N_of_ascii c in
  if ((65 <=? n) && (n <=? 90))%N then ascii_of_N (n + 32) else c.

Fixpoint str_lower (s : string) : string :=
  match s with
  | EmptyString => ""
  | String c s' => String (lower_char c) (str_lower s')
  end.

Module FileSystemProvider.
Section WithOS.
Context {os : OS}.

Record t : Type := mk { _prompt_path : string }.

(** [FileSystemProvider(prompt_name, base_path="prompts")] *)
Definition __init__ (prompt_name base_path : string) : Result t :=
  let prompt_path := os_path_join base_path prompt_name in
  if negb (os_path_exists prompt_path)
  then Raise (mkExc ValueError
                ("Prompts directory '" +:+ prompt_path +:+ "' does not exist"))
  else if negb (os_path_isdir prompt_path)
  then Raise (mkExc ValueError ("'" +:+ prompt_path +:+ "' is not a directory"))
  else Ok (mk prompt_path).

Definition _get_content_type (filename : string) : string :=
  let ext := str_lower (splitext_ext filename) in
  let content_types :=
    [ (".json", "application/json");
      (".md", "text/markdown");
      (".txt", "text/plain");
      (".yaml", "text/yaml");
      (".yml", "text/yaml") ] in
  default "application/octet-stream" (dict_get ext content_types).

(** The [for] loop of [list_files], inside its [try]. *)
Fixpoint list_files_loop (self : t) (filenames : list string)
    (files : list FileRecord.t) : Result (list FileRecord.t) :=
  match filenames with
  | [] => Ok files
  | filename :: rest =>
      let file_path := os_path_join (_prompt_path self) filename in
      if os_path_isfile file_path
      then (stat <-r os_stat file_path ;;
            list_files_loop self rest
              (files ++ [ FileRecord.mk filename filename
                            (stat_result.st_size stat)
                            (stat_result.st_ctime stat)
                            (stat_result.st_mtime stat)
                            (_get_content_type filename) ]))
      else list_files_loop self rest files
  end.

Definition list_files (self : t) : list FileRecord.t :=
  match (filenames <-r os_listdir (_prompt_path self) ;;
         list_files_loop self filenames []) with
  | Ok files => files
  | Raise _ => []
  end.

Definition download_file (self : t) (file_name : string) : option bytes :=
  let file_path := os_path_join (_prompt_path self) file_name in
  if negb (os_path_exists file_path) then None
  else match open_rb_read file_path with
       | Ok content => Some content
       | Raise _ => None
       end.

Definition file_exists (self : t) (file_name : string) : bool :=
  os_path_isfile (os_path_join (_prompt_path self) file_name).

End WithOS.
End FileSystemProvider.

#[global] Instance FileSystemProvider_is_provider {os : OS}
  : StorageProviderBase FileSystemProvider.t :=
  {| list_files := FileSystemProvider.list_files;
     download_file := FileSystemProvider.download_file;
     file_exists := FileSystemProvider.file_exists |}.

(* --------------------------------------------------------------------- *)
(** ** prompt_loader.py                                                   *)
(* --------------------------------------------------------------------- *)

Module PromptLoader.
Section WithProvider.
Context {json : JsonModule} {P : Type} {provider_class : StorageProviderBase P}.

Record t : Type := mk {
  _provider : P;
  _response_schema : option PyValue;
  _tools : option (list PyValue);
  _prompt_settings : PromptSettings.t;
  _system_prompt : string;
  _user_prompt : string;
}.

(** One of the two loops of [_fill_placeholders], on the text it rewrites:
    the names are found once, in the text as loaded, and each name that is a
    key rewrites the current text. *)
Definition fill_loop (placeholders : gmap string string) (text : string) : string :=
  foldl (fun text placeholder =>
           match placeholders !! placeholder with
           | Some value => str_replace ("{" +:+ placeholder +:+ "}") value text
           | None => text
           end)
        text (findall_placeholders text).

Definition _fill_placeholders (self : t) (placeholders : gmap string string) : t :=
  let system_prompt := fill_loop placeholders (_system_prompt self) in
  let user_prompt := fill_loop placeholders (_user_prompt self) in
  mk (_provider self) (_response_schema self) (_tools self) (_prompt_settings self)
     system_prompt user_prompt.

(** Truth value of the optional [dict]: [None] and the empty [dict] are
    false. *)
Definition truthy (placeholders : option (gmap string string)) : bool :=
  match placeholders with
  | None => false
  | Some d => negb (bool_decide (d = ∅))
  end.

(** [__init__] from the comment [# Load prompt settings] on: the three
    downloads and the substitution. *)
Definition load (provider : P) (placeholders : option (gmap string string))
    (response_schema : option PyValue) (tools : option (list PyValue)) : Result t :=
  match download_file provider "settings.json" with
  | None => Raise (mkExc ValueError "settings.json not found in prompt directory")
  | Some prompt_settings_content =>
  prompt_settings_text <-r bytes_decode prompt_settings_content ;;
  prompt_settings_json <-r json_loads prompt_settings_text ;;
  prompt_settings <-r PromptSettings.from_kwargs prompt_settings_json ;;
  match download_file provider "system.md" with
  | None => Raise (mkExc ValueError "system.md not found in prompt directory")
  | Some system_prompt_content =>
  system_prompt <-r bytes_decode system_prompt_content ;;
  user_prompt <-r match download_file provider "user.md" with
                  | Some user_prompt_content => bytes_decode user_prompt_content
                  | None => Ok ""
                  end ;;
  let self := mk provider response_schema tools prompt_settings
                 system_prompt user_prompt in
  Ok (match placeholders with
      | Some d => if truthy placeholders then _fill_placeholders self d else self
      | None => self
      end)
  end end.

(** [PromptLoader(provider, placeholders=None, response_schema=None,
    tools=None)]: the check that the prompt exists, then the rest. *)
Definition __init__ (provider : P) (placeholders : option (gmap string string))
    (response_schema : option PyValue) (tools : option (list PyValue)) : Result t :=
  match list_files provider with
  | [] => Raise (mkExc ValueError "Prompt does not exist in storage")
  | _ :: _ => load provider placeholders response_schema tools
  end.

(** [get_prompt] passes no [tools] argument, so [from_definition] takes its
    default. *)
Definition get_prompt (self : t) : Prompt.t :=
  Prompt.from_definition (_system_prompt self) (_user_prompt self)
    (_prompt_settings self) (_response_schema self) Prompt.default_tools.

Definition get_prompt_settings (self : t) : PromptSettings.t := _prompt_settings self.

End WithProvider.
Arguments t P : clear implicits.
End PromptLoader.

(* --------------------------------------------------------------------- *)
(** ** model_client.py                                                    *)
(* --------------------------------------------------------------------- *)

(** The objects of the chat-completion client, as far as the code reads
    them: [completion.choices[0].message] with its [content] and
    [tool_calls], and a tool call with its [id] and [function]. *)
Module Function_.
Record t : Type := mk { name : string; arguments : string }.
End Function_.

Module ToolCall.
Record t : Type := mk { id : string; function : Function_.t }.
End ToolCall.

Module ChatCompletionMessage.
Record t : Type := mk {
  content : option string;
  tool_calls : option (list ToolCall.t);
}.
End ChatCompletionMessage.

Module Choice.
Record t : Type := mk { message : ChatCompletionMessage.t }.
End Choice.

Module ChatCompletion.
Record t : Type := mk { choices : list Choice.t }.
End ChatCompletion.

(** An element of the [messages] list: one of the two kinds of [dict] the
    code builds, or the message object of a completion appended as it is. *)
Inductive Message : Type :=
| RoleContent (role content : string)
| ToolResult (tool_call_id content : string)
| RawMessage (message : ChatCompletionMessage.t).

(** The keyword arguments of one [chat.completions.create] call ([tools] is
    [None] when the call passes none). *)
Module CreateCall.
Record t : Type := mk {
  model : string;
  messages : list Message;
  tools : option (list PyValue);
}.
End CreateCall.

(** The client: one call answers, or raises, and may change the client. *)
Class ChatClient (C : Type) : Type := {
  chat_completions_create : CreateCall.t -> Py C ChatCompletion.t;
}.

(** What [get_text_completion] acts on: the global tool registry, the client
    and, for the statements about it, the calls made to the client so far. *)
Module World.
Record t (C : Type) : Type := mk {
  registry : ToolRegistry.t;
  client : C;
  calls : list CreateCall.t;
}.
Arguments mk {C}.
Arguments registry {C}.
Arguments client {C}.
Arguments calls {C}.
End World.

(** [os.getenv(name)] *)
Class Environ : Type := {
  os_getenv : string -> option string;
}.

(** Truth value of what [os.getenv] returns: [None] and the empty text are
    false. *)
Definition env_truthy (value : option string) : bool :=
  match value with
  | Some text => negb (bool_decide (text = ""))
  | None => false
  end.

(** The two constructors of the SDK, with the keyword arguments the code
    passes: [OpenAI(api_key=..., base_url=...)], [base_url] being [None]
    when it is not passed, and
    [AzureOpenAI(base_url=..., api_key=..., api_version=...)]. *)
Class OpenAISDK (C : Type) : Type := {
  OpenAI : option string -> option string -> Result C;
  AzureOpenAI : option string -> option string -> option string -> Result C;
}.

(** [beta.chat.completions.parse]: its keyword arguments, and of the
    completion it returns the [parsed] object of each choice. *)
Module ParseCall.
Record t : Type := mk {
  model : string;
  response_format : PyValue;
  messages : list Message;
}.
End ParseCall.

Module ParsedChatCompletion.
Record t : Type := mk { choices : list PyValue }.
End ParsedChatCompletion.

Class ParseClient (C : Type) : Type := {
  beta_chat_completions_parse : ParseCall.t -> Py C ParsedChatCompletion.t;
}.

(** [ModelClient.__init__] picks the client for the provider of the settings
    and reads its credentials from the environment; the methods below run on
    the client it made, the parameter [ChatClient]. *)
Module ModelClient.
Section WithClient.
Context {json : JsonModule} {C : Type} {client_class : ChatClient C}.

Record t : Type := mk { _prompt : Prompt.t }.

(** [self._client.chat.completions.create(...)] *)
Definition create (call : CreateCall.t) : Py (World.t C) ChatCompletion.t :=
  fun w =>
    let (answer, client') := chat_completions_create call (World.client w) in
    (answer, World.mk (World.registry w) client' (World.calls w ++ [call])).

(** A method of the tool runner, run on the registry of the world. *)
Definition on_registry {A} (m : Py ToolRegistry.t A) : Py (World.t C) A :=
  fun w =>
    let (answer, registry') := m (World.registry w) in
    (answer, World.mk registry' (World.client w) (World.calls w)).

Definition _build_base_messages (self : t) : list Message :=
  [ RoleContent "system" (Prompt.system_prompt (_prompt self));
    RoleContent "user" (Prompt.user_prompt (_prompt self)) ].

(** [completion.choices[0].message] *)
Definition first_message {S} (completion : ChatCompletion.t)
  : Py S ChatCompletionMessage.t :=
  match ChatCompletion.choices completion with
  | choice :: _ => ret (Choice.message choice)
  | [] => raise (mkExc IndexError "list index out of range")
  end.

(** The list comprehension that builds the [ToolCallRequest]s. *)
Fixpoint tool_requests_of (raw_tool_requests : list ToolCall.t)
  : Result (list ToolCallRequest.t) :=
  match raw_tool_requests with
  | [] => Ok []
  | tool_call :: rest =>
      arguments <-r json_loads (Function_.arguments (ToolCall.function tool_call)) ;;
      requests <-r tool_requests_of rest ;;
      Ok (ToolCallRequest.mk (ToolCall.id tool_call)
            (Function_.name (ToolCall.function tool_call)) arguments :: requests)
  end.

(** The loop that appends one message per tool result. *)
Definition tool_messages (tool_results : list ToolCallResponse.t) : list Message :=
  map (fun result =>
         ToolResult (ToolCallResponse.tool_call_id result)
                    (py_str (ToolCallResponse.result result)))
      tool_results.

Definition get_text_completion (self : t) : Py (World.t C) (option string) :=
  let tools := Prompt.tools (_prompt self) in
  let model := PromptSettings.model (Prompt.settings (_prompt self)) in
  match tools with
  | None =>
      completion <- create (CreateCall.mk model (_build_base_messages self) None) ;;
      message <- first_message completion ;;
      ret (ChatCompletionMessage.content message)
  | Some _ =>
      let messages := _build_base_messages self in
      completion <- create (CreateCall.mk model messages tools) ;;
      first <- first_message completion ;;
      raw_tool_requests <-
        match ChatCompletionMessage.tool_calls first with
        | Some raw => ret raw
        | None => raise (mkExc TypeError "'NoneType' object is not iterable")
        end ;;
      tool_requests <- lift (tool_requests_of raw_tool_requests) ;;
      tool_results <- on_registry (ToolRunner.run_tools tool_requests) ;;
      let messages := messages ++ [RawMessage first] in
      let messages := messages ++ tool_messages tool_results in
      completion <- create (CreateCall.mk model messages tools) ;;
      message <- first_message completion ;;
      ret (ChatCompletionMessage.content message)
  end.

Section WithSDK.
Context {environ : Environ} {sdk : OpenAISDK C}.

(** [ModelClient(prompt)]: the orchestrator and the client it made. *)
Definition __init__ (prompt : Prompt.t) : Result (t * C) :=
  let provider := PromptSettings.provider (Prompt.settings prompt) in
  if bool_decide (provider = "openai") then
    if negb (env_truthy (os_getenv "OPENAI_API_KEY"))
    then Raise (mkExc ValueError "OPENAI_API_KEY is not set")
    else client <-r OpenAI (os_getenv "OPENAI_API_KEY") None ;;
         Ok (mk prompt, client)
  else if bool_decide (provider = "azure") then
    if negb (env_truthy (os_getenv "AZURE_OPENAI_ENDPOINT_URL"))
    then Raise (mkExc ValueError "AZURE_OPENAI_ENDPOINT_URL is not set")
    else if negb (env_truthy (os_getenv "AZURE_OPENAI_API_KEY"))
    then Raise (mkExc ValueError "AZURE_OPENAI_API_KEY is not set")
    else if negb (env_truthy (os_getenv "AZURE_OPENAI_API_VERSION"))
    then Raise (mkExc ValueError "AZURE_OPENAI_API_VERSION is not set")
    else client <-r AzureOpenAI (os_getenv "AZURE_OPENAI_ENDPOINT_URL")
                      (os_getenv "AZURE_OPENAI_API_KEY")
                      (os_getenv "AZURE_OPENAI_API_VERSION") ;;
         Ok (mk prompt, client)
  else if bool_decide (provider = "grok") then
    if negb (env_truthy (os_getenv "GROK_API_KEY"))
    then Raise (mkExc ValueError "GROK_API_KEY is not set")
    else client <-r OpenAI (os_getenv "GROK_API_KEY") (Some "https://api.x.ai/v1") ;;
         Ok (mk prompt, client)
  else Raise (mkExc ValueError ("Invalid provider: " +:+ provider)).

End WithSDK.

Section WithParse.
Context {parse_class : ParseClient C}.

(** [completion.choices[0].message.parsed] *)
Definition first_parsed (completion : ParsedChatCompletion.t) : Py C PyValue :=
  match ParsedChatCompletion.choices completion with
  | parsed :: _ => ret parsed
  | [] => raise (mkExc IndexError "list index out of range")
  end.

Definition get_structured_completion (self : t) : Py C PyValue :=
  match Prompt.response_schema (_prompt self) with
  | None =>
      raise (mkExc ValueError "No response schema provided and none defined in prompt")
  | Some response_schema =>
      completion <- beta_chat_completions_parse
                      (ParseCall.mk
                         (PromptSettings.model (Prompt.settings (_prompt self)))
                         response_schema
                         (_build_base_messages self)) ;;
      first_parsed completion
  end.

End WithParse.

End WithClient.
End ModelClient.

(* --------------------------------------------------------------------- *)
(** ** Placeholder substitution as the specification words it             *)
(* --------------------------------------------------------------------- *)

(** The specification speaks of the tokens [{name}] found in a text and of
    replacing each of them, the rest being left verbatim.  This is that
    reading, independent of [str.replace]: the text is cut into the matches
    of the pattern and the characters between them, and every piece is
    rewritten on its own. *)
Module Substitution.

Inductive piece : Type :=
| Lit (c : ascii)
| Tok (name : string).

Fixpoint pieces_from (skip : nat) (s : string) : list piece :=
  match s with
  | EmptyString => []
  | String c s' =>
      match skip with
      | S k => pieces_from k s'
      | O => match match_placeholder s with
             | Some name => Tok name :: pieces_from (S (String.length name)) s'
             | None => Lit c :: pieces_from 0 s'
             end
      end
  end.

Definition pieces (s : string) : list piece := pieces_from 0 s.

Definition token (name : string) : string := "{" +:+ name +:+ "}".

(** A piece under a mapping: a token whose name is a key becomes the mapped
    value, anything else stays. *)
Definition subst_piece (m : gmap string string) (p : piece) : string :=
  match p with
  | Lit c => String c ""
  | Tok name => default (token name) (m !! name)
  end.

Fixpoint concat_pieces (m : gmap string string) (ps : list piece) : string :=
  match ps with
  | [] => ""
  | p :: ps' => subst_piece m p +:+ concat_pieces m ps'
  end.

Definition substitute (m : gmap string string) (text : string) : string :=
  concat_pieces m (pieces text).

(** The names of the tokens among the pieces, in order. *)
Fixpoint names (ps : list piece) : list string :=
  match ps with
  | [] => []
  | Lit _ :: ps' => names ps'
  | Tok name :: ps' => name :: names ps'
  end.

(** The texts on which the two readings agree: no name found in the text
    and no value mapped to such a name holds an opening brace. *)
Definition brace_free (m : gmap string string) (text : string) : Prop :=
  (forall name, name ∈ findall_placeholders text -> contains_char lbrace name = false)
  /\ (forall name value,
        name ∈ findall_placeholders text -> m !! name = Some value ->
        contains_char lbrace value = false).

Definition brace_freeb (m : gmap string string) (text : string) : bool :=
  forallb (fun name =>
             negb (contains_char lbrace name)
             && match m !! name with
                | Some value => negb (contains_char lbrace value)
                | None => true
                end)
          (findall_placeholders text).

(** What a cut by [pieces] is like: a token name holds neither a closing
    brace nor a newline, and after an opening brace that starts no token the
    pattern finds no end. *)
Fixpoint well_cut (ps : list piece) : Prop :=
  match ps with
  | [] => True
  | Lit c :: ps' => (c = lbrace -> lazy_group (concat_pieces ∅ ps') = None) /\ well_cut ps'
  | Tok name :: ps' =>
      contains_char rbrace name = false /\ contains_char newline name = false
      /\ well_cut ps'
  end.

(** The part of the mapping [m] that the loop has used once the names
    [done] are behind it, starting from [used]. *)
Definition learn (m used : gmap string string) (name : string) : gmap string string :=
  match m !! name with
  | Some value => <[name := value]> used
  | None => used
  end.

Definition learned (m used : gmap string string) (done : list string)
  : gmap string string :=
  foldl (learn m) used done.

End Substitution.

(** [x in s] for strings, as a proposition. *)
Definition mentions (s x : string) : Prop := exists pre post, s = pre +:+ x +:+ post.

(* --------------------------------------------------------------------- *)
(** ** Instances of the parameters, for the examples                      *)
(* --------------------------------------------------------------------- *)

Module Sample.

(** *** A JSON codec for flat objects of plain strings

    [dumps] writes what [json.dumps] writes for values whose strings need no
    escape; [loads] reads an object whose keys and values are strings
    without escapes and rejects any other text. *)
Definition quoted (s : string) : string := String dquote s +:+ String dquote "".

Fixpoint dumps (v : PyValue) : string :=
  match v with
  | PyNone => "null"
  | PyBool true => "true"
  | PyBool false => "false"
  | PyInt z => str_of_int z
  | PyStr s => quoted s
  | PyList items => "[" +:+ join ", " (map dumps items) +:+ "]"
  | PyDict entries =>
      "{" +:+ join ", " (map (fun kv => quoted (fst kv) +:+ ": " +:+ dumps (snd kv))
                             entries) +:+ "}"
  | PyObject shown => "null"
  end.

Inductive parser_state : Type :=
| AtStart
| AtKeyOrEnd
| InKey (key : string)
| AtColon (key : string)
| AtValue (key : string)
| InValue (key value : string)
| AtCommaOrEnd
| AtKey
| AtEnd.

Definition is_space (c : ascii) : bool :=
  bool_decide (c ∈ [" "; "009"; "010"; "013"]%char).

Definition plain_char (c : ascii) : bool :=
  negb (char_eqb c backslash) && (32 <=? N_of_ascii c)%N.

Fixpoint parse (st : parser_state) (entries : list (string * PyValue)) (s : string)
  : option (list (string * PyValue)) :=
  match s with
  | EmptyString => match st with AtEnd => Some entries | _ => None end
  | String c s' =>
      match st with
      | AtStart =>
          if is_space c then parse AtStart entries s'
          else if char_eqb c lbrace then parse AtKeyOrEnd entries s' else None
      | AtKeyOrEnd =>
          if is_space c then parse AtKeyOrEnd entries s'
          else if char_eqb c dquote then parse (InKey "") entries s'
          else if char_eqb c rbrace then parse AtEnd entries s' else None
      | InKey key =>
          if char_eqb c dquote then parse (AtColon key) entries s'
          else if plain_char c then parse (InKey (key +:+ String c "")) entries s'
          else None
      | AtColon key =>
          if is_space c then parse (AtColon key) entries s'
          else if char_eqb c ":" then parse (AtValue key) entries s' else None
      | AtValue key =>
          if is_space c then parse (AtValue key) entries s'
          else if char_eqb c dquote then parse (InValue key "") entries s' else None
      | InValue key value =>
          if char_eqb c dquote
          then parse AtCommaOrEnd (dict_set key (PyStr value) entries) s'
          else if plain_char c then parse (InValue key (value +:+ String c "")) entries s'
          else None
      | AtCommaOrEnd =>
          if is_space c then parse AtCommaOrEnd entries s'
          else if char_eqb c "," then parse AtKey entries s'
          else if char_eqb c rbrace then parse AtEnd entries s' else None
      | AtKey =>
          if is_space c then parse AtKey entries s'
          else if char_eqb c dquote then parse (InKey "") entries s' else None
      | AtEnd => if is_space c then parse AtEnd entries s' else None
      end
  end.

Definition loads (s : string) : Result PyValue :=
  match parse AtStart [] s with
  | Some entries => Ok (PyDict entries)
  | None => Raise (mkExc JSONDecodeError "Expecting value")
  end.

Definition json : JsonModule := {| json_dumps := dumps; json_loads := loads |}.

(** *** A directory on disk

    The operating system seen from one directory [root] that holds the
    regular files [files] and nothing else.  The path [root/] names the
    directory too; opening a directory for reading fails. *)
Fixpoint path_in (root : string) (files : list (string * bytes)) (path : string)
  : option bytes :=
  match files with
  | [] => None
  | (file_name, content) :: rest =>
      if bool_decide (path = os_path_join root file_name) then Some content
      else path_in root rest path
  end.

Definition is_root (root path : string) : bool :=
  bool_decide (path = root) || bool_decide (path = root +:+ "/").

Definition directory (root : string) (files : list (string * bytes)) : OS :=
  {| os_path_exists path := is_root root path || bool_decide (is_Some (path_in root files path));
     os_path_isdir path := is_root root path;
     os_path_isfile path := bool_decide (is_Some (path_in root files path));
     os_listdir path :=
       if is_root root path then Ok (map fst files)
       else Raise (mkExc OSError "Not a directory or no such directory");
     os_stat path :=
       match path_in root files path with
       | Some content => Ok (stat_result.mk (length content) (PyInt 0) (PyInt 0))
       | None => if is_root root path then Ok (stat_result.mk 0 (PyInt 0) (PyInt 0))
                 else Raise (mkExc OSError "No such file or directory")
       end;
     open_rb_read path :=
       match path_in root files path with
       | Some content => Ok content
       | None => if is_root root path then Raise (mkExc OSError "Is a directory")
                 else Raise (mkExc OSError "No such file or directory")
       end |}.

(** A prompt directory with the three artifacts and one more file, whose
    name is a single space. *)
Definition settings_text : string :=
  dumps (PromptSettings.__dict__ (PromptSettings.mk "openai" "gpt-4")).

Definition prompt_dir : OS :=
  directory "prompts/demo"
    [ ("settings.json", str_encode settings_text);
      ("system.md", str_encode "You are a helpful assistant.");
      ("user.md", str_encode "Hello, how are you?");
      (" ", str_encode "stray") ].

(** The same prompt without its settings, without its system text, and
    without its user text. *)
Definition no_settings_dir : OS :=
  directory "prompts/demo"
    [ ("system.md", str_encode "You are a helpful assistant.");
      ("user.md", str_encode "Hello, how are you?") ].

Definition no_system_dir : OS :=
  directory "prompts/demo"
    [ ("settings.json", str_encode settings_text);
      ("user.md", str_encode "Hello, how are you?") ].

Definition no_user_dir : OS :=
  directory "prompts/demo"
    [ ("settings.json", str_encode settings_text);
      ("system.md", str_encode "You are a helpful assistant.") ].

(** The provider [FileSystemProvider("demo")] over each of them. *)
Definition demo : FileSystemProvider.t := FileSystemProvider.mk "prompts/demo".

(** A directory whose listing fails: the provider was pointed at it and it
    was removed afterwards. *)
Definition removed_dir : OS :=
  {| os_path_exists _ := false;
     os_path_isdir _ := false;
     os_path_isfile _ := false;
     os_listdir _ := Raise (mkExc OSError "No such file or directory");
     os_stat _ := Raise (mkExc OSError "No such file or directory");
     open_rb_read _ := Raise (mkExc OSError "No such file or directory") |}.

(** *** A scripted client: it answers with the completions it was given, in
    order, and fails once they are used up. *)
#[global] Instance scripted : ChatClient (list ChatCompletion.t) :=
  {| chat_completions_create _ answers :=
       match answers with
       | answer :: rest => (Ok answer, rest)
       | [] => (Raise (mkExc (OtherException "APIConnectionError") "Connection error."), [])
       end |}.

(** *** Three tool classes

    [Echo] takes a keyword [text] and returns it; [Flag] takes no argument
    and returns [True]; [Faulty] takes anything and raises when run. *)
Definition Echo : ToolClass.t :=
  {| ToolClass.__name__ := "Echo";
     ToolClass.Instance_ := string;
     ToolClass.__init__ kwargs :=
       match kwargs with
       | PyDict [("text", PyStr text)] => Ok text
       | _ => Raise (mkExc ValueError "1 validation error for Echo")
       end;
     ToolClass.execute text := Ok (PyStr text) |}.

Definition Flag : ToolClass.t :=
  {| ToolClass.__name__ := "Flag";
     ToolClass.Instance_ := unit;
     ToolClass.__init__ kwargs :=
       match kwargs with
       | PyDict [] => Ok tt
       | _ => Raise (mkExc ValueError "1 validation error for Flag")
       end;
     ToolClass.execute _ := Ok (PyBool true) |}.

Definition Faulty : ToolClass.t :=
  {| ToolClass.__name__ := "Faulty";
     ToolClass.Instance_ := PyValue;
     ToolClass.__init__ kwargs := Ok kwargs;
     ToolClass.execute _ := Raise (mkExc ValueError "Cannot divide by zero") |}.

(** The registry after the three registrations. *)
Definition registry : ToolRegistry.t :=
  snd ((ToolRegistry.register_tool Echo ;;;
        ToolRegistry.register_tool Flag ;;;
        ToolRegistry.register_tool Faulty) ToolRegistry.__init__).

(** *** Two prompts and the worlds they run in

    [plain_prompt] declares no tools and meets a client that answers once.
    [tool_prompt] declares two tools and meets a client whose first answer
    asks for [Echo] and [Flag] and whose second answer is the final text. *)
Definition plain_prompt : Prompt.t :=
  Prompt.mk "You are a helpful assistant." "Hello, how are you?"
    (PromptSettings.mk "openai" "gpt-4") None None.



Definition declared_tools : list PyValue := [PyObject "Echo"; PyObject "Flag"].

Definition tool_prompt : Prompt.t :=
  Prompt.mk "You are a helpful assistant that can use tools." "Say hi and raise the flag."
    (PromptSettings.mk "openai" "gpt-4") None (Some declared_tools).

Definition raw_calls : list ToolCall.t :=
  [ ToolCall.mk "call_1" (Function_.mk "Echo" (dumps (PyDict [("text", PyStr "hi")])));
    ToolCall.mk "call_2" (Function_.mk "Flag" (dumps (PyDict []))) ].

Definition first_message : ChatCompletionMessage.t :=
  ChatCompletionMessage.mk None (Some raw_calls).

Definition first_answer : ChatCompletion.t := ChatCompletion.mk [Choice.mk first_message].

Definition second_answer : ChatCompletion.t :=
  ChatCompletion.mk [Choice.mk (ChatCompletionMessage.mk (Some "hi, and the flag is up.") None)].

Definition tool_world : World.t (list ChatCompletion.t) :=
  World.mk registry [first_answer; second_answer] [].

End Sample.

(* --------------------------------------------------------------------- *)
(** ** blob_storage.py                                                    *)
(* --------------------------------------------------------------------- *)

(** [s.strip()].  The white space of Python is the characters 9 to 13, 28
    to 31 and 32, and, above ASCII, U+0085, U+00A0, U+1680, U+2000 to
    U+200A, U+2028, U+2029, U+202F, U+205F and U+3000, which a text holds
    as two or three bytes. *)
Definition space2 (c1 c2 : ascii) : bool :=
  let n1 := N_of_ascii c1 in
  let n2 := N_of_ascii c2 in
  ((n1 =? 194) && ((n2 =? 133) || (n2 =? 160)))%N.

Definition space3 (c1 c2 c3 : ascii) : bool :=
  let n1 := N_of_ascii c1 in
  let n2 := N_of_ascii c2 in
  let n3 := N_of_ascii c3 in
  (((n1 =? 225) && (n2 =? 154) && (n3 =? 128))
   || ((n1 =? 226) && (n2 =? 128)
       && (((128 <=? n3) && (n3 <=? 138)) || (n3 =? 168) || (n3 =? 169) || (n3 =? 175)))
   || ((n1 =? 226) && (n2 =? 129) && (n3 =? 159))
   || ((n1 =? 227) && (n2 =? 128) && (n3 =? 128)))%N.

Fixpoint lstrip (s : string) : string :=
  match s with
  | EmptyString => ""
  | String c1 rest1 =>
      if isspace c1 then lstrip rest1
      else match rest1 with
           | EmptyString => s
           | String c2 rest2 =>
               if space2 c1 c2 then lstrip rest2
               else match rest2 with
                    | EmptyString => s
                    | String c3 rest3 => if space3 c1 c2 c3 then lstrip rest3 else s
                    end
           end
  end.

(** The text is cut where what follows is white space to the end. *)
Fixpoint rstrip (s : string) : string :=
  match s with
  | EmptyString => ""
  | String c rest => if bool_decide (lstrip s = "") then "" else String c (rstrip rest)
  end.

Definition str_strip (s : string) : string := rstrip (lstrip s).

(** Truth value of a [str]. *)
Definition str_truthy (s : string) : bool := negb (bool_decide (s = "")).

(** What the client reads of a blob that [list_blobs] yields. *)
Module BlobProperties.
Record t : Type := mk {
  name : string;
  size : nat;
  creation_time : PyValue;
  last_modified : PyValue;
  content_type : PyValue;
}.
End BlobProperties.

(** The [dict] that [list_files] builds for one blob. *)
Module BlobRecord.
Record t : Type := mk {
  name : string;
  filename : string;
  size : nat;
  created_at : PyValue;
  modified_at : PyValue;
  content_type : PyValue;
}.
End BlobRecord.

(** The Azure SDK, as far as the client calls it.  [B] is the container the
    client was connected to, with its blobs.
    [from_connection_string cs name] stands for
    [BlobServiceClient.from_connection_string(cs).get_container_client(name)];
    the three reading calls take the name of a blob (or a prefix) and
    leave the container as it is; [upload_blob name data] is
    [get_blob_client(name).upload_blob(data, overwrite=True)].  Going
    through the blobs that [list_blobs] yields may raise as the call itself
    may: both are the [Raise] of [list_blobs]. *)
Class ContainerClient (B : Type) : Type := {
  from_connection_string : string -> string -> Result B;
  list_blobs : string -> B -> Result (list BlobProperties.t);
  download_blob_readall : string -> B -> Result bytes;
  get_blob_properties : string -> B -> Result BlobProperties.t;
  upload_blob : string -> bytes -> Py B unit;
}.

Definition STORAGE_CONNECTION_STRING_ENV_VAR : string :=
  "SMARTPROMPT_STORAGE_CONNECTION_STRING".

Definition ResourceExistsError : ExcClass := OtherException "ResourceExistsError".
Definition ResourceNotFoundError : ExcClass := OtherException "ResourceNotFoundError".

Definition is_ResourceExistsError (e : PyExc) : bool :=
  match exc_class e with
  | OtherException class_name => bool_decide (class_name = "ResourceExistsError")
  | _ => false
  end.

(** The calls to [logging] write to the log and are left out. *)
Module BlobStorageClient.
Section WithAzure.
Context {environ : Environ} {B : Type} {azure : ContainerClient B}.

Record t : Type := mk {
  _container_name : string;
  _working_folder : string;
}.

Definition _normalize_path (path : string) : string :=
  if negb (str_truthy path) then ""
  else
    let normalized := str_replace (String backslash "") "/" (str_strip path) in
    if negb (endswith_char "/" normalized) then normalized +:+ "/" else normalized.

(** [BlobStorageClient(container_name, working_folder="")]: the client and
    the container it is connected to. *)
Definition __init__ (container_name working_folder : string) : Result (t * B) :=
  if negb (str_truthy container_name) || negb (str_truthy (str_strip container_name))
  then Raise (mkExc ValueError "Container name is required and cannot be empty")
  else
    let self := mk (str_strip container_name) (_normalize_path working_folder) in
    let connection_string := os_getenv STORAGE_CONNECTION_STRING_ENV_VAR in
    match connection_string with
    | Some connection_string =>
        if str_truthy connection_string
        then match from_connection_string connection_string (_container_name self) with
             | Ok container => Ok (self, container)
             | Raise e =>
                 Raise (mkExc ValueError
                          ("Failed to initialize blob storage client: " +:+ exc_str e))
             end
        else Raise (mkExc ValueError
                      ("Storage connection string not found in environment variable: "
                       +:+ STORAGE_CONNECTION_STRING_ENV_VAR))
    | None => Raise (mkExc ValueError
                       ("Storage connection string not found in environment variable: "
                        +:+ STORAGE_CONNECTION_STRING_ENV_VAR))
    end.

Definition _get_full_path (self : t) (filename : string) : string :=
  _working_folder self +:+ filename.

Definition create_folder (self : t) : Py B bool :=
  if negb (str_truthy (_working_folder self)) then ret true
  else try_except
         (upload_blob (_working_folder self) [] ;;; ret true)
         (fun e => ret (is_ResourceExistsError e)).

(** The [for] loop of [list_files]. *)
Fixpoint list_files_loop (self : t) (blobs : list BlobProperties.t)
    (result : list BlobRecord.t) : list BlobRecord.t :=
  match blobs with
  | [] => result
  | blob :: rest =>
      if bool_decide (BlobProperties.name blob = _working_folder self)
      then list_files_loop self rest result
      else list_files_loop self rest
             (result ++ [ BlobRecord.mk (BlobProperties.name blob)
                            (last_component (BlobProperties.name blob))
                            (BlobProperties.size blob)
                            (BlobProperties.creation_time blob)
                            (BlobProperties.last_modified blob)
                            (BlobProperties.content_type blob) ])
  end.

Definition list_files (self : t) (container : B) : list BlobRecord.t :=
  match list_blobs (_working_folder self) container with
  | Ok blobs => list_files_loop self blobs []
  | Raise _ => []
  end.

Definition upload_file (self : t) (file_name : string) (content : bytes) : Py B bool :=
  if negb (str_truthy file_name) || negb (str_truthy (str_strip file_name))
  then ret false
  else try_except
         (let full_path := _get_full_path self (str_strip file_name) in
          upload_blob full_path content ;;; ret true)
         (fun e => ret false).

Definition download_file (self : t) (file_name : string) (container : B)
  : option bytes :=
  if negb (str_truthy file_name) || negb (str_truthy (str_strip file_name))
  then None
  else
    let full_path := _get_full_path self (str_strip file_name) in
    match download_blob_readall full_path container with
    | Ok content => Some content
    | Raise _ => None
    end.

Definition file_exists (self : t) (file_name : string) (container : B) : bool :=
  if negb (str_truthy file_name) || negb (str_truthy (str_strip file_name))
  then false
  else
    let full_path := _get_full_path self (str_strip file_name) in
    match get_blob_properties full_path container with
    | Ok _ => true
    | Raise _ => false
    end.

Definition working_folder (self : t) : string := _working_folder self.
Definition container_name (self : t) : string := _container_name self.

End WithAzure.
End BlobStorageClient.

(** [BlobStorageProvider] of storage_providers.py: a blob storage client on
    the folder of the prompt in the container [prompts]. *)
Module BlobStorageProvider.
Section WithAzure.
Context {environ : Environ} {B : Type} {azure : ContainerClient B}.

Record t : Type := mk { _blob_client : BlobStorageClient.t }.

Definition _container_name : string := "prompts".

Definition __init__ (prompt_name : string) : Result (t * B) :=
  created <-r BlobStorageClient.__init__ _container_name prompt_name ;;
  Ok (mk (fst created), snd created).

Definition list_files (self : t) (container : B) : list BlobRecord.t :=
  BlobStorageClient.list_files (_blob_client self) container.

Definition download_file (self : t) (file_name : string) (container : B)
  : option bytes :=
  BlobStorageClient.download_file (_blob_client self) file_name container.

Definition file_exists (self : t) (file_name : string) (container : B) : bool :=
  BlobStorageClient.file_exists (_blob_client self) file_name container.

End WithAzure.
End BlobStorageProvider.

(** *** Further instances, for the examples of Part III *)
Module MoreSamples.

(** A container held in memory: the blobs by name, in the order they were
    first uploaded.  Uploads of more than eight bytes are refused, and the
    blob [archive/] exists already and cannot be written. *)
Definition blob_of (entry : string * bytes) : BlobProperties.t :=
  BlobProperties.mk (fst entry) (length (snd entry)) (PyInt 0) (PyInt 0)
    (PyStr "application/octet-stream").

Definition memory_container : ContainerClient (list (string * bytes)) :=
  {| from_connection_string connection_string container_name :=
       if bool_decide (connection_string = "UseDevelopmentStorage=true") then Ok []
       else Raise (mkExc ValueError "Connection string is either blank or malformed.");
     list_blobs prefix container :=
       Ok (map blob_of (List.filter (fun entry => startswith prefix (fst entry)) container));
     download_blob_readall blob_name container :=
       match dict_get blob_name container with
       | Some content => Ok content
       | None => Raise (mkExc ResourceNotFoundError "The specified blob does not exist.")
       end;
     get_blob_properties blob_name container :=
       match dict_get blob_name container with
       | Some content => Ok (blob_of (blob_name, content))
       | None => Raise (mkExc ResourceNotFoundError "The specified blob does not exist.")
       end;
     upload_blob blob_name data container :=
       if bool_decide (blob_name = "archive/")
       then (Raise (mkExc ResourceExistsError "The specified blob already exists."),
             container)
       else if 8 <? length data
       then (Raise (mkExc (OtherException "HttpResponseError") "Request body too large."),
             container)
       else (Ok tt, dict_set blob_name data container) |}.

Definition development : Environ :=
  {| os_getenv variable :=
       if bool_decide (variable = "SMARTPROMPT_STORAGE_CONNECTION_STRING")
       then Some "UseDevelopmentStorage=true" else None |}.

Definition demo_client : BlobStorageClient.t := BlobStorageClient.mk "prompts" "demo/".

(** The sample prompt directory on a machine that has a file [/etc/hosts]. *)
Definition with_hosts : OS :=
  {| os_path_exists path :=
       bool_decide (path = "/etc/hosts") || @os_path_exists Sample.prompt_dir path;
     os_path_isdir := @os_path_isdir Sample.prompt_dir;
     os_path_isfile path :=
       bool_decide (path = "/etc/hosts") || @os_path_isfile Sample.prompt_dir path;
     os_listdir := @os_listdir Sample.prompt_dir;
     os_stat := @os_stat Sample.prompt_dir;
     open_rb_read path :=
       if bool_decide (path = "/etc/hosts") then Ok (str_encode "127.0.0.1 localhost")
       else @open_rb_read Sample.prompt_dir path |}.

(** An environment with the key of one provider, and an SDK whose client is
    the list of the arguments it was made with. *)
Definition openai_key_only : Environ :=
  {| os_getenv variable :=
       if bool_decide (variable = "OPENAI_API_KEY") then Some "sk-test" else None |}.

Definition recording_sdk : OpenAISDK (list (option string)) :=
  {| OpenAI api_key base_url := Ok [api_key; base_url];
     AzureOpenAI base_url api_key api_version := Ok [base_url; api_key; api_version] |}.

(** A parsing client that counts its calls and answers with the schema it
    was asked for. *)
Definition counting_parser : ParseClient nat :=
  {| beta_chat_completions_parse call count :=
       (Ok (ParsedChatCompletion.mk [ParseCall.response_format call]), S count) |}.

(** A stand-in for the declarations of the tools: the declaration of a class
    is an object shown by the name of the class. *)
Definition openai : OpenAILib :=
  {| pydantic_function_tool tool_class := Ok (PyObject (ToolClass.__name__ tool_class)) |}.

(** The sample prompt directory at the moment [user.md] is removed by
    somebody else: the file is still seen by [os.path.isfile] and is gone
    when [os.stat] looks at it. *)
Definition racing_dir : OS :=
  {| os_path_exists := @os_path_exists Sample.prompt_dir;
     os_path_isdir := @os_path_isdir Sample.prompt_dir;
     os_path_isfile := @os_path_isfile Sample.prompt_dir;
     os_listdir := @os_listdir Sample.prompt_dir;
     os_stat path :=
       if bool_decide (path = "prompts/demo/user.md")
       then Raise (mkExc OSError "No such file or directory")
       else @os_stat Sample.prompt_dir path;
     open_rb_read := @open_rb_read Sample.prompt_dir |}.

End MoreSamples.

(** Unfold the monad operations and reduce the matches they expose. *)
Ltac py_unfold :=
  cbv beta iota delta [bind ret raise lift try_except get_state modify_state rbind].

(* ===================================================================== *)
(** * Part II.  Properties                                                *)
(* ===================================================================== *)

(* --------------------------------------------------------------------- *)
(** ** The embedding on the inputs of the repository's tests              *)
(* --------------------------------------------------------------------- *)

(** [test_filesystem_provider_get_content_type] *)
Example get_content_type_of_the_tests :
  map FileSystemProvider._get_content_type
    ["test.json"; "test.md"; "test.txt"; "test.yaml"; "test.yml"; "test.unknown"]
  = ["application/json"; "text/markdown"; "text/plain"; "text/yaml"; "text/yaml";
     "application/octet-stream"].
Proof. reflexivity. Qed.

(** [test_memory_provider_list_files_with_user_prompt] and
    [..._without_user_prompt], [..._download_file_user_prompt_empty],
    [..._file_exists_without_user_prompt] *)
Example memory_provider_of_the_tests :
  let settings := PromptSettings.mk "openai" "gpt-4" in
  let full := MemoryProvider.__init__ "test system" settings "test user" in
  let bare := MemoryProvider.__init__ "test system" settings "" in
  map FileRecord.name (MemoryProvider.list_files (json := Sample.json) full)
  = ["settings.json"; "system.md"; "user.md"]
  /\ map FileRecord.content_type (MemoryProvider.list_files (json := Sample.json) full)
     = ["application/json"; "text/markdown"; "text/markdown"]
  /\ map FileRecord.name (MemoryProvider.list_files (json := Sample.json) bare)
     = ["settings.json"; "system.md"]
  /\ MemoryProvider.download_file (json := Sample.json) bare "user.md" = None
  /\ MemoryProvider.download_file (json := Sample.json) bare "nonexistent.md" = None
  /\ map (MemoryProvider.file_exists bare)
       ["settings.json"; "system.md"; "user.md"; "nonexistent.md"]
     = [true; true; false; false].
Proof. repeat split; reflexivity. Qed.

(** [test_memory_provider_with_placeholders] and
    [test_memory_provider_partial_placeholders] *)
Example loader_placeholders_of_the_tests :
  let provider :=
    MemoryProvider.__init__ "You are a {role} assistant. You help with {task_type}."
      (PromptSettings.mk "openai" "gpt-4") "Please help me with {specific_task}." in
  let prompts placeholders :=
    loader <-r PromptLoader.__init__ (json := Sample.json)
                 (provider_class := MemoryProvider_is_provider (json := Sample.json))
                 provider (Some placeholders) None None ;;
    Ok (Prompt.system_prompt (PromptLoader.get_prompt loader),
        Prompt.user_prompt (PromptLoader.get_prompt loader)) in
  prompts {[ "role" := "technical"; "task_type" := "programming";
             "specific_task" := "debugging Python code" ]}
  = Ok ("You are a technical assistant. You help with programming.",
        "Please help me with debugging Python code.")
  /\ prompts {[ "role" := "technical" ]}
     = Ok ("You are a technical assistant. You help with {task_type}.",
           "Please help me with {specific_task}.").
Proof. split; reflexivity. Qed.

(** The library functions on inputs run through Python:
    [re.findall(r"{(.*?)}", "{a}{b{a} x {c\n} {d}{}")],
    ["aaaaa".replace("aa", "b")], [repr] of texts with quotes, [str] of a
    list, [os.path.join] and [os.path.splitext]. *)
Example library_functions_as_in_python :
  findall_placeholders ("{a}{b{a} x {c" +:+ String newline "} {d}{}") = ["a"; "b{a"; "d"; ""]
  /\ str_replace "aa" "b" "aaaaa" = "bba"
  /\ repr_str "it's" = String dquote "it's" +:+ String dquote ""
  /\ repr_str ("both ' " +:+ String dquote "") = "'both \' " +:+ String dquote "'"
  /\ repr_str ("a" +:+ String "001" (String "127" (String "009" (String newline "\"))))
     = "'a\x01\x7f\t\n\\'"
  /\ py_str (PyList [PyStr "Echo"; PyInt (-12); PyBool true; PyDict [("a", PyNone)]])
     = "['Echo', -12, True, {'a': None}]"
  /\ os_path_join "prompts/demo" "" = "prompts/demo/"
  /\ os_path_join "a/" "x" = "a/x"
  /\ os_path_join "a" "/x" = "/x"
  /\ map splitext_ext ["..yml"; ".x.yml"; "a.b.JSON"; "a/b.c/d"] = [""; ".yml"; ".JSON"; ""].
Proof. repeat split; reflexivity. Qed.

(* --------------------------------------------------------------------- *)
(** ** Strings and dictionaries                                            *)
(* --------------------------------------------------------------------- *)

Lemma app_assoc_s (a b c : string) : (a +:+ b) +:+ c = a +:+ (b +:+ c).
Proof. induction a as [|x a IH]; simpl; [reflexivity | now f_equal]. Qed.

Lemma app_nil_r_s (a : string) : a +:+ "" = a.
Proof. induction a as [|x a IH]; simpl; [reflexivity | now f_equal]. Qed.

Lemma app_length_s (a b : string) :
  String.length (a +:+ b) = String.length a + String.length b.
Proof. induction a as [|x a IH]; simpl; [reflexivity | now f_equal]. Qed.

Lemma char_eqb_eq (a b : ascii) : char_eqb a b = true <-> a = b.
Proof. unfold char_eqb. apply bool_decide_eq_true. Qed.

Lemma char_eqb_refl (a : ascii) : char_eqb a a = true.
Proof. now apply char_eqb_eq. Qed.

Lemma char_eqb_neq (a b : ascii) : char_eqb a b = false <-> a <> b.
Proof. unfold char_eqb. apply bool_decide_eq_false. Qed.

Lemma mentions_refl (s : string) : mentions s s.
Proof. exists "", "". simpl. now rewrite app_nil_r_s. Qed.

Lemma mentions_app_l (s t x : string) : mentions s x -> mentions (s +:+ t) x.
Proof.
  intros (pre & post & ->). exists pre, (post +:+ t).
  now rewrite !app_assoc_s.
Qed.

Lemma mentions_app_r (s t x : string) : mentions t x -> mentions (s +:+ t) x.
Proof.
  intros (pre & post & ->). exists (s +:+ pre), post.
  now rewrite !app_assoc_s.
Qed.

Lemma mentions_join (sep : string) (parts : list string) (x : string) :
  x ∈ parts -> mentions (join sep parts) x.
Proof.
  induction parts as [|p rest IH]; intros Hx; [now apply elem_of_nil in Hx |].
  apply elem_of_cons in Hx as [-> | Hx].
  - destruct rest; simpl; [apply mentions_refl | apply mentions_app_l, mentions_refl].
  - destruct rest as [|q rest]; [now apply elem_of_nil in Hx |].
    change (join sep (p :: q :: rest)) with (p +:+ sep +:+ join sep (q :: rest)).
    now apply mentions_app_r, mentions_app_r, IH.
Qed.

Lemma dict_get_None {V} (k : string) (d : list (string * V)) :
  dict_get k d = None <-> k ∉ dict_keys d.
Proof.
  induction d as [|[k' v] d IH]; simpl.
  - split; [intros _; apply not_elem_of_nil | reflexivity].
  - rewrite not_elem_of_cons. case_bool_decide; [split; [discriminate | tauto] |].
    rewrite IH. tauto.
Qed.

(* --------------------------------------------------------------------- *)
(** ** The dispatch loop (tool_runner.py, tool_registry.py)               *)
(* --------------------------------------------------------------------- *)

(** A failed lookup raises the [ValueError] of [get_tool] and leaves the
    registry as it was. *)
Lemma get_tool_unknown (name : string) (reg : ToolRegistry.t) :
  name ∉ dict_keys (ToolRegistry._tools reg) ->
  ToolRegistry.get_tool name reg =
    (Raise (mkExc ValueError
              ("Tool '" +:+ name +:+ "' not found. Available tools: "
               +:+ py_str (PyList (map PyStr (dict_keys (ToolRegistry._tools reg)))))),
     reg).
Proof.
  intros Hname%dict_get_None.
  unfold ToolRegistry.get_tool. py_unfold. now rewrite Hname.
Qed.

(** One dispatch always returns a response, never raises, keeps the
    registry, and copies the three fields of the request. *)
Lemma dispatch_tool_call_returns (req : ToolCallRequest.t) (reg : ToolRegistry.t) :
  exists resp,
    ToolRunner._dispatch_tool_call req reg = (Ok resp, reg)
    /\ ToolCallResponse.tool_call_id resp = ToolCallRequest.id req
    /\ ToolCallResponse.function_name resp = ToolCallRequest.function_name req
    /\ ToolCallResponse.arguments resp = ToolCallRequest.arguments req.
Proof.
  unfold ToolRunner._dispatch_tool_call, ToolRegistry.get_tool. py_unfold.
  destruct (dict_get (ToolCallRequest.function_name req) (ToolRegistry._tools reg))
    as [tool_class|]; [| eexists; split; [reflexivity | now simpl]].
  destruct (ToolClass.__init__ tool_class (ToolCallRequest.arguments req))
    as [instance|e]; [| eexists; split; [reflexivity | now simpl]].
  destruct (ToolClass.execute tool_class instance) as [value|e];
    eexists; (split; [reflexivity | now simpl]).
Qed.

Lemma run_tools_loop_returns (reqs : list ToolCallRequest.t)
    (acc : list ToolCallResponse.t) (reg : ToolRegistry.t) :
  exists resps,
    ToolRunner.run_tools_loop reqs acc reg = (Ok (acc ++ resps), reg)
    /\ map ToolCallResponse.tool_call_id resps = map ToolCallRequest.id reqs
    /\ map ToolCallResponse.function_name resps = map ToolCallRequest.function_name reqs
    /\ map ToolCallResponse.arguments resps = map ToolCallRequest.arguments reqs.
Proof.
  revert acc. induction reqs as [|req reqs IH]; intros acc.
  - exists []. simpl. now rewrite app_nil_r.
  - destruct (dispatch_tool_call_returns req reg) as (resp & Hd & Hid & Hfn & Hargs).
    destruct (IH (acc ++ [resp])) as (resps & Hloop & Hids & Hfns & Hargss).
    exists (resp :: resps). simpl. unfold bind at 1. rewrite Hd, Hloop.
    rewrite <- app_assoc. simpl. rewrite Hid, Hfn, Hargs, Hids, Hfns, Hargss. auto.
Qed.

(** C1.  For every list of requests and every registry, [run_tools] returns
    (it raises nothing) a list of responses of the same length; position by
    position the response carries the id, the function name and the
    arguments of the request.  The registry is left as it was. *)
Theorem run_tools_one_response_per_request
    (reqs : list ToolCallRequest.t) (reg : ToolRegistry.t) :
  exists resps,
    ToolRunner.run_tools reqs reg = (Ok resps, reg)
    /\ length resps = length reqs
    /\ (forall i, ToolCallResponse.tool_call_id <$> resps !! i
                  = ToolCallRequest.id <$> reqs !! i)
    /\ map ToolCallResponse.function_name resps = map ToolCallRequest.function_name reqs
    /\ map ToolCallResponse.arguments resps = map ToolCallRequest.arguments reqs.
Proof.
  destruct (run_tools_loop_returns reqs [] reg) as (resps & Hloop & Hids & Hfns & Hargs).
  exists resps. repeat split; try assumption.
  - destruct reqs; [| exact Hloop].
    destruct resps; [reflexivity | discriminate Hids].
  - rewrite <- (length_map ToolCallResponse.tool_call_id), Hids. apply length_map.
  - intros i. rewrite <- !list_lookup_fmap.
    change (map ToolCallResponse.tool_call_id resps !! i
            = map ToolCallRequest.id reqs !! i).
    now rewrite Hids.
Qed.

(** C2.  A request for a name that is not registered gets a response of
    status [error] whose result is the message of [get_tool]: it holds the
    attempted name and the [repr] of every registered name.  Nothing is
    raised, in [_dispatch_tool_call] and in [run_tools] alike, and the
    registry is left as it was. *)
Theorem dispatch_unknown_tool (req : ToolCallRequest.t) (reg : ToolRegistry.t) :
  ToolCallRequest.function_name req ∉ dict_keys (ToolRegistry._tools reg) ->
  let name := ToolCallRequest.function_name req in
  let known := dict_keys (ToolRegistry._tools reg) in
  let message :=
    "Tool '" +:+ name +:+ "' not found. Available tools: "
    +:+ py_str (PyList (map PyStr known)) in
  let response :=
    ToolCallResponse.mk (ToolCallRequest.id req) name (ToolCallRequest.arguments req)
      (PyStr message) "error" in
  ToolRunner._dispatch_tool_call req reg = (Ok response, reg)
  /\ ToolRunner.run_tools [req] reg = (Ok [response], reg)
  /\ mentions message name
  /\ (forall tool, tool ∈ known -> mentions message (repr_str tool)).
Proof.
  intros Hname name known message response.
  assert (Hd : ToolRunner._dispatch_tool_call req reg = (Ok response, reg)).
  { unfold ToolRunner._dispatch_tool_call, try_except, bind at 1.
    now rewrite (get_tool_unknown _ _ Hname). }
  split; [exact Hd |]. split; [| split].
  - simpl. unfold bind. now rewrite Hd.
  - apply mentions_app_r, mentions_app_l, mentions_refl.
  - intros tool Htool. unfold message.
    do 3 apply mentions_app_r.
    change (py_str (PyList (map PyStr known)))
      with ("[" +:+ join ", " (map py_repr (map PyStr known)) +:+ "]").
    apply mentions_app_r, mentions_app_l, mentions_join.
    rewrite map_map. apply (list_elem_of_fmap_2 repr_str), Htool.
Qed.

(** The hypothesis of C2 holds of the sample registry and the name
    [Nope]. *)
Lemma dispatch_unknown_tool_witness :
  ToolRunner._dispatch_tool_call (ToolCallRequest.mk "call_1" "Nope" (PyDict []))
    Sample.registry
  = (Ok (ToolCallResponse.mk "call_1" "Nope" (PyDict [])
           (PyStr "Tool 'Nope' not found. Available tools: ['Echo', 'Flag', 'Faulty']")
           "error"),
     Sample.registry).
Proof.
  refine (proj1 (dispatch_unknown_tool
                   (ToolCallRequest.mk "call_1" "Nope" (PyDict [])) Sample.registry _)).
  vm_compute. intros H. repeat (apply elem_of_cons in H as [H | H]; [discriminate H |]).
  now apply elem_of_nil in H.
Defined.

(* --------------------------------------------------------------------- *)
(** ** The prompt loader over a provider (prompt_loader.py)               *)
(* --------------------------------------------------------------------- *)

Lemma decode_encode (s : string) : is_text s -> bytes_decode (str_encode s) = Ok s.
Proof.
  unfold is_text, bytes_decode, str_encode. intros ->.
  now rewrite String.string_of_list_byte_of_string.
Qed.

Section Loader.
Context {json : JsonModule} {P : Type} {provider_class : StorageProviderBase P}.

Lemma fill_loop_empty_text (d : gmap string string) : PromptLoader.fill_loop d "" = "".
Proof. reflexivity. Qed.


(** The loader keeps what it was built with. *)
Lemma init_keeps_arguments (provider : P) placeholders response_schema tools loader :
  PromptLoader.__init__ provider placeholders response_schema tools = Ok loader ->
  PromptLoader._response_schema loader = response_schema
  /\ PromptLoader._tools loader = tools.
Proof.
  unfold PromptLoader.__init__, PromptLoader.load, rbind.
  repeat (case_match; try discriminate).
  all: intros [= <-]; split; reflexivity.
Qed.

Lemma init_settings_absent (provider : P) placeholders response_schema tools :
  download_file provider "settings.json" = None ->
  exists message,
    PromptLoader.__init__ provider placeholders response_schema tools
    = Raise (mkExc ValueError message)
    /\ message <> "system.md not found in prompt directory"
    /\ (list_files provider <> [] ->
        message = "settings.json not found in prompt directory").
Proof.
  intros Hsettings. unfold PromptLoader.__init__, PromptLoader.load.
  rewrite Hsettings. destruct (list_files provider).
  - eexists. split; [reflexivity |]. split; [discriminate | congruence].
  - eexists. split; [reflexivity |]. split; [discriminate | reflexivity].
Qed.

Lemma init_system_absent (provider : P) placeholders response_schema tools
    content text settings_json prompt_settings :
  list_files provider <> [] ->
  download_file provider "settings.json" = Some content ->
  bytes_decode content = Ok text ->
  json_loads text = Ok settings_json ->
  PromptSettings.from_kwargs settings_json = Ok prompt_settings ->
  download_file provider "system.md" = None ->
  PromptLoader.__init__ provider placeholders response_schema tools
  = Raise (mkExc ValueError "system.md not found in prompt directory").
Proof.
  intros Hlist Hsettings Hdecode Hloads Hkwargs Hsystem.
  unfold PromptLoader.__init__, PromptLoader.load.
  destruct (list_files provider); [congruence |].
  rewrite Hsettings, Hdecode. simpl. rewrite Hloads. simpl. rewrite Hkwargs. simpl.
  now rewrite Hsystem.
Qed.

Lemma init_user_absent (provider : P) placeholders response_schema tools
    content text settings_json prompt_settings system_content system_prompt :
  list_files provider <> [] ->
  download_file provider "settings.json" = Some content ->
  bytes_decode content = Ok text ->
  json_loads text = Ok settings_json ->
  PromptSettings.from_kwargs settings_json = Ok prompt_settings ->
  download_file provider "system.md" = Some system_content ->
  bytes_decode system_content = Ok system_prompt ->
  download_file provider "user.md" = None ->
  exists loader,
    PromptLoader.__init__ provider placeholders response_schema tools = Ok loader
    /\ PromptLoader._user_prompt loader = ""
    /\ PromptLoader._prompt_settings loader = prompt_settings.
Proof.
  intros Hlist Hsettings Hdecode Hloads Hkwargs Hsystem Hsysdecode Huser.
  unfold PromptLoader.__init__, PromptLoader.load.
  destruct (list_files provider); [congruence |].
  rewrite Hsettings, Hdecode. simpl. rewrite Hloads. simpl. rewrite Hkwargs. simpl.
  rewrite Hsystem, Hsysdecode. simpl. rewrite Huser. simpl.
  eexists. split; [reflexivity |].
  destruct placeholders as [d|]; [destruct (PromptLoader.truthy (Some d)) |];
    split; reflexivity.
Qed.

(** C4.  Construction of a loader: (1) when the download of [settings.json]
    gives nothing it raises a [ValueError], which for a prompt that exists
    is the one that names [settings.json]; (2) when the settings load and
    the download of [system.md] gives nothing it raises the [ValueError]
    that names [system.md], another message; (3) when the settings and the
    system text load and only the download of [user.md] gives nothing it
    returns a loader whose user text is empty. *)
Theorem loader_required_and_optional_artifacts
    (provider : P) (placeholders : option (gmap string string))
    (response_schema : option PyValue) (tools : option (list PyValue)) :
  let construction := PromptLoader.__init__ provider placeholders response_schema tools in
  (download_file provider "settings.json" = None ->
   exists message,
     construction = Raise (mkExc ValueError message)
     /\ is_ValueError (mkExc ValueError message) = true
     /\ message <> "system.md not found in prompt directory"
     /\ (list_files provider <> [] ->
         message = "settings.json not found in prompt directory"))
  /\ (forall content text settings_json prompt_settings,
        list_files provider <> [] ->
        download_file provider "settings.json" = Some content ->
        bytes_decode content = Ok text ->
        json_loads text = Ok settings_json ->
        PromptSettings.from_kwargs settings_json = Ok prompt_settings ->
        (download_file provider "system.md" = None ->
         construction = Raise (mkExc ValueError "system.md not found in prompt directory"))
        /\ (forall system_content system_prompt,
              download_file provider "system.md" = Some system_content ->
              bytes_decode system_content = Ok system_prompt ->
              download_file provider "user.md" = None ->
              exists loader,
                construction = Ok loader /\ PromptLoader._user_prompt loader = "")).
Proof.
  intros construction. split.
  - intros Hsettings.
    destruct (init_settings_absent provider placeholders response_schema tools Hsettings)
      as (message & Hraise & Hother & Hexact).
    exists message. repeat split; assumption.
  - intros content text settings_json prompt_settings Hlist Hsettings Hdecode Hloads Hkwargs.
    split.
    + intros Hsystem. eapply init_system_absent; eassumption.
    + intros system_content system_prompt Hsystem Hsysdecode Huser.
      destruct (init_user_absent provider placeholders response_schema tools
                  _ _ _ _ _ _ Hlist Hsettings Hdecode Hloads Hkwargs Hsystem Hsysdecode Huser)
        as (loader & Hok & Hempty & _).
      exists loader. split; assumption.
Qed.

End Loader.

(* --------------------------------------------------------------------- *)
(** ** The memory provider (storage_providers.py)                         *)
(* --------------------------------------------------------------------- *)

Section Memory.
Context {json : JsonModule}.

Lemma memory_list_files_names (self : MemoryProvider.t) :
  map FileRecord.name (list_files self)
  = ["settings.json"; "system.md"]
    ++ (if bool_decide (MemoryProvider._user_prompt self = "") then [] else ["user.md"]).
Proof.
  simpl. unfold MemoryProvider.list_files, MemoryProvider.truthy.
  now case_bool_decide.
Qed.

Lemma memory_list_files_nonempty (self : MemoryProvider.t) : list_files self <> [].
Proof.
  intros Hnil. pose proof (memory_list_files_names self) as Hnames.
  rewrite Hnil in Hnames. discriminate Hnames.
Qed.

Lemma memory_init_is_load (self : MemoryProvider.t)
    (placeholders : option (gmap string string))
    (response_schema : option PyValue) (tools : option (list PyValue)) :
  PromptLoader.__init__ self placeholders response_schema tools
  = PromptLoader.load self placeholders response_schema tools.
Proof.
  unfold PromptLoader.__init__.
  pose proof (memory_list_files_nonempty self).
  destruct (list_files self); [congruence | reflexivity].
Qed.

(** C10.  The listing of a memory provider is never empty: its names are
    [settings.json], [system.md] and then [user.md] exactly when the user
    text is not empty.  So the first check of the loader passes: its
    construction over a memory provider is the rest of [__init__]. *)
Theorem memory_provider_listing_never_empty (self : MemoryProvider.t)
    (placeholders : option (gmap string string))
    (response_schema : option PyValue) (tools : option (list PyValue)) :
  list_files self <> []
  /\ map FileRecord.name (list_files self)
     = ["settings.json"; "system.md"]
       ++ (if bool_decide (MemoryProvider._user_prompt self = "") then [] else ["user.md"])
  /\ ("user.md" ∈ map FileRecord.name (list_files self)
      <-> MemoryProvider._user_prompt self <> "")
  /\ PromptLoader.__init__ self placeholders response_schema tools
     = PromptLoader.load self placeholders response_schema tools.
Proof.
  pose proof (memory_list_files_names self) as Hnames.
  split; [apply memory_list_files_nonempty |]. split; [exact Hnames |].
  split; [| apply memory_init_is_load].
  rewrite Hnames. case_bool_decide as Huser; simpl.
  - split; [| congruence]. intros Hin.
    repeat (apply elem_of_cons in Hin as [Hin | Hin]; [discriminate Hin |]).
    now apply elem_of_nil in Hin.
  - split; [auto |]. intros _. rewrite !elem_of_cons. auto.
Qed.

(** C6.  Round trip through a memory provider.  [S] and [U] are texts, and
    the [json] module gives back the settings it wrote (its output being a
    text); then the loader built without placeholders over the provider
    that holds [S], [U] and the settings [openai], [gpt-4] yields a prompt
    with system text [S], user text [U] and provider [openai]. *)
Theorem memory_loader_round_trip (S U : string)
    (response_schema : option PyValue) (tools : option (list PyValue)) :
  let prompt_settings := PromptSettings.mk "openai" "gpt-4" in
  let written := json_dumps (PromptSettings.__dict__ prompt_settings) in
  is_text S -> is_text U -> is_text written ->
  json_loads written = Ok (PromptSettings.__dict__ prompt_settings) ->
  exists loader,
    PromptLoader.__init__ (MemoryProvider.__init__ S prompt_settings U)
      None response_schema tools = Ok loader
    /\ Prompt.system_prompt (PromptLoader.get_prompt loader) = S
    /\ Prompt.user_prompt (PromptLoader.get_prompt loader) = U
    /\ PromptSettings.provider (Prompt.settings (PromptLoader.get_prompt loader)) = "openai"
    /\ PromptSettings.model (Prompt.settings (PromptLoader.get_prompt loader)) = "gpt-4".
Proof.
  intros prompt_settings written HS HU Hwritten Hloads.
  rewrite memory_init_is_load.
  unfold PromptLoader.load, MemoryProvider.__init__. simpl.
  unfold MemoryProvider.download_file. simpl.
  fold prompt_settings. fold written.
  rewrite (decode_encode _ Hwritten). simpl. rewrite Hloads. simpl.
  rewrite (decode_encode _ HS). simpl.
  unfold MemoryProvider.truthy. case_bool_decide as Hempty; simpl.
  - eexists. split; [reflexivity |]. simpl. auto.
  - rewrite (decode_encode _ HU). simpl. eexists. split; [reflexivity |]. simpl. auto.
Qed.

End Memory.

(* --------------------------------------------------------------------- *)
(** ** Examples for the loader                                            *)
(* --------------------------------------------------------------------- *)

(** The three cases of C4 on three directories: one without
    [settings.json], one without [system.md], one without [user.md]. *)
Lemma loader_required_and_optional_artifacts_witness :
  PromptLoader.__init__ (json := Sample.json)
    (provider_class := @FileSystemProvider_is_provider Sample.no_settings_dir)
    Sample.demo None None None
  = Raise (mkExc ValueError "settings.json not found in prompt directory")
  /\ PromptLoader.__init__ (json := Sample.json)
       (provider_class := @FileSystemProvider_is_provider Sample.no_system_dir)
       Sample.demo None None None
     = Raise (mkExc ValueError "system.md not found in prompt directory")
  /\ exists loader,
       PromptLoader.__init__ (json := Sample.json)
         (provider_class := @FileSystemProvider_is_provider Sample.no_user_dir)
         Sample.demo None None None = Ok loader
       /\ PromptLoader._user_prompt loader = "".
Proof.
  split; [| split].
  - destruct (proj1 (loader_required_and_optional_artifacts (json := Sample.json)
                       (provider_class := @FileSystemProvider_is_provider Sample.no_settings_dir)
                       Sample.demo None None None) eq_refl)
      as (message & Hraise & _ & _ & Hexact).
    rewrite Hraise. rewrite Hexact; [reflexivity | discriminate].
  - refine (proj1 (proj2 (loader_required_and_optional_artifacts (json := Sample.json)
                            (provider_class := @FileSystemProvider_is_provider Sample.no_system_dir)
                            Sample.demo None None None)
                     (str_encode Sample.settings_text) Sample.settings_text
                     (PromptSettings.__dict__ (PromptSettings.mk "openai" "gpt-4"))
                     (PromptSettings.mk "openai" "gpt-4") _ eq_refl eq_refl eq_refl eq_refl)
              eq_refl).
    discriminate.
  - refine (proj2 (proj2 (loader_required_and_optional_artifacts (json := Sample.json)
                            (provider_class := @FileSystemProvider_is_provider Sample.no_user_dir)
                            Sample.demo None None None)
                     (str_encode Sample.settings_text) Sample.settings_text
                     (PromptSettings.__dict__ (PromptSettings.mk "openai" "gpt-4"))
                     (PromptSettings.mk "openai" "gpt-4") _ eq_refl eq_refl eq_refl eq_refl)
              (str_encode "You are a helpful assistant.") "You are a helpful assistant."
              eq_refl eq_refl eq_refl).
    discriminate.
Defined.

(** The hypotheses of C6 hold of two sample texts and the sample codec. *)
Lemma memory_loader_round_trip_witness :
  exists loader,
    PromptLoader.__init__ (json := Sample.json)
      (provider_class := MemoryProvider_is_provider (json := Sample.json))
      (MemoryProvider.__init__ "You are a helpful assistant."
         (PromptSettings.mk "openai" "gpt-4") "Hello, how are you?")
      None None None = Ok loader
    /\ Prompt.system_prompt (PromptLoader.get_prompt loader) = "You are a helpful assistant."
    /\ Prompt.user_prompt (PromptLoader.get_prompt loader) = "Hello, how are you?"
    /\ PromptSettings.provider (Prompt.settings (PromptLoader.get_prompt loader)) = "openai"
    /\ PromptSettings.model (Prompt.settings (PromptLoader.get_prompt loader)) = "gpt-4".
Proof.
  apply (memory_loader_round_trip (json := Sample.json)
           "You are a helpful assistant." "Hello, how are you?" None None);
    reflexivity.
Defined.

(** C3, at a loader built with a tool list: the prompt of [get_prompt] has
    the schema the loader was built with, and its [tools] field is [None]
    although the loader holds the list. *)
Lemma get_prompt_drops_tools_example :
  (loader <-r PromptLoader.__init__ (json := Sample.json)
                (provider_class := MemoryProvider_is_provider (json := Sample.json))
                (MemoryProvider.__init__ "You are a helpful assistant."
                   (PromptSettings.mk "openai" "gpt-4") "")
                None (Some (PyObject "WeatherReport")) (Some [PyObject "GetCurrentTime"]) ;;
   Ok (PromptLoader._tools loader,
       Prompt.tools (PromptLoader.get_prompt loader),
       Prompt.response_schema (PromptLoader.get_prompt loader)))
  = Ok (Some [PyObject "GetCurrentTime"], None, Some (PyObject "WeatherReport")).
Proof. reflexivity. Qed.

(* --------------------------------------------------------------------- *)
(** ** The model orchestrator (model_client.py)                           *)
(* --------------------------------------------------------------------- *)

Section Orchestrator.
Context {json : JsonModule} {C : Type} {client_class : ChatClient C}.

(** The request list built from the raw tool calls keeps their ids, their
    names and their order. *)
Lemma tool_requests_of_ids (raw : list ToolCall.t) (requests : list ToolCallRequest.t) :
  ModelClient.tool_requests_of raw = Ok requests ->
  map ToolCallRequest.id requests = map ToolCall.id raw
  /\ map ToolCallRequest.function_name requests
     = map (fun tool_call => Function_.name (ToolCall.function tool_call)) raw.
Proof.
  revert requests. induction raw as [|tool_call raw IH]; intros requests; simpl.
  - intros [= <-]. split; reflexivity.
  - destruct (json_loads _) as [arguments|e]; simpl; [| discriminate].
    destruct (ModelClient.tool_requests_of raw) as [rest|e]; simpl; [| discriminate].
    intros [= <-]. destruct (IH rest eq_refl) as [Hids Hnames].
    simpl. rewrite Hids, Hnames. split; reflexivity.
Qed.

Lemma tool_messages_length (results : list ToolCallResponse.t) :
  length (ModelClient.tool_messages results) = length results.
Proof. apply length_map. Qed.


(** C8.  A prompt that declares tools, a first call that returns a
    completion whose first message carries [N] tool calls, all with
    arguments that [json.loads] decodes.  Then the dispatch loop returns
    [N] responses, in the order of the calls and with their ids; the
    orchestrator calls the client a second time, with the same model and
    tools and the messages: the two base messages, the first message of the
    first completion as it came, and one tool message per response with the
    id of the response and [str] of its result.  That list has [2 + 1 + N]
    elements.  No other call is made, the registry is as before, and the
    result is what the second call gives. *)
Theorem text_completion_with_tools (self : ModelClient.t) (w : World.t C)
    (declared : list PyValue) (completion : ChatCompletion.t) (client1 : C)
    (first : ChatCompletionMessage.t) (others : list Choice.t)
    (raw : list ToolCall.t) (requests : list ToolCallRequest.t) :
  let prompt := ModelClient._prompt self in
  let model := PromptSettings.model (Prompt.settings prompt) in
  let base := [ RoleContent "system" (Prompt.system_prompt prompt);
                RoleContent "user" (Prompt.user_prompt prompt) ] in
  let call1 := CreateCall.mk model base (Some declared) in
  Prompt.tools prompt = Some declared ->
  chat_completions_create call1 (World.client w) = (Ok completion, client1) ->
  ChatCompletion.choices completion = Choice.mk first :: others ->
  ChatCompletionMessage.tool_calls first = Some raw ->
  ModelClient.tool_requests_of raw = Ok requests ->
  exists results,
    ToolRunner.run_tools requests (World.registry w) = (Ok results, World.registry w)
    /\ length results = length raw
    /\ map ToolCallResponse.tool_call_id results = map ToolCall.id raw
    /\ let messages :=
         base ++ [RawMessage first]
         ++ map (fun result => ToolResult (ToolCallResponse.tool_call_id result)
                                 (py_str (ToolCallResponse.result result))) results in
       let call2 := CreateCall.mk model messages (Some declared) in
       let answer := chat_completions_create call2 client1 in
       length messages = 2 + 1 + length raw
       /\ snd (ModelClient.get_text_completion self w)
          = World.mk (World.registry w) (snd answer) (World.calls w ++ [call1; call2])
       /\ (forall completion2 choice others2,
             fst answer = Ok completion2 ->
             ChatCompletion.choices completion2 = choice :: others2 ->
             fst (ModelClient.get_text_completion self w)
             = Ok (ChatCompletionMessage.content (Choice.message choice))).
Proof.
  intros prompt model base call1 Htools Hfirst Hchoices Hraw Hrequests.
  destruct (tool_requests_of_ids raw requests Hrequests) as [Hids _].
  destruct (run_tools_loop_returns requests [] (World.registry w))
    as (results & Hloop & Hrids & _ & _).
  assert (Hrun : ToolRunner.run_tools requests (World.registry w)
                 = (Ok results, World.registry w)).
  { destruct requests; [| exact Hloop].
    destruct results; [reflexivity | discriminate Hrids]. }
  assert (Hlen : length results = length raw).
  { rewrite <- (length_map ToolCallResponse.tool_call_id), Hrids, Hids. apply length_map. }
  exists results. split; [exact Hrun |]. split; [exact Hlen |].
  split; [now rewrite Hrids |].
  intros messages call2 answer.
  split; [unfold messages; rewrite !length_app, length_map; simpl; lia |].
  unfold ModelClient.get_text_completion. fold prompt. rewrite Htools.
  unfold ModelClient.create, ModelClient._build_base_messages, ModelClient.first_message,
    ModelClient.on_registry.
  py_unfold. fold prompt. fold model. fold base. fold call1.
  rewrite Hfirst, Hchoices. simpl. rewrite Hraw, Hrequests.
  cbn [World.registry World.client World.calls]. rewrite Hrun.
  cbn [World.registry World.client World.calls].
  unfold ModelClient.tool_messages.
  subst answer call2 messages. rewrite <- !app_assoc. simpl.
  destruct (chat_completions_create _ client1) as [[completion2|e] client2]; simpl.
  - split; [now destruct (ChatCompletion.choices completion2) |].
    intros ? choice others2 [= <-] ->. reflexivity.
  - split; [reflexivity | discriminate].
Qed.

End Orchestrator.


(** The hypotheses of C8 hold of the sample prompt with tools, for [N = 2]:
    two responses in the order of the calls, and a second call with five
    messages. *)
Lemma text_completion_with_tools_witness :
  ModelClient.get_text_completion (json := Sample.json)
    (ModelClient.mk Sample.tool_prompt) Sample.tool_world
  = (Ok (Some "hi, and the flag is up."),
     World.mk Sample.registry []
       [ CreateCall.mk "gpt-4"
           [ RoleContent "system" "You are a helpful assistant that can use tools.";
             RoleContent "user" "Say hi and raise the flag." ]
           (Some Sample.declared_tools);
         CreateCall.mk "gpt-4"
           [ RoleContent "system" "You are a helpful assistant that can use tools.";
             RoleContent "user" "Say hi and raise the flag.";
             RawMessage Sample.first_message;
             ToolResult "call_1" "hi";
             ToolResult "call_2" "True" ]
           (Some Sample.declared_tools) ]).
Proof.
  destruct (text_completion_with_tools (json := Sample.json)
              (client_class := Sample.scripted)
              (ModelClient.mk Sample.tool_prompt) Sample.tool_world
              Sample.declared_tools Sample.first_answer [Sample.second_answer]
              Sample.first_message [] Sample.raw_calls
              [ ToolCallRequest.mk "call_1" "Echo" (PyDict [("text", PyStr "hi")]);
                ToolCallRequest.mk "call_2" "Flag" (PyDict []) ]
              eq_refl eq_refl eq_refl eq_refl eq_refl)
    as (results & Hrun & _ & _ & _ & Hworld & Hresult).
  injection Hrun as <-.
  specialize (Hresult _ _ _ eq_refl eq_refl).
  rewrite (surjective_pairing (ModelClient.get_text_completion _ _)).
  rewrite Hworld, Hresult. reflexivity.
Defined.

(* --------------------------------------------------------------------- *)
(** ** The file system provider (storage_providers.py)                    *)
(* --------------------------------------------------------------------- *)

Section FileSystem.
Context {os : OS}.

(** C9, as the code has it.  [list_files] returns the empty list when the
    listing of the directory raises.  [download_file] joins the name to the
    prompt path, whatever the name is, and returns [None] when nothing
    exists at that path or when reading it raises, and the bytes read
    otherwise. *)
Theorem filesystem_provider_swallows_errors
    (self : FileSystemProvider.t) (file_name : string) :
  let file_path := os_path_join (FileSystemProvider._prompt_path self) file_name in
  (forall e, os_listdir (FileSystemProvider._prompt_path self) = Raise e ->
             list_files self = [])
  /\ (os_path_exists file_path = false -> download_file self file_name = None)
  /\ (forall e, open_rb_read file_path = Raise e -> download_file self file_name = None)
  /\ (forall content,
        os_path_exists file_path = true ->
        open_rb_read file_path = Ok content ->
        download_file self file_name = Some content).
Proof.
  intros file_path. simpl.
  unfold FileSystemProvider.list_files, FileSystemProvider.download_file.
  fold file_path. repeat split.
  - intros e ->. reflexivity.
  - intros ->. reflexivity.
  - intros e ->. now destruct (os_path_exists file_path).
  - intros content -> ->. reflexivity.
Qed.

End FileSystem.

(** The four cases of C9 on sample directories: a listing that fails, a
    name nothing exists under, the empty name (the path of the directory
    itself, which cannot be read), and a file that is there. *)
Lemma filesystem_provider_swallows_errors_witness :
  list_files (StorageProviderBase := @FileSystemProvider_is_provider Sample.removed_dir)
    Sample.demo = []
  /\ download_file (StorageProviderBase := @FileSystemProvider_is_provider Sample.prompt_dir)
       Sample.demo "nonexistent.md" = None
  /\ download_file (StorageProviderBase := @FileSystemProvider_is_provider Sample.prompt_dir)
       Sample.demo "" = None
  /\ download_file (StorageProviderBase := @FileSystemProvider_is_provider Sample.prompt_dir)
       Sample.demo "system.md" = Some (str_encode "You are a helpful assistant.").
Proof.
  split; [| split; [| split]].
  - exact (proj1 (filesystem_provider_swallows_errors (os := Sample.removed_dir)
                    Sample.demo "")
             (mkExc OSError "No such file or directory") eq_refl).
  - exact (proj1 (proj2 (filesystem_provider_swallows_errors (os := Sample.prompt_dir)
                           Sample.demo "nonexistent.md")) eq_refl).
  - exact (proj1 (proj2 (proj2 (filesystem_provider_swallows_errors (os := Sample.prompt_dir)
                                  Sample.demo "")))
             (mkExc OSError "Is a directory") eq_refl).
  - exact (proj2 (proj2 (proj2 (filesystem_provider_swallows_errors (os := Sample.prompt_dir)
                                  Sample.demo "system.md")))
             (str_encode "You are a helpful assistant.") eq_refl eq_refl).
Defined.

(** Against C9 as stated: a name that is all white space and for which
    [download_file] returns bytes, those of the file of that name. *)
Lemma filesystem_download_blank_name :
  blank " " = true
  /\ download_file (StorageProviderBase := @FileSystemProvider_is_provider Sample.prompt_dir)
       Sample.demo " " = Some (str_encode "stray").
Proof. split; reflexivity. Qed.

(* --------------------------------------------------------------------- *)
(** ** Placeholder substitution (prompt_loader.py)                        *)
(* --------------------------------------------------------------------- *)

Section Placeholders.
Import Substitution.

(** *** The pattern *)

(** A match of the lazy group gives a name without closing brace and
    without newline, followed in the text by a closing brace. *)
Lemma lazy_group_Some (s name : string) :
  lazy_group s = Some name ->
  exists rest,
    s = name +:+ String rbrace rest
    /\ contains_char rbrace name = false
    /\ contains_char newline name = false.
Proof.
  revert name. induction s as [|c s IH]; intros name; simpl; [discriminate |].
  destruct (char_eqb c rbrace) eqn:Hclose.
  - intros [= <-]. apply char_eqb_eq in Hclose as ->. now exists s.
  - destruct (char_eqb c newline) eqn:Hnl; [discriminate |].
    destruct (lazy_group s) as [name'|]; simpl; [| discriminate].
    intros [= <-]. destruct (IH name' eq_refl) as (rest & -> & Hb & Hn).
    exists rest. simpl. unfold char_eqb in *.
    rewrite (bool_decide_ext (rbrace = c) (c = rbrace)) by (split; congruence).
    rewrite (bool_decide_ext (newline = c) (c = newline)) by (split; congruence).
    now rewrite Hclose, Hnl.
Qed.

(** A text that goes on with a name without newline and a closing brace is
    matched by the lazy group. *)
Lemma lazy_group_prefix (name rest : string) :
  contains_char newline name = false ->
  lazy_group (name +:+ String rbrace rest) <> None.
Proof.
  induction name as [|c name IH]; simpl.
  - intros _. discriminate.
  - intros [Hc Hname]%orb_false_elim. destruct (char_eqb c rbrace); [discriminate |].
    unfold char_eqb in *.
    rewrite (bool_decide_ext (c = newline) (newline = c)) by (split; congruence).
    rewrite Hc. destruct (lazy_group _); [discriminate | now apply IH in Hname].
Qed.

Lemma startswith_app (p r : string) : startswith p (p +:+ r) = true.
Proof. induction p as [|c p IH]; simpl; [reflexivity |]. now rewrite char_eqb_refl. Qed.

Lemma startswith_split (p s : string) :
  startswith p s = true -> exists r, s = p +:+ r.
Proof.
  revert s. induction p as [|c p IH]; intros s; simpl; [now exists s |].
  destruct s as [|d s]; [discriminate |].
  intros [Hc Hp]%andb_true_iff. apply char_eqb_eq in Hc as ->.
  destruct (IH s Hp) as [r ->]. now exists r.
Qed.

(** A match of the whole pattern: the text starts with the token. *)
Lemma match_placeholder_Some (s name : string) :
  match_placeholder s = Some name ->
  exists rest,
    s = token name +:+ rest
    /\ contains_char rbrace name = false
    /\ contains_char newline name = false.
Proof.
  destruct s as [|c s]; simpl; [discriminate |].
  destruct (char_eqb c lbrace) eqn:Hopen; [| discriminate].
  apply char_eqb_eq in Hopen as ->.
  intros (rest & -> & Hb & Hn)%lazy_group_Some.
  exists rest. unfold token. simpl. now rewrite !app_assoc_s.
Qed.

(** *** Passing over the characters of a match *)

Lemma pieces_from_skip (p r : string) :
  pieces_from (String.length p) (p +:+ r) = pieces_from 0 r.
Proof. induction p as [|c p IH]; simpl; [reflexivity | exact IH]. Qed.

Lemma findall_from_skip (p r : string) :
  findall_from (String.length p) (p +:+ r) = findall_from 0 r.
Proof. induction p as [|c p IH]; simpl; [reflexivity | exact IH]. Qed.

Lemma replace_from_skip (old new p r : string) :
  replace_from old new (String.length p) (p +:+ r) = replace_from old new 0 r.
Proof. induction p as [|c p IH]; simpl; [reflexivity | exact IH]. Qed.

Lemma token_length (name : string) : String.length (token name) = S (S (String.length name)).
Proof. unfold token. simpl. rewrite app_length_s. simpl. lia. Qed.

(** The equations of the two scans at a token and at any other character. *)
Lemma pieces_token (name rest : string) :
  match_placeholder (token name +:+ rest) = Some name ->
  pieces (token name +:+ rest) = Tok name :: pieces rest.
Proof.
  intros Hmatch. unfold pieces. unfold token in *. simpl in *. rewrite Hmatch.
  f_equal. rewrite app_assoc_s.
  change (S (String.length name)) with (String.length (String rbrace name)).
  replace (String.length (String rbrace name)) with (String.length (name +:+ "}"))
    by (rewrite app_length_s; simpl; lia).
  rewrite <- app_assoc_s. apply pieces_from_skip.
Qed.

Lemma findall_token (name rest : string) :
  match_placeholder (token name +:+ rest) = Some name ->
  findall_placeholders (token name +:+ rest) = name :: findall_placeholders rest.
Proof.
  intros Hmatch. unfold findall_placeholders. unfold token in *. simpl in *. rewrite Hmatch.
  f_equal. rewrite app_assoc_s.
  replace (S (String.length name)) with (String.length (name +:+ "}"))
    by (rewrite app_length_s; simpl; lia).
  rewrite <- app_assoc_s. apply findall_from_skip.
Qed.

(** Induction along the scan: a text is empty, or starts with a character at
    which the pattern does not match, or starts with a token. *)
Lemma scan_ind (Q : string -> Prop) :
  Q "" ->
  (forall c s, match_placeholder (String c s) = None -> Q s -> Q (String c s)) ->
  (forall name rest,
     match_placeholder (token name +:+ rest) = Some name ->
     contains_char rbrace name = false -> contains_char newline name = false ->
     Q rest -> Q (token name +:+ rest)) ->
  forall s, Q s.
Proof.
  intros Hempty Hchar Htoken s.
  remember (String.length s) as n eqn:Hn.
  revert s Hn. induction n as [n IH] using lt_wf_ind. intros s Hn.
  destruct s as [|c s]; [exact Hempty |].
  destruct (match_placeholder (String c s)) as [name|] eqn:Hmatch.
  - destruct (match_placeholder_Some _ _ Hmatch) as (rest & Hs & Hb & Hnl).
    rewrite Hs in *. apply Htoken; try assumption.
    apply (IH (String.length rest)); [| reflexivity].
    rewrite Hn, app_length_s, token_length. lia.
  - apply Hchar; [exact Hmatch |].
    apply (IH (String.length s)); [simpl in Hn; lia | reflexivity].
Qed.

(** *** The cut of a text into pieces *)

Lemma findall_names (s : string) : findall_placeholders s = names (pieces s).
Proof.
  induction s as [| c s Hmatch IH | name rest Hmatch _ _ IH] using scan_ind.
  - reflexivity.
  - unfold findall_placeholders, pieces in *. simpl in *. now rewrite Hmatch.
  - rewrite (findall_token _ _ Hmatch), (pieces_token _ _ Hmatch). simpl. now rewrite IH.
Qed.

Lemma subst_piece_empty (p : piece) :
  subst_piece ∅ p = match p with Lit c => String c "" | Tok name => token name end.
Proof. destruct p; simpl; [reflexivity |]. now rewrite lookup_empty. Qed.

(** Nothing is lost in the cut: under the empty mapping the pieces give the
    text back. *)
Lemma concat_pieces_empty (s : string) : concat_pieces ∅ (pieces s) = s.
Proof.
  induction s as [| c s Hmatch IH | name rest Hmatch _ _ IH] using scan_ind.
  - reflexivity.
  - unfold pieces in *. simpl in *. rewrite Hmatch. simpl. now rewrite IH.
  - rewrite (pieces_token _ _ Hmatch). simpl. rewrite lookup_empty. simpl.
    now rewrite IH.
Qed.

Lemma pieces_well_cut (s : string) : well_cut (pieces s).
Proof.
  induction s as [| c s Hmatch IH | name rest Hmatch Hb Hnl IH] using scan_ind.
  - exact I.
  - unfold pieces in *. simpl in *. rewrite Hmatch. simpl. split; [| exact IH].
    intros ->. fold (pieces s). rewrite concat_pieces_empty.
    simpl in Hmatch. exact Hmatch.
  - rewrite (pieces_token _ _ Hmatch). simpl. auto.
Qed.

(** After an opening brace that starts no token, no mapping makes the
    pattern find an end: up to the newline, or to the end of the text, the
    pieces are characters. *)
Lemma lazy_group_None_any (m : gmap string string) (ps : list piece) :
  well_cut ps ->
  lazy_group (concat_pieces ∅ ps) = None ->
  lazy_group (concat_pieces m ps) = None.
Proof.
  induction ps as [|[c|name] ps IH]; simpl; [reflexivity | |].
  - intros [_ Hcut]. destruct (char_eqb c rbrace); [discriminate |].
    destruct (char_eqb c newline); [reflexivity |].
    destruct (lazy_group (concat_pieces ∅ ps)); [discriminate |].
    intros _. now rewrite (IH Hcut eq_refl).
  - intros (Hb & Hnl & _). rewrite lookup_empty. simpl. unfold token. simpl.
    rewrite !app_assoc_s. simpl.
    destruct (lazy_group (name +:+ _)) eqn:Hgroup; [simpl; intros [=] |].
    now apply lazy_group_prefix in Hgroup.
Qed.

(** *** [str.replace] along a text *)

(** No occurrence of a token starts in a stretch without opening brace. *)
Lemma replace_from_plain (name new p r : string) :
  contains_char lbrace p = false ->
  replace_from (token name) new 0 (p +:+ r) = p +:+ replace_from (token name) new 0 r.
Proof.
  induction p as [|c p IH]; simpl; [reflexivity |].
  intros [Hc Hp]%orb_false_elim.
  unfold token at 1. simpl. rewrite Hc. simpl. now rewrite IH.
Qed.

(** At an occurrence, the new text is written and the scan goes on after
    the occurrence. *)
Lemma replace_from_token (name new r : string) :
  replace_from (token name) new 0 (token name +:+ r)
  = new +:+ replace_from (token name) new 0 r.
Proof.
  pose proof (startswith_app (token name) r) as Hstart.
  unfold token in *. simpl in *. rewrite Hstart. f_equal.
  rewrite app_length_s. simpl. rewrite Nat.add_1_r, Nat.sub_0_r.
  replace (S (String.length name)) with (String.length (name +:+ "}"))
    by (rewrite app_length_s; simpl; lia).
  rewrite app_assoc_s, <- app_assoc_s. apply replace_from_skip.
Qed.

(** At a character where no occurrence starts, the character is kept. *)
Lemma replace_from_other (old new : string) (c : ascii) (s : string) :
  startswith old (String c s) = false ->
  replace_from old new 0 (String c s) = String c (replace_from old new 0 s).
Proof. simpl. now intros ->. Qed.

(** Two tokens of which one starts with the other have the same name. *)
Lemma token_startswith (name other r : string) :
  contains_char rbrace name = false ->
  contains_char rbrace other = false ->
  startswith (token name) (token other +:+ r) = true ->
  name = other.
Proof.
  unfold token. simpl. rewrite !app_assoc_s. simpl.
  revert other. induction name as [|c name IH]; intros [|d other]; simpl.
  - reflexivity.
  - intros _ [Hd _]%orb_false_elim. now rewrite Hd.
  - intros [Hc _]%orb_false_elim _. unfold char_eqb in *.
    rewrite (bool_decide_ext (c = rbrace) (rbrace = c)) by (split; congruence).
    now rewrite Hc.
  - intros [_ Hname]%orb_false_elim [_ Hother]%orb_false_elim
      [Hcd Hrest]%andb_true_iff.
    apply char_eqb_eq in Hcd as ->. f_equal. now apply IH.
Qed.

(** An opening brace after which the pattern finds no end starts no
    occurrence of a token. *)
Lemma token_startswith_None (name s : string) :
  contains_char newline name = false ->
  lazy_group s = None ->
  startswith (token name) (String lbrace s) = false.
Proof.
  intros Hnl Hgroup. unfold token. simpl.
  destruct (startswith (name +:+ "}") s) eqn:Hstart; [| reflexivity].
  apply startswith_split in Hstart as [r ->]. rewrite app_assoc_s in Hgroup.
  now apply lazy_group_prefix in Hgroup.
Qed.

Lemma contains_char_app (c : ascii) (a b : string) :
  contains_char c (a +:+ b) = contains_char c a || contains_char c b.
Proof.
  induction a as [|d a IH]; simpl; [reflexivity |]. now rewrite IH, orb_assoc.
Qed.

Lemma names_well_cut (ps : list piece) (name : string) :
  well_cut ps -> name ∈ names ps ->
  contains_char rbrace name = false /\ contains_char newline name = false.
Proof.
  induction ps as [|[c|other] ps IH]; simpl.
  - intros _ Hin. now apply elem_of_nil in Hin.
  - intros [_ Hcut]. now apply IH.
  - intros (Hb & Hnl & Hcut) [-> | Hin]%elem_of_cons; [now split | now apply IH].
Qed.

(** The rewriting of the pieces depends on the mapping at their names
    only. *)
Lemma concat_pieces_ext (m1 m2 : gmap string string) (ps : list piece) :
  (forall name, name ∈ names ps -> m1 !! name = m2 !! name) ->
  concat_pieces m1 ps = concat_pieces m2 ps.
Proof.
  induction ps as [|[c|name] ps IH]; simpl; intros Hsame.
  - reflexivity.
  - now rewrite IH.
  - rewrite (Hsame name) by apply list_elem_of_here.
    rewrite IH; [reflexivity |]. intros other Hin. apply Hsame. now apply list_elem_of_further.
Qed.

Lemma default_Some (d x : string) : default d (Some x) = x.
Proof. reflexivity. Qed.

Lemma default_None (d : string) : default d None = d.
Proof. reflexivity. Qed.

(** One round of the loop.  The current text is the pieces rewritten under
    the part [m] of the mapping used so far; no token name and no value used
    holds an opening brace.  Then replacing the token [name] by [value]
    throughout the text rewrites exactly the pieces that are this token. *)
Lemma replace_token_in_pieces (m : gmap string string) (name value : string)
    (ps : list piece) :
  well_cut ps ->
  (forall other, other ∈ names ps -> contains_char lbrace other = false) ->
  (forall other v, other ∈ names ps -> m !! other = Some v ->
                   contains_char lbrace v = false) ->
  contains_char rbrace name = false ->
  contains_char newline name = false ->
  m !! name = None \/ m !! name = Some value ->
  str_replace (token name) value (concat_pieces m ps)
  = concat_pieces (<[name := value]> m) ps.
Proof.
  intros Hcut Hnames Hvalues Hb Hnl Hm. unfold str_replace.
  induction ps as [|[c|other] ps IH]; [reflexivity | |].
  - destruct Hcut as [Hopen Hcut]. simpl in Hnames, Hvalues.
    specialize (IH Hcut Hnames Hvalues).
    cbn [concat_pieces subst_piece].
    change (String c "" +:+ concat_pieces m ps) with (String c (concat_pieces m ps)).
    change (String c "" +:+ concat_pieces (<[name := value]> m) ps)
      with (String c (concat_pieces (<[name := value]> m) ps)).
    rewrite <- IH. apply replace_from_other.
    destruct (decide (c = lbrace)) as [-> | Hc].
    + apply token_startswith_None; [exact Hnl |].
      apply lazy_group_None_any; auto.
    + unfold token. simpl. apply char_eqb_neq in Hc. unfold char_eqb in *.
      rewrite (bool_decide_ext (lbrace = c) (c = lbrace)) by (split; congruence).
      now rewrite Hc.
  - destruct Hcut as (Hob & Honl & Hcut).
    assert (IH' : replace_from (token name) value 0 (concat_pieces m ps)
                  = concat_pieces (<[name := value]> m) ps).
    { apply IH; [exact Hcut | |].
      - intros n Hin. apply Hnames. now apply list_elem_of_further.
      - intros n v Hin. apply Hvalues. now apply list_elem_of_further. }
    pose proof (Hnames other (list_elem_of_here _ _)) as Hother.
    cbn [concat_pieces subst_piece].
    destruct (m !! other) as [v|] eqn:Hlookup.
    + rewrite default_Some, replace_from_plain, IH'
        by (eapply Hvalues; [apply list_elem_of_here | exact Hlookup]).
      f_equal. destruct (decide (name = other)) as [-> | Hne].
      * rewrite lookup_insert_eq, default_Some. destruct Hm as [Hm | Hm]; congruence.
      * rewrite lookup_insert_ne by exact Hne. now rewrite Hlookup.
    + rewrite default_None. destruct (decide (name = other)) as [-> | Hne].
      * rewrite lookup_insert_eq, default_Some, replace_from_token. now rewrite IH'.
      * rewrite lookup_insert_ne by exact Hne. rewrite Hlookup, default_None.
        assert (Hstart : startswith (token name) (token other +:+ concat_pieces m ps) = false).
        { destruct (startswith _ _) eqn:Hstart; [| reflexivity].
          now apply token_startswith in Hstart. }
        assert (Hcons : forall rest, token other +:+ rest
                                     = String lbrace ((other +:+ "}") +:+ rest)).
        { intros rest. unfold token. simpl. now rewrite app_assoc_s. }
        rewrite !Hcons in *. rewrite replace_from_other by exact Hstart.
        f_equal. rewrite replace_from_plain, IH'; [reflexivity |].
        rewrite contains_char_app, Hother. reflexivity.
Qed.

(** What the loop has used of the mapping is part of the mapping, and all
    of it at the names that are behind. *)
Lemma learn_subset (m used : gmap string string) (name : string) :
  used ⊆ m -> learn m used name ⊆ m.
Proof.
  intros Hsub. unfold learn. destruct (m !! name) as [value|] eqn:Hlookup; [| exact Hsub].
  now apply insert_subseteq_l.
Qed.

Lemma learned_not_done (m used : gmap string string) (done : list string) (name : string) :
  name ∉ done -> learned m used done !! name = used !! name.
Proof.
  revert used. induction done as [|first done IH]; intros used; [reflexivity |].
  intros [Hne Hnotin]%not_elem_of_cons. unfold learned in *. simpl. rewrite IH by exact Hnotin.
  unfold learn. destruct (m !! first); [| reflexivity]. now rewrite lookup_insert_ne.
Qed.

Lemma learned_done (m used : gmap string string) (done : list string) (name : string) :
  used ⊆ m -> name ∈ done -> learned m used done !! name = m !! name.
Proof.
  revert used. induction done as [|first done IH]; intros used Hsub Hin.
  - now apply elem_of_nil in Hin.
  - unfold learned in *. simpl.
    destruct (decide (name ∈ done)) as [Hdone | Hnot].
    + apply IH; [now apply learn_subset | exact Hdone].
    + apply elem_of_cons in Hin as [-> | Hin]; [| contradiction].
      fold (learned m (learn m used first) done). rewrite learned_not_done by exact Hnot.
      unfold learn. destruct (m !! first) as [value|] eqn:Hlookup.
      * now rewrite lookup_insert_eq.
      * destruct (used !! first) as [v|] eqn:Hused; [| reflexivity].
        eapply lookup_weaken in Hused; [| exact Hsub]. congruence.
Qed.

(** The loop over the names still to do, from a text that is the pieces
    rewritten under what was used so far. *)
Lemma fill_fold (m used : gmap string string) (ps : list piece) (todo : list string) :
  well_cut ps ->
  (forall name, name ∈ names ps -> contains_char lbrace name = false) ->
  (forall name value, name ∈ names ps -> m !! name = Some value ->
                      contains_char lbrace value = false) ->
  (forall name, name ∈ todo -> name ∈ names ps) ->
  used ⊆ m ->
  foldl (fun text placeholder =>
           match m !! placeholder with
           | Some value => str_replace ("{" +:+ placeholder +:+ "}") value text
           | None => text
           end)
        (concat_pieces used ps) todo
  = concat_pieces (learned m used todo) ps.
Proof.
  intros Hcut Hnames Hvalues. revert used.
  induction todo as [|name todo IH]; intros used Htodo Hsub; [reflexivity |].
  simpl. unfold learned. simpl. fold (learned m (learn m used name) todo).
  assert (Hin : name ∈ names ps) by apply Htodo, list_elem_of_here.
  destruct (names_well_cut ps name Hcut Hin) as [Hb Hnl].
  rewrite <- IH; [| intros n Hn; apply Htodo; now apply list_elem_of_further
                  | now apply learn_subset].
  f_equal. unfold learn. destruct (m !! name) as [value|] eqn:Hlookup; [| reflexivity].
  change ("{" +:+ name +:+ "}") with (token name).
  apply replace_token_in_pieces; try assumption.
  - intros other v Hother Hused. eapply Hvalues; [exact Hother |].
    eapply lookup_weaken; eassumption.
  - destruct (used !! name) as [v|] eqn:Hused; [| now left].
    eapply lookup_weaken in Hused; [| exact Hsub]. right. congruence.
Qed.

(** On a text without braces inside names and values, the loop computes the
    substitution of the specification. *)
Lemma fill_loop_substitute (m : gmap string string) (text : string) :
  brace_free m text -> PromptLoader.fill_loop m text = substitute m text.
Proof.
  intros [Hnames Hvalues]. unfold PromptLoader.fill_loop, substitute.
  rewrite findall_names in *.
  rewrite <- (concat_pieces_empty text) at 1.
  rewrite fill_fold; try assumption.
  - apply concat_pieces_ext. intros name Hin.
    apply learned_done; [apply map_empty_subseteq | exact Hin].
  - apply pieces_well_cut.
  - auto.
  - apply map_empty_subseteq.
Qed.

(** A text in which no name found is a key is left as it is. *)
Lemma fill_loop_no_key (m : gmap string string) (text : string) :
  (forall name, name ∈ findall_placeholders text -> m !! name = None) ->
  PromptLoader.fill_loop m text = text.
Proof.
  unfold PromptLoader.fill_loop. generalize (findall_placeholders text) as found.
  intros found. revert text.
  induction found as [|name found IH]; intros current Hnone; [reflexivity |].
  simpl. rewrite (Hnone name) by apply list_elem_of_here.
  apply IH. intros other Hin. apply Hnone. now apply list_elem_of_further.
Qed.

(** The test [brace_freeb] decides [brace_free]. *)
Lemma brace_freeb_sound (m : gmap string string) (text : string) :
  brace_freeb m text = true -> brace_free m text.
Proof.
  unfold brace_freeb, brace_free. rewrite forallb_forall.
  intros Hall. split.
  - intros name Hin%list_elem_of_In%Hall. apply andb_true_iff in Hin as [Hname _].
    now apply negb_true_iff in Hname.
  - intros name value Hin%list_elem_of_In%Hall Hlookup.
    apply andb_true_iff in Hin as [_ Hvalue]. rewrite Hlookup in Hvalue.
    now apply negb_true_iff in Hvalue.
Qed.

End Placeholders.

Section LoaderPlaceholders.
Context {P : Type}.

(** C5, as the code has it.  [_fill_placeholders] rewrites the system text
    and the user text, each once, by the loop [fill_loop].  On a text where
    no name found and no value mapped to such a name holds an opening
    brace, the loop replaces every token whose name is a key by the mapped
    value and leaves the rest, the tokens whose name is no key included, as
    it is.  A text none of whose names is a key is left as it is; so is any
    text under the empty mapping. *)
Theorem fill_placeholders_substitutes (self : PromptLoader.t P)
    (placeholders : gmap string string) :
  let filled := PromptLoader._fill_placeholders self placeholders in
  PromptLoader._system_prompt filled
  = PromptLoader.fill_loop placeholders (PromptLoader._system_prompt self)
  /\ PromptLoader._user_prompt filled
     = PromptLoader.fill_loop placeholders (PromptLoader._user_prompt self)
  /\ (forall text,
        Substitution.brace_free placeholders text ->
        PromptLoader.fill_loop placeholders text
        = Substitution.substitute placeholders text)
  /\ (forall text,
        (forall name, name ∈ findall_placeholders text -> placeholders !! name = None) ->
        PromptLoader.fill_loop placeholders text = text)
  /\ (forall text, PromptLoader.fill_loop ∅ text = text).
Proof.
  intros filled. split; [reflexivity |]. split; [reflexivity |].
  split; [intros text; apply fill_loop_substitute |].
  split; [intros text; apply fill_loop_no_key |].
  intros text. apply fill_loop_no_key. intros name _. apply lookup_empty.
Qed.

End LoaderPlaceholders.

(** The hypotheses of C5 hold of the system text of the tests, under a
    mapping with all its names and under one with a single name. *)
Lemma fill_placeholders_substitutes_witness :
  let text := "You are a {role} assistant. You help with {task_type}." in
  let loader :=
    PromptLoader.mk Sample.demo None None (PromptSettings.mk "openai" "gpt-4") text "" in
  PromptLoader.fill_loop
    {[ "role" := "technical"; "task_type" := "programming";
       "specific_task" := "debugging Python code" ]} text
  = "You are a technical assistant. You help with programming."
  /\ PromptLoader.fill_loop {[ "role" := "technical" ]} text
     = "You are a technical assistant. You help with {task_type}."
  /\ PromptLoader.fill_loop {[ "city_state" := "Louisville, KY" ]} text = text.
Proof.
  intros text loader. split; [| split].
  - set (m := {[ "role" := "technical"; "task_type" := "programming";
                 "specific_task" := "debugging Python code" ]} : gmap string string).
    rewrite (proj1 (proj2 (proj2 (fill_placeholders_substitutes loader m))) text
               (brace_freeb_sound m text eq_refl)).
    reflexivity.
  - set (m := {[ "role" := "technical" ]} : gmap string string).
    rewrite (proj1 (proj2 (proj2 (fill_placeholders_substitutes loader m))) text
               (brace_freeb_sound m text eq_refl)).
    reflexivity.
  - set (m := {[ "city_state" := "Louisville, KY" ]} : gmap string string).
    apply (proj1 (proj2 (proj2 (proj2 (fill_placeholders_substitutes loader m)))) text).
    intros name Hin. vm_compute in Hin.
    repeat (apply elem_of_cons in Hin as [-> | Hin]; [reflexivity |]).
    now apply elem_of_nil in Hin.
Defined.

(** Against C5 as stated, two texts.  In the first the name [b{a] is found
    and is no key, but its token ends with the token of the key [a] and is
    rewritten with it.  In the second the value of [a] holds the token of
    [b], which a later round of the loop replaces.  In both the loop gives
    another text than the substitution that replaces each token whose name
    is a key by its value and leaves the others as they are. *)
Lemma fill_placeholders_not_tokenwise :
  findall_placeholders "{a}{b{a}" = ["a"; "b{a"]
  /\ ({[ "a" := "1" ]} : gmap string string) !! "b{a" = None
  /\ PromptLoader.fill_loop {[ "a" := "1" ]} "{a}{b{a}" = "1{b1"
  /\ Substitution.substitute {[ "a" := "1" ]} "{a}{b{a}" = "1{b{a}"
  /\ PromptLoader.fill_loop {[ "a" := "1" ]} "{a}{b{a}"
     <> Substitution.substitute {[ "a" := "1" ]} "{a}{b{a}"
  /\ PromptLoader.fill_loop {[ "a" := "{b}"; "b" := "X" ]} "{a} {b}" = "X X"
  /\ Substitution.substitute {[ "a" := "{b}"; "b" := "X" ]} "{a} {b}" = "{b} X"
  /\ PromptLoader.fill_loop {[ "a" := "{b}"; "b" := "X" ]} "{a} {b}"
     <> Substitution.substitute {[ "a" := "{b}"; "b" := "X" ]} "{a} {b}".
Proof. repeat split; try reflexivity; vm_compute; discriminate. Qed.

(* ===================================================================== *)
(** * Part III.  Further properties of the code                           *)
(* ===================================================================== *)

(* --------------------------------------------------------------------- *)
(** ** The registry (tool_registry.py)                                    *)
(* --------------------------------------------------------------------- *)

Lemma dict_get_set_eq {V} (k : string) (v : V) (d : list (string * V)) :
  dict_get k (dict_set k v d) = Some v.
Proof.
  induction d as [|[k' v'] d IH]; cbn [dict_get dict_set].
  - now case_bool_decide.
  - case_bool_decide as Hk; cbn [dict_get]; now case_bool_decide.
Qed.

Lemma dict_get_set_ne {V} (k k' : string) (v : V) (d : list (string * V)) :
  k' <> k -> dict_get k' (dict_set k v d) = dict_get k' d.
Proof.
  intros Hne. induction d as [|[k0 v0] d IH]; cbn [dict_get dict_set].
  - now case_bool_decide.
  - case_bool_decide as Hk; cbn [dict_get].
    + subst k0. now repeat case_bool_decide.
    + now rewrite IH.
Qed.

Lemma dict_keys_set {V} (k : string) (v : V) (d : list (string * V)) :
  dict_keys (dict_set k v d)
  = if bool_decide (k ∈ dict_keys d) then dict_keys d else dict_keys d ++ [k].
Proof.
  unfold dict_keys.
  induction d as [|[k' v'] d IH]; cbn [dict_set map fst].
  - rewrite bool_decide_eq_false_2 by apply not_elem_of_nil. reflexivity.
  - destruct (decide (k = k')) as [<- | Hk].
    + rewrite (bool_decide_eq_true_2 (k = k)) by reflexivity.
      rewrite bool_decide_eq_true_2 by apply list_elem_of_here. reflexivity.
    + rewrite (bool_decide_eq_false_2 (k = k')) by exact Hk.
      cbn [map fst]. rewrite IH.
      destruct (decide (k ∈ map fst d)) as [Hin | Hin].
      * rewrite (bool_decide_eq_true_2 (k ∈ map fst d)) by exact Hin.
        rewrite bool_decide_eq_true_2 by (now apply list_elem_of_further). reflexivity.
      * rewrite (bool_decide_eq_false_2 (k ∈ map fst d)) by exact Hin.
        rewrite bool_decide_eq_false_2; [reflexivity |].
        rewrite not_elem_of_cons. now split.
Qed.

Lemma get_tool_known (name : string) (reg : ToolRegistry.t) (tool_class : ToolClass.t) :
  dict_get name (ToolRegistry._tools reg) = Some tool_class ->
  ToolRegistry.get_tool name reg = (Ok tool_class, reg).
Proof. intros Hget. unfold ToolRegistry.get_tool. py_unfold. now rewrite Hget. Qed.

Lemma get_tool_Ok (name : string) (reg reg' : ToolRegistry.t) (tool_class : ToolClass.t) :
  ToolRegistry.get_tool name reg = (Ok tool_class, reg') ->
  dict_get name (ToolRegistry._tools reg) = Some tool_class.
Proof.
  unfold ToolRegistry.get_tool. py_unfold.
  destruct (dict_get name (ToolRegistry._tools reg)); [now intros [= ->] | discriminate].
Qed.

(** X1.  Registration followed by a lookup of the name of the class returns
    that class, whatever was registered under the name before: the last
    registration wins. *)
Theorem register_then_get (tool_class : ToolClass.t) (reg : ToolRegistry.t) :
  (ToolRegistry.register_tool tool_class ;;;
   ToolRegistry.get_tool (ToolClass.__name__ tool_class)) reg
  = (Ok tool_class, snd (ToolRegistry.register_tool tool_class reg)).
Proof.
  unfold ToolRegistry.register_tool. py_unfold. apply get_tool_known. simpl.
  apply dict_get_set_eq.
Qed.

(** X2.  Registration of a class leaves the lookups of the other names as
    they were: a name that resolved resolves to the same class, a name that
    was unknown still raises the [ValueError] of [get_tool]. *)
Theorem register_keeps_other_tools (tool_class : ToolClass.t) (reg : ToolRegistry.t)
    (name : string) :
  name <> ToolClass.__name__ tool_class ->
  let reg' := snd (ToolRegistry.register_tool tool_class reg) in
  (forall other, ToolRegistry.get_tool name reg = (Ok other, reg) ->
                 ToolRegistry.get_tool name reg' = (Ok other, reg'))
  /\ (name ∉ dict_keys (ToolRegistry._tools reg) ->
      exists message,
        ToolRegistry.get_tool name reg' = (Raise (mkExc ValueError message), reg')).
Proof.
  intros Hne reg'.
  assert (Hsame : dict_get name (ToolRegistry._tools reg')
                  = dict_get name (ToolRegistry._tools reg)).
  { unfold reg', ToolRegistry.register_tool, modify_state. simpl.
    now apply dict_get_set_ne. }
  split.
  - intros other Hget%get_tool_Ok. apply get_tool_known. now rewrite Hsame.
  - intros Hunknown%dict_get_None. eexists. apply get_tool_unknown.
    apply dict_get_None. now rewrite Hsame.
Qed.

Lemma register_keeps_other_tools_witness :
  ToolRegistry.get_tool "Echo" (snd (ToolRegistry.register_tool Sample.Faulty Sample.registry))
  = (Ok Sample.Echo, snd (ToolRegistry.register_tool Sample.Faulty Sample.registry)).
Proof.
  apply (proj1 (register_keeps_other_tools Sample.Faulty Sample.registry "Echo"
                  ltac:(discriminate))).
  reflexivity.
Defined.

Lemma register_tool_keys (tool_class : ToolClass.t) (reg : ToolRegistry.t) :
  dict_keys (ToolRegistry._tools (snd (ToolRegistry.register_tool tool_class reg)))
  = if bool_decide (ToolClass.__name__ tool_class ∈ dict_keys (ToolRegistry._tools reg))
    then dict_keys (ToolRegistry._tools reg)
    else dict_keys (ToolRegistry._tools reg) ++ [ToolClass.__name__ tool_class].
Proof. unfold ToolRegistry.register_tool, modify_state. simpl. apply dict_keys_set. Qed.

Lemma register_tool_keeps_distinct (tool_class : ToolClass.t) (reg : ToolRegistry.t) :
  NoDup (dict_keys (ToolRegistry._tools reg)) ->
  NoDup (dict_keys (ToolRegistry._tools (snd (ToolRegistry.register_tool tool_class reg)))).
Proof.
  intros Hnodup. rewrite register_tool_keys. case_bool_decide as Hin; [exact Hnodup |].
  apply NoDup_app. repeat split; [exact Hnodup | | apply NoDup_singleton].
  intros x Hx ->%list_elem_of_singleton. contradiction.
Qed.

(** X3.  The names after a registration: a name that was registered keeps
    its place in the list (the class under it is replaced), a new name goes
    to the end; names that were distinct stay distinct. *)
Theorem register_tool_names (tool_class : ToolClass.t) (reg : ToolRegistry.t) :
  let name := ToolClass.__name__ tool_class in
  let names := dict_keys (ToolRegistry._tools reg) in
  let reg' := snd (ToolRegistry.register_tool tool_class reg) in
  ToolRegistry.get_tool_names reg'
  = (Ok (if bool_decide (name ∈ names) then names else names ++ [name]), reg')
  /\ (NoDup names -> NoDup (dict_keys (ToolRegistry._tools reg'))).
Proof.
  intros name names reg'. split.
  - unfold ToolRegistry.get_tool_names. py_unfold. subst reg'.
    now rewrite register_tool_keys.
  - apply register_tool_keeps_distinct.
Qed.

(** X4.  In a registry built from the empty one by registrations, the names
    are distinct and are exactly the names of the classes registered. *)
Theorem registrations_names_distinct (classes : list ToolClass.t) :
  let reg := foldl (fun reg tool_class => snd (ToolRegistry.register_tool tool_class reg))
                   ToolRegistry.__init__ classes in
  NoDup (dict_keys (ToolRegistry._tools reg))
  /\ (forall name, name ∈ dict_keys (ToolRegistry._tools reg)
                   <-> name ∈ map ToolClass.__name__ classes).
Proof.
  simpl.
  assert (Hgen : forall reg0,
            NoDup (dict_keys (ToolRegistry._tools reg0)) ->
            let reg := foldl (fun reg tool_class =>
                                snd (ToolRegistry.register_tool tool_class reg))
                             reg0 classes in
            NoDup (dict_keys (ToolRegistry._tools reg))
            /\ (forall name, name ∈ dict_keys (ToolRegistry._tools reg)
                             <-> name ∈ dict_keys (ToolRegistry._tools reg0)
                                 \/ name ∈ map ToolClass.__name__ classes)).
  { induction classes as [|tool_class classes IH]; intros reg0 Hnodup; simpl.
    - split; [exact Hnodup |]. intros name. rewrite elem_of_nil. tauto.
    - specialize (IH _ (register_tool_keeps_distinct tool_class reg0 Hnodup)).
      simpl in IH. destruct IH as [Hdistinct Hnames].
      split; [exact Hdistinct |]. intros name. rewrite Hnames, elem_of_cons.
      unfold ToolRegistry.register_tool, modify_state. simpl. rewrite dict_keys_set.
      case_bool_decide as Hin.
      + split; [tauto |]. intros [H | [-> | H]]; auto.
      + rewrite elem_of_app, list_elem_of_singleton. tauto. }
  destruct (Hgen ToolRegistry.__init__ (NoDup_nil_2)) as [Hdistinct Hnames].
  split; [exact Hdistinct |]. intros name. rewrite Hnames. simpl. rewrite elem_of_nil. tauto.
Qed.

Section PydanticTools.
Context {openai : OpenAILib}.

Lemma get_tools_known (names : list string) (reg : ToolRegistry.t) :
  (forall name, name ∈ names -> name ∈ dict_keys (ToolRegistry._tools reg)) ->
  exists classes,
    ToolRegistry.get_tools names reg = (Ok classes, reg)
    /\ Forall2 (fun name tool_class =>
                  dict_get name (ToolRegistry._tools reg) = Some tool_class)
               names classes.
Proof.
  induction names as [|name names IH]; intros Hknown.
  - exists []. split; [reflexivity | constructor].
  - destruct (dict_get name (ToolRegistry._tools reg)) as [tool_class|] eqn:Hget.
    + destruct IH as (classes & Hrest & Hall).
      { intros other Hin. apply Hknown. now apply list_elem_of_further. }
      exists (tool_class :: classes). split; [| now constructor].
      simpl. unfold bind at 1. rewrite (get_tool_known _ _ _ Hget).
      unfold bind at 1. now rewrite Hrest.
    + apply dict_get_None in Hget. exfalso. apply Hget, Hknown, list_elem_of_here.
Qed.

Lemma get_tools_unknown (known : list string) (missing : string) (rest : list string)
    (reg : ToolRegistry.t) :
  (forall name, name ∈ known -> name ∈ dict_keys (ToolRegistry._tools reg)) ->
  missing ∉ dict_keys (ToolRegistry._tools reg) ->
  ToolRegistry.get_tools (known ++ missing :: rest) reg
  = (Raise (mkExc ValueError
              ("Tool '" +:+ missing +:+ "' not found. Available tools: "
               +:+ py_str (PyList (map PyStr (dict_keys (ToolRegistry._tools reg)))))),
     reg).
Proof.
  intros Hknown Hmissing. induction known as [|name known IH]; simpl.
  - unfold bind at 1. now rewrite (get_tool_unknown _ _ Hmissing).
  - destruct (dict_get name (ToolRegistry._tools reg)) as [tool_class|] eqn:Hget.
    + unfold bind at 1. rewrite (get_tool_known _ _ _ Hget).
      unfold bind at 1. rewrite IH.
      * reflexivity.
      * intros other Hin. apply Hknown. now apply list_elem_of_further.
    + apply dict_get_None in Hget. exfalso. apply Hget, Hknown, list_elem_of_here.
Qed.

Lemma get_tools_state (names : list string) (reg : ToolRegistry.t) :
  snd (ToolRegistry.get_tools names reg) = reg.
Proof.
  induction names as [|name names IH]; [reflexivity |].
  simpl. unfold bind at 1. unfold ToolRegistry.get_tool at 1. py_unfold.
  destruct (dict_get name (ToolRegistry._tools reg)); [| reflexivity].
  destruct (ToolRegistry.get_tools names reg) as [[classes|e] reg'] eqn:Hrest;
    simpl in IH; now subst reg'.
Qed.

Lemma declare_tools_Ok (classes : list ToolClass.t) (declarations : list PyValue) :
  Forall2 (fun tool_class declaration => pydantic_function_tool tool_class = Ok declaration)
          classes declarations ->
  ToolRegistry.declare_tools classes = Ok declarations.
Proof.
  induction 1 as [|tool_class declaration classes declarations Hone _ IH];
    [reflexivity |].
  simpl. now rewrite Hone, IH.
Qed.

(** X5.  [create_pydantic_tools] never changes the registry.  Given names
    that are all registered, it declares the classes registered under the
    names, in the order of the names, and, when every declaration is made,
    returns the declarations in that order.  At the first name that is not
    registered it raises the [ValueError] of [get_tool] for that name,
    whatever the declarations would give.  Given no names it declares all
    classes, in the order of registration. *)
Theorem create_pydantic_tools_selection (reg : ToolRegistry.t) :
  (forall tool_names, snd (ToolRegistry.create_pydantic_tools tool_names reg) = reg)
  /\ (forall names,
        (forall name, name ∈ names -> name ∈ dict_keys (ToolRegistry._tools reg)) ->
        exists classes,
          Forall2 (fun name tool_class =>
                     dict_get name (ToolRegistry._tools reg) = Some tool_class)
                  names classes
          /\ forall declarations,
               Forall2 (fun tool_class declaration =>
                          pydantic_function_tool tool_class = Ok declaration)
                       classes declarations ->
               ToolRegistry.create_pydantic_tools (Some names) reg
               = (Ok declarations, reg))
  /\ (forall known missing rest,
        (forall name, name ∈ known -> name ∈ dict_keys (ToolRegistry._tools reg)) ->
        missing ∉ dict_keys (ToolRegistry._tools reg) ->
        ToolRegistry.create_pydantic_tools (Some (known ++ missing :: rest)) reg
        = (Raise (mkExc ValueError
                    ("Tool '" +:+ missing +:+ "' not found. Available tools: "
                     +:+ py_str (PyList (map PyStr (dict_keys (ToolRegistry._tools reg)))))),
           reg))
  /\ (forall declarations,
        Forall2 (fun tool_class declaration =>
                   pydantic_function_tool tool_class = Ok declaration)
                (map snd (ToolRegistry._tools reg)) declarations ->
        ToolRegistry.create_pydantic_tools None reg = (Ok declarations, reg)).
Proof.
  split; [| split; [| split]].
  - intros [names|]; unfold ToolRegistry.create_pydantic_tools; [| reflexivity].
    unfold bind at 1. pose proof (get_tools_state names reg) as Hstate.
    destruct (ToolRegistry.get_tools names reg) as [[classes|e] reg']; exact Hstate.
  - intros names Hknown. destruct (get_tools_known names reg Hknown) as (classes & Hget & Hall).
    exists classes. split; [exact Hall |]. intros declarations Hdeclared.
    unfold ToolRegistry.create_pydantic_tools. unfold bind at 1. rewrite Hget.
    unfold lift. now rewrite (declare_tools_Ok _ _ Hdeclared).
  - intros known missing rest Hknown Hmissing.
    unfold ToolRegistry.create_pydantic_tools. unfold bind at 1.
    now rewrite (get_tools_unknown known missing rest reg Hknown Hmissing).
  - intros declarations Hdeclared.
    unfold ToolRegistry.create_pydantic_tools. py_unfold.
    now rewrite (declare_tools_Ok _ _ Hdeclared).
Qed.

End PydanticTools.

Lemma create_pydantic_tools_selection_witness :
  ToolRegistry.create_pydantic_tools (openai := MoreSamples.openai)
    (Some ["Flag"; "Echo"]) Sample.registry
  = (Ok [PyObject "Flag"; PyObject "Echo"], Sample.registry)
  /\ ToolRegistry.create_pydantic_tools (openai := MoreSamples.openai)
       (Some ["Flag"; "Nope"; "Echo"]) Sample.registry
     = (Raise (mkExc ValueError
                 "Tool 'Nope' not found. Available tools: ['Echo', 'Flag', 'Faulty']"),
        Sample.registry).
Proof.
  split.
  - destruct (proj1 (proj2 (create_pydantic_tools_selection (openai := MoreSamples.openai)
                              Sample.registry)) ["Flag"; "Echo"])
      as (classes & Hall & Hcreate).
    + apply Forall_forall. repeat constructor; apply bool_decide_unpack; exact I.
    + apply Hcreate.
      inversion Hall as [|? c1 ? l1 H1 Hall1]; subst.
      inversion Hall1 as [|? c2 ? l2 H2 Hall2]; subst.
      inversion Hall2; subst.
      vm_compute in H1, H2. injection H1 as <-. injection H2 as <-.
      repeat constructor.
  - apply (proj1 (proj2 (proj2 (create_pydantic_tools_selection
                                  (openai := MoreSamples.openai) Sample.registry)))
             ["Flag"] "Nope" ["Echo"]).
    + apply Forall_forall. repeat constructor; apply bool_decide_unpack; exact I.
    + apply (bool_decide_unpack _). exact I.
Defined.

(* --------------------------------------------------------------------- *)
(** ** The dispatch loop, again (tool_runner.py)                          *)
(* --------------------------------------------------------------------- *)

(** X6.  Dispatch of a request whose name is registered.  When the
    constructor accepts the arguments and [execute] returns, the response
    has status [success] and carries the value returned.  When the
    constructor rejects the arguments, or when [execute] raises, the
    response has status [error] and carries the text of the exception. *)
Theorem dispatch_registered_tool (req : ToolCallRequest.t) (reg : ToolRegistry.t)
    (tool_class : ToolClass.t) :
  dict_get (ToolCallRequest.function_name req) (ToolRegistry._tools reg) = Some tool_class ->
  let response result status :=
    ToolCallResponse.mk (ToolCallRequest.id req) (ToolCallRequest.function_name req)
      (ToolCallRequest.arguments req) result status in
  let built := ToolClass.__init__ tool_class (ToolCallRequest.arguments req) in
  (forall instance value,
     built = Ok instance -> ToolClass.execute tool_class instance = Ok value ->
     ToolRunner._dispatch_tool_call req reg = (Ok (response value "success"), reg))
  /\ (forall e,
        built = Raise e ->
        ToolRunner._dispatch_tool_call req reg
        = (Ok (response (PyStr (exc_str e)) "error"), reg))
  /\ (forall instance e,
        built = Ok instance -> ToolClass.execute tool_class instance = Raise e ->
        ToolRunner._dispatch_tool_call req reg
        = (Ok (response (PyStr (exc_str e)) "error"), reg)).
Proof.
  intros Hget response built. subst response built.
  unfold ToolRunner._dispatch_tool_call. py_unfold.
  rewrite (get_tool_known _ _ _ Hget).
  repeat split.
  - intros instance value -> ->. reflexivity.
  - intros e ->. reflexivity.
  - intros instance e -> ->. reflexivity.
Qed.

Lemma dispatch_registered_tool_witness :
  ToolRunner._dispatch_tool_call
    (ToolCallRequest.mk "call_1" "Echo" (PyDict [("text", PyStr "hi")])) Sample.registry
  = (Ok (ToolCallResponse.mk "call_1" "Echo" (PyDict [("text", PyStr "hi")])
           (PyStr "hi") "success"), Sample.registry)
  /\ ToolRunner._dispatch_tool_call
       (ToolCallRequest.mk "call_2" "Echo" (PyDict [])) Sample.registry
     = (Ok (ToolCallResponse.mk "call_2" "Echo" (PyDict [])
              (PyStr "1 validation error for Echo") "error"), Sample.registry)
  /\ ToolRunner._dispatch_tool_call
       (ToolCallRequest.mk "call_3" "Faulty" (PyDict [])) Sample.registry
     = (Ok (ToolCallResponse.mk "call_3" "Faulty" (PyDict [])
              (PyStr "Cannot divide by zero") "error"), Sample.registry).
Proof.
  split; [| split].
  - exact (proj1 (dispatch_registered_tool
                    (ToolCallRequest.mk "call_1" "Echo" (PyDict [("text", PyStr "hi")]))
                    Sample.registry Sample.Echo eq_refl)
             "hi" (PyStr "hi") eq_refl eq_refl).
  - exact (proj1 (proj2 (dispatch_registered_tool
                           (ToolCallRequest.mk "call_2" "Echo" (PyDict []))
                           Sample.registry Sample.Echo eq_refl))
             (mkExc ValueError "1 validation error for Echo") eq_refl).
  - exact (proj2 (proj2 (dispatch_registered_tool
                           (ToolCallRequest.mk "call_3" "Faulty" (PyDict []))
                           Sample.registry Sample.Faulty eq_refl))
             (PyDict []) (mkExc ValueError "Cannot divide by zero") eq_refl eq_refl).
Defined.

Lemma run_tools_loop_pointwise (reqs : list ToolCallRequest.t)
    (acc : list ToolCallResponse.t) (reg : ToolRegistry.t) :
  exists resps,
    ToolRunner.run_tools_loop reqs acc reg = (Ok (acc ++ resps), reg)
    /\ Forall2 (fun req resp => ToolRunner._dispatch_tool_call req reg = (Ok resp, reg))
               reqs resps.
Proof.
  revert acc. induction reqs as [|req reqs IH]; intros acc.
  - exists []. simpl. rewrite app_nil_r. split; [reflexivity | constructor].
  - destruct (dispatch_tool_call_returns req reg) as (resp & Hd & _).
    destruct (IH (acc ++ [resp])) as (resps & Hloop & Hall).
    exists (resp :: resps). simpl. unfold bind at 1. rewrite Hd, Hloop.
    rewrite <- app_assoc. split; [reflexivity | now constructor].
Qed.

(** X7.  [run_tools] answers every request on its own: the list returned
    holds, position by position, the response [_dispatch_tool_call] gives
    for that request alone, so that a request which fails changes nothing
    for the requests before and after it; and the responses to a batch
    [first ++ second] are those to [first] followed by those to [second]. *)
Theorem run_tools_pointwise (reg : ToolRegistry.t) :
  (forall reqs, exists resps,
     ToolRunner.run_tools reqs reg = (Ok resps, reg)
     /\ Forall2 (fun req resp => ToolRunner._dispatch_tool_call req reg = (Ok resp, reg))
                reqs resps)
  /\ (forall first second first_responses second_responses,
        ToolRunner.run_tools first reg = (Ok first_responses, reg) ->
        ToolRunner.run_tools second reg = (Ok second_responses, reg) ->
        ToolRunner.run_tools (first ++ second) reg
        = (Ok (first_responses ++ second_responses), reg)).
Proof.
  assert (Hpoint : forall reqs, exists resps,
     ToolRunner.run_tools reqs reg = (Ok resps, reg)
     /\ Forall2 (fun req resp => ToolRunner._dispatch_tool_call req reg = (Ok resp, reg))
                reqs resps).
  { intros reqs. destruct (run_tools_loop_pointwise reqs [] reg) as (resps & Hloop & Hall).
    exists resps. split; [| exact Hall]. now destruct reqs. }
  split; [exact Hpoint |].
  intros first second rx ry Hx Hy.
  destruct (Hpoint first) as (rx' & Hx' & Hallx). rewrite Hx in Hx'. injection Hx' as <-.
  destruct (Hpoint second) as (ry' & Hy' & Hally). rewrite Hy in Hy'. injection Hy' as <-.
  destruct (Hpoint (first ++ second)) as (rz & Hz & Hallz). rewrite Hz. do 2 f_equal.
  clear Hx Hy Hz. revert rx Hallx rz Hallz.
  induction first as [|req first IH]; intros rx Hallx rz Hallz.
  - inversion Hallx; subst. simpl in *. clear Hallx.
    revert rz Hallz. induction Hally as [|req resp second ry Hd Hally IHy]; intros rz Hallz.
    + now inversion Hallz.
    + inversion Hallz as [|? resp' ? rz' Hd' Hallz']; subst.
      rewrite Hd in Hd'. injection Hd' as <-. f_equal. now apply IHy.
  - inversion Hallx as [|? resp ? rx' Hd Hallx']; subst.
    simpl in Hallz. inversion Hallz as [|? resp' ? rz' Hd' Hallz']; subst.
    rewrite Hd in Hd'. injection Hd' as <-. simpl. f_equal. now apply IH.
Qed.

Lemma run_tools_pointwise_witness :
  ToolRunner.run_tools
    ([ToolCallRequest.mk "call_1" "Nope" (PyDict [])]
     ++ [ToolCallRequest.mk "call_2" "Echo" (PyDict [("text", PyStr "hi")])])
    Sample.registry
  = (Ok ([ToolCallResponse.mk "call_1" "Nope" (PyDict [])
            (PyStr "Tool 'Nope' not found. Available tools: ['Echo', 'Flag', 'Faulty']")
            "error"]
         ++ [ToolCallResponse.mk "call_2" "Echo" (PyDict [("text", PyStr "hi")])
               (PyStr "hi") "success"]),
     Sample.registry).
Proof.
  apply (proj2 (run_tools_pointwise Sample.registry)); reflexivity.
Defined.

(* --------------------------------------------------------------------- *)
(** ** The storage providers, again (storage_providers.py)                *)
(* --------------------------------------------------------------------- *)

Section MemoryFiles.
Context {json : JsonModule}.

(** X8.  The three methods of [MemoryProvider] agree on which files there
    are: [file_exists] accepts a name exactly when [list_files] has a record
    of that name, and exactly when [download_file] returns bytes for it; no
    name is listed twice; and the size recorded for a markdown file is the
    number of bytes [download_file] returns for it. *)
Theorem memory_provider_methods_agree (self : MemoryProvider.t) :
  NoDup (map FileRecord.name (MemoryProvider.list_files self))
  /\ (forall file_name,
        (MemoryProvider.file_exists self file_name = true
         <-> file_name ∈ map FileRecord.name (MemoryProvider.list_files self))
        /\ (MemoryProvider.file_exists self file_name = true
            <-> is_Some (MemoryProvider.download_file self file_name)))
  /\ (forall record content,
        record ∈ MemoryProvider.list_files self ->
        FileRecord.content_type record = "text/markdown" ->
        MemoryProvider.download_file self (FileRecord.name record) = Some content ->
        FileRecord.size record = length content).
Proof.
  unfold MemoryProvider.list_files, MemoryProvider.file_exists,
    MemoryProvider.download_file.
  destruct (MemoryProvider.truthy (MemoryProvider._user_prompt self)) eqn:Huser;
    (split; [| split]).
  - simpl. apply (bool_decide_unpack _). exact I.
  - intros file_name. simpl.
    repeat case_bool_decide; subst; try discriminate;
      rewrite ?elem_of_cons, ?elem_of_nil; split; split;
      intros; try tauto; try (eexists; reflexivity); try congruence;
      try (exfalso; match goal with H : ¬ _ ∈ _ |- _ => apply H end;
           rewrite ?elem_of_cons; tauto);
      try match goal with H : is_Some None |- _ => destruct H; discriminate end.
    all: try match goal with H : _ ∈ _ |- _ =>
           rewrite ?elem_of_cons, ?elem_of_nil in H; tauto end.
  - intros record content Hin. simpl in Hin.
    rewrite ?elem_of_cons, ?elem_of_nil in Hin.
    destruct Hin as [-> | [-> | [-> | []]]]; simpl; try discriminate;
      intros _; rewrite ?Huser; now intros [= <-].
  - simpl. apply (bool_decide_unpack _). exact I.
  - intros file_name. simpl.
    repeat case_bool_decide; subst; try discriminate;
      rewrite ?elem_of_cons, ?elem_of_nil; split; split;
      intros; try tauto; try (eexists; reflexivity); try congruence;
      try (exfalso; match goal with H : ¬ _ ∈ _ |- _ => apply H end;
           rewrite ?elem_of_cons; tauto);
      try match goal with H : is_Some None |- _ => destruct H; discriminate end.
    all: try match goal with H : _ ∈ _ |- _ =>
           rewrite ?elem_of_cons, ?elem_of_nil in H; tauto end.
  - intros record content Hin. simpl in Hin.
    rewrite ?elem_of_cons, ?elem_of_nil in Hin.
    destruct Hin as [-> | [-> | []]]; simpl; try discriminate;
      intros _; now intros [= <-].
Qed.

End MemoryFiles.

Section FileSystemListing.
Context {os : OS}.
Variable self : FileSystemProvider.t.

Lemma list_files_loop_records (filenames : list string) (files : list FileRecord.t) :
  (forall filename, filename ∈ filenames ->
     os_path_isfile (os_path_join (FileSystemProvider._prompt_path self) filename) = true ->
     exists stat,
       os_stat (os_path_join (FileSystemProvider._prompt_path self) filename) = Ok stat) ->
  exists records,
    FileSystemProvider.list_files_loop self filenames files = Ok (files ++ records)
    /\ map FileRecord.name records
       = List.filter
           (fun filename =>
              os_path_isfile (os_path_join (FileSystemProvider._prompt_path self) filename))
           filenames
    /\ Forall
         (fun record =>
            FileRecord.filename record = FileRecord.name record
            /\ FileRecord.content_type record
               = FileSystemProvider._get_content_type (FileRecord.name record)
            /\ FileSystemProvider.file_exists self (FileRecord.name record) = true
            /\ exists stat,
                 os_stat (os_path_join (FileSystemProvider._prompt_path self)
                            (FileRecord.name record)) = Ok stat
                 /\ FileRecord.size record = stat_result.st_size stat
                 /\ FileRecord.created_at record = stat_result.st_ctime stat
                 /\ FileRecord.modified_at record = stat_result.st_mtime stat)
         records.
Proof.
  revert files. induction filenames as [|filename filenames IH]; intros files Hstat.
  - exists []. simpl. rewrite app_nil_r. repeat split. constructor.
  - simpl.
    assert (Hrest : forall other, other ∈ filenames ->
              os_path_isfile (os_path_join (FileSystemProvider._prompt_path self) other)
              = true ->
              exists stat,
                os_stat (os_path_join (FileSystemProvider._prompt_path self) other)
                = Ok stat).
    { intros other Hin. apply Hstat. now apply list_elem_of_further. }
    destruct (os_path_isfile (os_path_join (FileSystemProvider._prompt_path self) filename))
      eqn:Hfile.
    + destruct (Hstat filename (list_elem_of_here _ _) Hfile) as (stat & Hs).
      rewrite Hs. unfold rbind.
      destruct (IH (files ++ [FileRecord.mk filename filename
                                (stat_result.st_size stat) (stat_result.st_ctime stat)
                                (stat_result.st_mtime stat)
                                (FileSystemProvider._get_content_type filename)]) Hrest)
        as (records & Hloop & Hnames & Hall).
      eexists (_ :: records). rewrite Hloop, <- app_assoc. split; [reflexivity |].
      split; [simpl; now rewrite Hnames |].
      constructor; [| exact Hall].
      repeat split; try reflexivity; [exact Hfile |].
      exists stat. now repeat split.
    + destruct (IH files Hrest) as (records & Hloop & Hnames & Hall).
      exists records. now repeat split.
Qed.

(** X9.  When the directory can be listed and every regular file in it can
    be examined, [list_files] returns one record for each name of the
    listing that is a regular file, in the order of the listing, and nothing
    for the other names (sub-directories).  Each record has the name as
    [name] and as [filename], the content type of the name, the size and
    the times [os.stat] reports, and [file_exists] accepts its name. *)
Theorem filesystem_list_files_records (filenames : list string) :
  os_listdir (FileSystemProvider._prompt_path self) = Ok filenames ->
  (forall filename, filename ∈ filenames ->
     os_path_isfile (os_path_join (FileSystemProvider._prompt_path self) filename) = true ->
     exists stat,
       os_stat (os_path_join (FileSystemProvider._prompt_path self) filename) = Ok stat) ->
  map FileRecord.name (FileSystemProvider.list_files self)
  = List.filter
      (fun filename =>
         os_path_isfile (os_path_join (FileSystemProvider._prompt_path self) filename))
      filenames
  /\ Forall
       (fun record =>
          FileRecord.filename record = FileRecord.name record
          /\ FileRecord.content_type record
             = FileSystemProvider._get_content_type (FileRecord.name record)
          /\ FileSystemProvider.file_exists self (FileRecord.name record) = true
          /\ exists stat,
               os_stat (os_path_join (FileSystemProvider._prompt_path self)
                          (FileRecord.name record)) = Ok stat
               /\ FileRecord.size record = stat_result.st_size stat
               /\ FileRecord.created_at record = stat_result.st_ctime stat
               /\ FileRecord.modified_at record = stat_result.st_mtime stat)
       (FileSystemProvider.list_files self).
Proof.
  intros Hlist Hstat.
  destruct (list_files_loop_records filenames [] Hstat) as (records & Hloop & Hnames & Hall).
  unfold FileSystemProvider.list_files. rewrite Hlist. unfold rbind.
  rewrite Hloop. simpl. split; [exact Hnames | exact Hall].
Qed.

Lemma list_files_loop_raises (filenames : list string) (files : list FileRecord.t)
    (filename : string) (e : PyExc) :
  filename ∈ filenames ->
  os_path_isfile (os_path_join (FileSystemProvider._prompt_path self) filename) = true ->
  os_stat (os_path_join (FileSystemProvider._prompt_path self) filename) = Raise e ->
  exists e', FileSystemProvider.list_files_loop self filenames files = Raise e'.
Proof.
  intros Hin Hfile Hstat. revert files.
  induction filenames as [|other filenames IH]; intros files.
  - now apply elem_of_nil in Hin.
  - simpl.
    destruct (decide (other = filename)) as [-> | Hne].
    + rewrite Hfile, Hstat. now exists e.
    + apply elem_of_cons in Hin as [-> | Hin]; [congruence |].
      destruct (os_path_isfile (os_path_join (FileSystemProvider._prompt_path self) other));
        [| now apply IH].
      destruct (os_stat (os_path_join (FileSystemProvider._prompt_path self) other))
        as [stat | e']; [now apply IH | now exists e'].
Qed.

(** X10.  [list_files] returns all or nothing: if a single regular file of
    the listing cannot be examined ([os.stat] raises), the list returned is
    empty, whatever the other files are and wherever the file stands in the
    listing. *)
Theorem filesystem_list_files_all_or_nothing
    (filenames : list string) (filename : string) (e : PyExc) :
  os_listdir (FileSystemProvider._prompt_path self) = Ok filenames ->
  filename ∈ filenames ->
  os_path_isfile (os_path_join (FileSystemProvider._prompt_path self) filename) = true ->
  os_stat (os_path_join (FileSystemProvider._prompt_path self) filename) = Raise e ->
  FileSystemProvider.list_files self = [].
Proof.
  intros Hlist Hin Hfile Hstat.
  destruct (list_files_loop_raises filenames [] filename e Hin Hfile Hstat) as (e' & Hloop).
  unfold FileSystemProvider.list_files. rewrite Hlist. unfold rbind. now rewrite Hloop.
Qed.

End FileSystemListing.

Lemma filesystem_list_files_records_witness :
  map FileRecord.name (FileSystemProvider.list_files (os := Sample.prompt_dir) Sample.demo)
  = ["settings.json"; "system.md"; "user.md"; " "].
Proof.
  refine (proj1 (filesystem_list_files_records (os := Sample.prompt_dir) Sample.demo
                   ["settings.json"; "system.md"; "user.md"; " "] eq_refl _)).
  intros filename Hin _.
  repeat (apply elem_of_cons in Hin as [-> | Hin]; [eexists; reflexivity |]).
  now apply elem_of_nil in Hin.
Defined.

Lemma filesystem_list_files_all_or_nothing_witness :
  FileSystemProvider.list_files (os := MoreSamples.racing_dir) Sample.demo = [].
Proof.
  apply (filesystem_list_files_all_or_nothing (os := MoreSamples.racing_dir) Sample.demo
           ["settings.json"; "system.md"; "user.md"; " "] "user.md"
           (mkExc OSError "No such file or directory") eq_refl).
  - apply (bool_decide_unpack _). exact I.
  - reflexivity.
  - reflexivity.
Defined.

(* --------------------------------------------------------------------- *)
(** ** The blob storage client (blob_storage.py)                          *)
(* --------------------------------------------------------------------- *)

Lemma lstrip_blank (s : string) : blank s = true -> lstrip s = "".
Proof.
  induction s as [|c s IH]; [reflexivity |].
  simpl. intros [Hc Hs]%andb_true_iff. rewrite Hc. now apply IH.
Qed.

Lemma str_strip_blank (s : string) : blank s = true -> str_strip s = "".
Proof. intros Hs. unfold str_strip. now rewrite lstrip_blank. Qed.

Lemma endswith_char_app (c : ascii) (s : string) :
  endswith_char c (s +:+ String c "") = true.
Proof.
  induction s as [|d s IH]; simpl; [apply char_eqb_refl |].
  destruct (s +:+ String c "") eqn:Happ; [| exact IH].
  destruct s; discriminate Happ.
Qed.

Lemma replace_char_absent (c d : ascii) (s : string) :
  c <> d -> contains_char c (str_replace (String c "") (String d "") s) = false.
Proof.
  intros Hne. unfold str_replace. induction s as [|a s IH]; [reflexivity |].
  cbn [replace_from startswith String.length Nat.sub].
  destruct (char_eqb c a) eqn:Hca; cbn [andb].
  - cbn [String.append contains_char]. rewrite IH.
    rewrite (proj2 (char_eqb_neq _ _)) by exact Hne. reflexivity.
  - cbn [contains_char]. now rewrite Hca, IH.
Qed.

Section BlobClient.
Context {environ : Environ} {B : Type} {azure : ContainerClient B}.

Lemma normalize_path_ends (path : string) :
  path <> "" -> endswith_char "/" (BlobStorageClient._normalize_path path) = true.
Proof.
  intros Hpath. unfold BlobStorageClient._normalize_path, str_truthy.
  rewrite bool_decide_eq_false_2 by exact Hpath. simpl.
  destruct (endswith_char "/" (str_replace (String backslash "") "/" (str_strip path)))
    eqn:Hends; simpl; [exact Hends | apply endswith_char_app].
Qed.

Lemma normalize_path_no_backslash (path : string) :
  contains_char backslash (BlobStorageClient._normalize_path path) = false.
Proof.
  unfold BlobStorageClient._normalize_path.
  destruct (str_truthy path); simpl; [| reflexivity].
  pose proof (replace_char_absent backslash "/" (str_strip path)) as Hfree.
  destruct (endswith_char "/" (str_replace (String backslash "") "/" (str_strip path)));
    simpl; [apply Hfree; discriminate |].
  rewrite contains_char_app, Hfree by discriminate. reflexivity.
Qed.

(** X11.  [_normalize_path] gives the empty text for the empty path only;
    for every other path the result ends with a slash, in particular it is
    [/] for a path of white space; and the result holds no backslash. *)
Theorem normalize_path_shape (path : string) :
  (BlobStorageClient._normalize_path path = "" <-> path = "")
  /\ (path <> "" -> endswith_char "/" (BlobStorageClient._normalize_path path) = true)
  /\ (path <> "" -> blank path = true -> BlobStorageClient._normalize_path path = "/")
  /\ contains_char backslash (BlobStorageClient._normalize_path path) = false.
Proof.
  split; [| split; [| split]].
  - split; [| now intros ->].
    intros Hempty. destruct (decide (path = "")) as [Hpath | Hpath]; [exact Hpath |].
    pose proof (normalize_path_ends path Hpath) as Hends.
    rewrite Hempty in Hends. discriminate Hends.
  - apply normalize_path_ends.
  - intros Hpath Hblank. unfold BlobStorageClient._normalize_path, str_truthy.
    rewrite bool_decide_eq_false_2 by exact Hpath.
    now rewrite (str_strip_blank _ Hblank).
  - apply normalize_path_no_backslash.
Qed.

(** X12.  The construction of a client raises nothing but [ValueError]: a
    failure of the SDK is wrapped in one.  A client that was constructed
    has the container name it was given without the white space around it,
    which is not empty, and a working folder in normal form: empty, or
    ending with a slash, and without backslash. *)
Theorem blob_client_init (container_name working_folder : string) :
  (forall e, BlobStorageClient.__init__ container_name working_folder = Raise e ->
             exc_class e = ValueError)
  /\ (forall self container,
        BlobStorageClient.__init__ container_name working_folder = Ok (self, container) ->
        BlobStorageClient._container_name self = str_strip container_name
        /\ BlobStorageClient._container_name self <> ""
        /\ BlobStorageClient._working_folder self
           = BlobStorageClient._normalize_path working_folder
        /\ (BlobStorageClient._working_folder self = ""
            \/ endswith_char "/" (BlobStorageClient._working_folder self) = true)
        /\ contains_char backslash (BlobStorageClient._working_folder self) = false
        /\ exists connection_string,
             os_getenv STORAGE_CONNECTION_STRING_ENV_VAR = Some connection_string
             /\ connection_string <> ""
             /\ from_connection_string connection_string (str_strip container_name)
                = Ok container).
Proof.
  unfold BlobStorageClient.__init__, str_truthy.
  pose proof (normalize_path_ends working_folder) as Hends.
  pose proof (normalize_path_no_backslash working_folder) as Hfree.
  split.
  - intros e. repeat case_bool_decide; simpl; try (now intros [= <-]).
    destruct (os_getenv _) as [connection_string|]; [| now intros [= <-]].
    case_bool_decide; simpl; [now intros [= <-] |].
    destruct (from_connection_string _ _); [discriminate | now intros [= <-]].
  - intros self container.
    repeat case_bool_decide; simpl; try discriminate.
    destruct (os_getenv _) as [connection_string|]; [| discriminate].
    case_bool_decide; simpl; [discriminate |].
    destruct (from_connection_string _ _) as [connected|] eqn:Hconnect; [| discriminate].
    intros [= <- <-]. simpl. repeat split; try assumption.
    + destruct (decide (working_folder = "")) as [-> | Hne]; [now left | right; auto].
    + exists connection_string. auto.
Qed.

Lemma blank_name_guard (file_name : string) :
  blank file_name = true ->
  negb (str_truthy file_name) || negb (str_truthy (str_strip file_name)) = true.
Proof.
  intros Hblank. rewrite (str_strip_blank _ Hblank). apply orb_true_r.
Qed.

(** X13.  A name that is empty or all (ASCII) white space is turned away
    by the client before the container is asked: [download_file] returns
    [None] and [file_exists] returns [False] whatever the container holds
    (also a blob under the folder itself), and [upload_file] returns
    [False] and leaves the container as it is. *)
Theorem blob_client_rejects_blank_names (self : BlobStorageClient.t)
    (file_name : string) (content : bytes) (container : B) :
  blank file_name = true ->
  BlobStorageClient.download_file self file_name container = None
  /\ BlobStorageClient.file_exists self file_name container = false
  /\ BlobStorageClient.upload_file self file_name content container = (Ok false, container).
Proof.
  intros Hguard%blank_name_guard.
  unfold BlobStorageClient.download_file, BlobStorageClient.file_exists,
    BlobStorageClient.upload_file.
  rewrite Hguard. repeat split.
Qed.

Lemma name_guard_stripped (file_name : string) :
  negb (str_truthy file_name) || negb (str_truthy (str_strip file_name))
  = negb (str_truthy (str_strip file_name)).
Proof.
  unfold str_truthy. case_bool_decide as Hname; [| reflexivity].
  subst file_name. reflexivity.
Qed.

(** X14.  The client addresses a file by its name without the white space
    around it.  So, on a container that gives back what was uploaded, the
    bytes uploaded under a name are those [download_file] returns, and
    [file_exists] accepts, for every name that differs from it at most in
    the white space around it; a successful upload returns [True]. *)
Theorem blob_upload_then_download (self : BlobStorageClient.t)
    (file_name other_name : string) (content : bytes) (container container' : B) :
  (forall blob_name data before after,
     upload_blob blob_name data before = (Ok tt, after) ->
     download_blob_readall blob_name after = Ok data
     /\ exists properties, get_blob_properties blob_name after = Ok properties) ->
  str_strip file_name <> "" ->
  str_strip other_name = str_strip file_name ->
  upload_blob (BlobStorageClient._working_folder self +:+ str_strip file_name)
    content container = (Ok tt, container') ->
  BlobStorageClient.upload_file self file_name content container = (Ok true, container')
  /\ BlobStorageClient.download_file self other_name container' = Some content
  /\ BlobStorageClient.file_exists self other_name container' = true.
Proof.
  intros Hcontract Hname Hother Hupload.
  destruct (Hcontract _ _ _ _ Hupload) as (Hdownload & properties & Hproperties).
  unfold BlobStorageClient.upload_file, BlobStorageClient.download_file,
    BlobStorageClient.file_exists, BlobStorageClient._get_full_path.
  rewrite !name_guard_stripped, Hother. unfold str_truthy.
  rewrite bool_decide_eq_false_2 by exact Hname. simpl.
  unfold try_except, bind. rewrite Hupload, Hdownload, Hproperties. auto.
Qed.

Lemma blob_list_files_loop_names (self : BlobStorageClient.t)
    (blobs : list BlobProperties.t) (result : list BlobRecord.t) :
  exists records,
    BlobStorageClient.list_files_loop self blobs result = result ++ records
    /\ map BlobRecord.name records
       = List.filter
           (fun blob_name =>
              negb (bool_decide (blob_name = BlobStorageClient._working_folder self)))
           (map BlobProperties.name blobs)
    /\ Forall (fun record =>
                 BlobRecord.filename record = last_component (BlobRecord.name record)
                 /\ exists blob,
                      blob ∈ blobs
                      /\ BlobRecord.name record = BlobProperties.name blob
                      /\ BlobRecord.size record = BlobProperties.size blob
                      /\ BlobRecord.content_type record = BlobProperties.content_type blob)
              records.
Proof.
  revert result. induction blobs as [|blob blobs IH]; intros result.
  - exists []. simpl. rewrite app_nil_r. repeat split. constructor.
  - simpl. case_bool_decide as Hmarker; simpl.
    + destruct (IH result) as (records & Hloop & Hnames & Hall).
      exists records. repeat split; try assumption.
      eapply Forall_impl; [exact Hall |]. intros record (Hfile & b & Hin & Hb).
      split; [exact Hfile |]. exists b. split; [now apply list_elem_of_further | exact Hb].
    + destruct (IH (result ++ [BlobRecord.mk (BlobProperties.name blob)
                                  (last_component (BlobProperties.name blob))
                                  (BlobProperties.size blob)
                                  (BlobProperties.creation_time blob)
                                  (BlobProperties.last_modified blob)
                                  (BlobProperties.content_type blob)]))
        as (records & Hloop & Hnames & Hall).
      eexists (_ :: records). rewrite Hloop, <- app_assoc. split; [reflexivity |].
      split; [simpl; now rewrite Hnames |].
      constructor.
      * split; [reflexivity |]. exists blob. split; [apply list_elem_of_here | auto].
      * eapply Forall_impl; [exact Hall |]. intros record (Hfile & b & Hin & Hb).
        split; [exact Hfile |]. exists b.
        split; [now apply list_elem_of_further | exact Hb].
Qed.

(** X15.  [list_files] of the client returns one record for every blob the
    container lists under the working folder, in that order, but none for
    the blob whose name is the working folder itself (the marker that
    [create_folder] writes); so no record has the working folder as its
    name.  A record carries the full name of its blob, folder included,
    and, as [filename], the part of the name after its last slash.  When
    the listing fails the list returned is empty. *)
Theorem blob_list_files_skips_marker (self : BlobStorageClient.t) (container : B) :
  (forall blobs,
     list_blobs (BlobStorageClient._working_folder self) container = Ok blobs ->
     map BlobRecord.name (BlobStorageClient.list_files self container)
     = List.filter
         (fun blob_name =>
            negb (bool_decide (blob_name = BlobStorageClient._working_folder self)))
         (map BlobProperties.name blobs)
     /\ Forall (fun record =>
                  BlobRecord.filename record = last_component (BlobRecord.name record)
                  /\ exists blob,
                       blob ∈ blobs
                       /\ BlobRecord.name record = BlobProperties.name blob
                       /\ BlobRecord.size record = BlobProperties.size blob
                       /\ BlobRecord.content_type record = BlobProperties.content_type blob)
               (BlobStorageClient.list_files self container))
  /\ (forall record, record ∈ BlobStorageClient.list_files self container ->
                     BlobRecord.name record <> BlobStorageClient._working_folder self)
  /\ (forall e,
        list_blobs (BlobStorageClient._working_folder self) container = Raise e ->
        BlobStorageClient.list_files self container = []).
Proof.
  unfold BlobStorageClient.list_files.
  destruct (list_blobs _ container) as [blobs|e].
  - destruct (blob_list_files_loop_names self blobs []) as (records & Hloop & Hnames & Hall).
    rewrite Hloop. simpl. split; [| split].
    + intros ? [= <-]. split; assumption.
    + intros record Hin Hname.
      assert (Hmem : BlobRecord.name record ∈ map BlobRecord.name records)
        by now apply list_elem_of_fmap_2.
      rewrite Hnames in Hmem. apply list_elem_of_In, filter_In in Hmem as [_ Hkeep].
      rewrite Hname in Hkeep. rewrite bool_decide_eq_true_2 in Hkeep by reflexivity.
      discriminate Hkeep.
    + discriminate.
  - split; [discriminate |]. split; [| reflexivity].
    intros record Hin. now apply elem_of_nil in Hin.
Qed.

(** X16.  The two writing methods of the client raise nothing: they return
    a truth value.  [upload_file] returns [True] exactly when the name is
    not blank and the upload of the stripped name under the working folder
    went through.  [create_folder] on the root folder returns [True]
    without writing; on another folder it returns [True] when the upload of
    the marker went through or the marker exists already, and [False] on
    any other error. *)
Theorem blob_writes_never_raise (self : BlobStorageClient.t)
    (file_name : string) (content : bytes) (container : B) :
  (exists uploaded container',
     BlobStorageClient.upload_file self file_name content container
     = (Ok uploaded, container')
     /\ (uploaded = true
         <-> str_strip file_name <> ""
             /\ fst (upload_blob (BlobStorageClient._working_folder self
                                  +:+ str_strip file_name) content container) = Ok tt))
  /\ (exists created container',
        BlobStorageClient.create_folder self container = (Ok created, container')
        /\ (BlobStorageClient._working_folder self = "" ->
            created = true /\ container' = container)
        /\ (BlobStorageClient._working_folder self <> "" ->
            created
            = match fst (upload_blob (BlobStorageClient._working_folder self) [] container)
              with
              | Ok _ => true
              | Raise e => is_ResourceExistsError e
              end)).
Proof.
  split.
  - unfold BlobStorageClient.upload_file, BlobStorageClient._get_full_path.
    rewrite name_guard_stripped. unfold str_truthy.
    case_bool_decide as Hname; simpl.
    + exists false, container. split; [reflexivity |].
      split; [discriminate | intros [Hne _]; congruence].
    + unfold try_except, bind.
      destruct (upload_blob _ content container) as [[[]|e] container'] eqn:Hupload; simpl.
      * exists true, container'. split; [reflexivity |]. split; auto.
      * exists false, container'. split; [reflexivity |].
        split; [discriminate | intros [_ Hok]; discriminate Hok].
  - unfold BlobStorageClient.create_folder, str_truthy.
    case_bool_decide as Hfolder; simpl.
    + exists true, container. split; [reflexivity |]. split; [auto | congruence].
    + unfold try_except, bind.
      destruct (upload_blob _ [] container) as [[[]|e] container'] eqn:Hupload; simpl.
      * exists true, container'. split; [reflexivity |]. split; [congruence | reflexivity].
      * exists (is_ResourceExistsError e), container'. split; [reflexivity |].
        split; [congruence | reflexivity].
Qed.

End BlobClient.

Lemma memory_container_gives_back (blob_name : string) (data : bytes)
    (before after : list (string * bytes)) :
  upload_blob (ContainerClient := MoreSamples.memory_container) blob_name data before
  = (Ok tt, after) ->
  download_blob_readall (ContainerClient := MoreSamples.memory_container) blob_name after
  = Ok data
  /\ exists properties,
       get_blob_properties (ContainerClient := MoreSamples.memory_container) blob_name after
       = Ok properties.
Proof.
  simpl. case_bool_decide; [discriminate |].
  destruct (8 <? length data); [discriminate |].
  intros [= <-]. rewrite dict_get_set_eq. split; [reflexivity | eexists; reflexivity].
Defined.

Lemma normalize_path_shape_witness :
  BlobStorageClient._normalize_path "   " = "/"
  /\ endswith_char "/" (BlobStorageClient._normalize_path " prompts\demo ") = true.
Proof.
  split.
  - apply (proj1 (proj2 (proj2 (normalize_path_shape "   ")))); [discriminate | reflexivity].
  - apply (proj1 (proj2 (normalize_path_shape " prompts\demo "))). discriminate.
Defined.

Lemma blob_client_init_witness :
  BlobStorageClient.__init__ (environ := MoreSamples.development)
    (azure := MoreSamples.memory_container) " prompts " "demo"
  = Ok (MoreSamples.demo_client, [])
  /\ BlobStorageClient._container_name MoreSamples.demo_client <> "".
Proof.
  split; [reflexivity |].
  exact (proj1 (proj2 (proj2 (blob_client_init (environ := MoreSamples.development)
                                (azure := MoreSamples.memory_container)
                                " prompts " "demo")
                              MoreSamples.demo_client [] eq_refl))).
Defined.

Lemma blob_client_rejects_blank_names_witness :
  let container := [("demo/", []); ("demo/ ", str_encode "stray")] in
  BlobStorageClient.download_file (azure := MoreSamples.memory_container)
    MoreSamples.demo_client " " container = None
  /\ BlobStorageClient.file_exists (azure := MoreSamples.memory_container)
       MoreSamples.demo_client " " container = false
  /\ BlobStorageClient.upload_file (azure := MoreSamples.memory_container)
       MoreSamples.demo_client " " (str_encode "x") container = (Ok false, container).
Proof.
  intros container.
  exact (blob_client_rejects_blank_names (azure := MoreSamples.memory_container)
           MoreSamples.demo_client " " (str_encode "x") container eq_refl).
Defined.

Lemma blob_upload_then_download_witness :
  BlobStorageClient.upload_file (azure := MoreSamples.memory_container)
    MoreSamples.demo_client " user.md " (str_encode "Hello") [("demo/", [])]
  = (Ok true, [("demo/", []); ("demo/user.md", str_encode "Hello")])
  /\ BlobStorageClient.download_file (azure := MoreSamples.memory_container)
       MoreSamples.demo_client "user.md"
       [("demo/", []); ("demo/user.md", str_encode "Hello")]
     = Some (str_encode "Hello")
  /\ BlobStorageClient.file_exists (azure := MoreSamples.memory_container)
       MoreSamples.demo_client "user.md"
       [("demo/", []); ("demo/user.md", str_encode "Hello")]
     = true.
Proof.
  apply (blob_upload_then_download (azure := MoreSamples.memory_container)
           MoreSamples.demo_client " user.md " "user.md" (str_encode "Hello")
           [("demo/", [])] [("demo/", []); ("demo/user.md", str_encode "Hello")]
           memory_container_gives_back).
  - discriminate.
  - reflexivity.
  - reflexivity.
Defined.

Lemma blob_list_files_skips_marker_witness :
  map BlobRecord.name
    (BlobStorageClient.list_files (azure := MoreSamples.memory_container)
       MoreSamples.demo_client
       [("demo/", []); ("demo/system.md", str_encode "Hi"); ("other/system.md", [])])
  = ["demo/system.md"].
Proof.
  exact (proj1 (proj1 (blob_list_files_skips_marker (azure := MoreSamples.memory_container)
                         MoreSamples.demo_client
                         [("demo/", []); ("demo/system.md", str_encode "Hi");
                          ("other/system.md", [])])
                 _ eq_refl)).
Defined.

(** The writing methods on the sample container: an upload that is
    refused, a marker that exists already, and a marker that is written. *)
Example blob_writes_on_the_sample_container :
  BlobStorageClient.upload_file (azure := MoreSamples.memory_container)
    MoreSamples.demo_client "big.bin" (str_encode "more than eight bytes") []
  = (Ok false, [])
  /\ BlobStorageClient.create_folder (azure := MoreSamples.memory_container)
       (BlobStorageClient.mk "prompts" "archive/") [] = (Ok true, [])
  /\ BlobStorageClient.create_folder (azure := MoreSamples.memory_container)
       MoreSamples.demo_client [] = (Ok true, [("demo/", [])]).
Proof. repeat split. Qed.

Section BlobProvider.
Context {environ : Environ} {B : Type} {azure : ContainerClient B}.

(** X17.  [BlobStorageProvider] of a prompt name: its construction raises
    nothing but [ValueError], and never the one about the container name;
    once constructed it works on the container [prompts] and on the folder
    of the prompt name in normal form, and a file is read from the blob
    named by that folder followed by the file name without the white space
    around it. *)
Theorem blob_provider_init (prompt_name : string) :
  (forall e, BlobStorageProvider.__init__ prompt_name = Raise e ->
             exc_class e = ValueError
             /\ exc_str e <> "Container name is required and cannot be empty")
  /\ (forall self container,
        BlobStorageProvider.__init__ prompt_name = Ok (self, container) ->
        BlobStorageProvider._blob_client self
        = BlobStorageClient.mk "prompts" (BlobStorageClient._normalize_path prompt_name)
        /\ forall file_name stored,
             str_strip file_name <> "" ->
             BlobStorageProvider.download_file self file_name stored
             = match download_blob_readall
                       (BlobStorageClient._normalize_path prompt_name +:+ str_strip file_name)
                       stored with
               | Ok content => Some content
               | Raise _ => None
               end).
Proof.
  unfold BlobStorageProvider.__init__, BlobStorageClient.__init__, rbind.
  change (str_strip BlobStorageProvider._container_name) with "prompts".
  change (str_truthy BlobStorageProvider._container_name) with true.
  change (str_truthy "prompts") with true. cbn [negb orb].
  destruct (os_getenv _) as [connection_string|].
  - destruct (str_truthy connection_string).
    + destruct (from_connection_string _ _) as [connected|e'].
      * split; [discriminate |]. intros self container [= <- <-]. simpl.
        split; [reflexivity |]. intros file_name stored Hname.
        unfold BlobStorageProvider.download_file, BlobStorageClient.download_file,
          BlobStorageClient._get_full_path. simpl.
        rewrite name_guard_stripped. unfold str_truthy.
        now rewrite bool_decide_eq_false_2 by exact Hname.
      * split; [| discriminate]. intros e [= <-]. simpl. split; [reflexivity |].
        discriminate.
    + split; [| discriminate]. intros e [= <-]. simpl. split; [reflexivity | discriminate].
  - split; [| discriminate]. intros e [= <-]. simpl. split; [reflexivity | discriminate].
Qed.

End BlobProvider.

(* --------------------------------------------------------------------- *)
(** ** The model orchestrator, again (model_client.py)                    *)
(* --------------------------------------------------------------------- *)

Section ModelClientInit.
Context {C : Type} {environ : Environ} {sdk : OpenAISDK C}.

(** X18.  An orchestrator that was constructed holds the prompt it was
    given, its provider is one of [openai], [azure] and [grok], and every
    environment variable of that provider was set to a text that is not
    empty: one key for [openai] and [grok], the endpoint, the key and the
    version for [azure]; the client is the one the SDK made from these
    values, for [grok] at the address of x.ai.  For any other provider
    (the comparison minds the case) the construction raises the
    [ValueError] that names the provider, whatever the environment; and an
    [azure] prompt without endpoint is told so whatever else is set. *)
Theorem model_client_init_requires_credentials (prompt : Prompt.t) :
  (forall self client,
     ModelClient.__init__ prompt = Ok (self, client) ->
     ModelClient._prompt self = prompt
     /\ ((PromptSettings.provider (Prompt.settings prompt) = "openai"
          /\ env_truthy (os_getenv "OPENAI_API_KEY") = true
          /\ OpenAI (os_getenv "OPENAI_API_KEY") None = Ok client)
         \/ (PromptSettings.provider (Prompt.settings prompt) = "azure"
             /\ env_truthy (os_getenv "AZURE_OPENAI_ENDPOINT_URL") = true
             /\ env_truthy (os_getenv "AZURE_OPENAI_API_KEY") = true
             /\ env_truthy (os_getenv "AZURE_OPENAI_API_VERSION") = true
             /\ AzureOpenAI (os_getenv "AZURE_OPENAI_ENDPOINT_URL")
                  (os_getenv "AZURE_OPENAI_API_KEY")
                  (os_getenv "AZURE_OPENAI_API_VERSION") = Ok client)
         \/ (PromptSettings.provider (Prompt.settings prompt) = "grok"
             /\ env_truthy (os_getenv "GROK_API_KEY") = true
             /\ OpenAI (os_getenv "GROK_API_KEY") (Some "https://api.x.ai/v1")
                = Ok client)))
  /\ (PromptSettings.provider (Prompt.settings prompt) ∉ ["openai"; "azure"; "grok"] ->
      ModelClient.__init__ prompt
      = Raise (mkExc ValueError
                 ("Invalid provider: " +:+ PromptSettings.provider (Prompt.settings prompt))))
  /\ (PromptSettings.provider (Prompt.settings prompt) = "azure" ->
      env_truthy (os_getenv "AZURE_OPENAI_ENDPOINT_URL") = false ->
      ModelClient.__init__ prompt
      = Raise (mkExc ValueError "AZURE_OPENAI_ENDPOINT_URL is not set")).
Proof.
  unfold ModelClient.__init__.
  set (provider := PromptSettings.provider (Prompt.settings prompt)).
  split; [| split].
  - intros self client.
    case_bool_decide as Hopenai.
    { destruct (env_truthy (os_getenv "OPENAI_API_KEY")) eqn:Hkey; simpl; [| discriminate].
      destruct (OpenAI _ _) as [made|e] eqn:Hmade; simpl; [| discriminate].
      intros [= <- <-]. split; [reflexivity |]. left. auto. }
    case_bool_decide as Hazure.
    { destruct (env_truthy (os_getenv "AZURE_OPENAI_ENDPOINT_URL")) eqn:Hurl;
        simpl; [| discriminate].
      destruct (env_truthy (os_getenv "AZURE_OPENAI_API_KEY")) eqn:Hkey;
        simpl; [| discriminate].
      destruct (env_truthy (os_getenv "AZURE_OPENAI_API_VERSION")) eqn:Hversion;
        simpl; [| discriminate].
      destruct (AzureOpenAI _ _ _) as [made|e] eqn:Hmade; simpl; [| discriminate].
      intros [= <- <-]. split; [reflexivity |]. right. left. auto. }
    case_bool_decide as Hgrok; [| discriminate].
    destruct (env_truthy (os_getenv "GROK_API_KEY")) eqn:Hkey; simpl; [| discriminate].
    destruct (OpenAI _ _) as [made|e] eqn:Hmade; simpl; [| discriminate].
    intros [= <- <-]. split; [reflexivity |]. right. right. auto.
  - intros Hother. rewrite !elem_of_cons, elem_of_nil in Hother.
    repeat (case_bool_decide; [exfalso; apply Hother; tauto |]). reflexivity.
  - intros Hazure ->. rewrite Hazure. reflexivity.
Qed.

End ModelClientInit.

Lemma model_client_init_requires_credentials_witness :
  ModelClient.__init__ (environ := MoreSamples.openai_key_only)
    (sdk := MoreSamples.recording_sdk)
    (Prompt.mk "" "" (PromptSettings.mk "OpenAI" "gpt-4") None None)
  = Raise (mkExc ValueError "Invalid provider: OpenAI")
  /\ ModelClient.__init__ (environ := MoreSamples.openai_key_only)
       (sdk := MoreSamples.recording_sdk)
       (Prompt.mk "" "" (PromptSettings.mk "azure" "gpt-4") None None)
     = Raise (mkExc ValueError "AZURE_OPENAI_ENDPOINT_URL is not set").
Proof.
  split.
  - apply (proj1 (proj2 (model_client_init_requires_credentials
                           (environ := MoreSamples.openai_key_only)
                           (sdk := MoreSamples.recording_sdk)
                           (Prompt.mk "" "" (PromptSettings.mk "OpenAI" "gpt-4") None None)))).
    apply (bool_decide_unpack _). exact I.
  - apply (proj2 (proj2 (model_client_init_requires_credentials
                           (environ := MoreSamples.openai_key_only)
                           (sdk := MoreSamples.recording_sdk)
                           (Prompt.mk "" "" (PromptSettings.mk "azure" "gpt-4") None None))));
      reflexivity.
Defined.

(** The sample prompt, of provider [openai], in an environment with the key
    of that provider: the client is made from the key. *)
Example model_client_init_on_the_sample :
  ModelClient.__init__ (environ := MoreSamples.openai_key_only)
    (sdk := MoreSamples.recording_sdk) Sample.plain_prompt
  = Ok (ModelClient.mk Sample.plain_prompt, [Some "sk-test"; None]).
Proof. reflexivity. Qed.

Section StructuredCompletion.
Context {C : Type} {parse_class : ParseClient C}.

(** X19.  [get_structured_completion] for a prompt without response schema
    raises a [ValueError] and leaves the client as it is: no call is made.
    For a prompt with a schema it makes one call of [parse], with the model
    of the settings, the schema and the two base messages, and returns the
    parsed object of the first choice; what the call raises is raised. *)
Theorem structured_completion_needs_schema (self : ModelClient.t) (client : C) :
  (Prompt.response_schema (ModelClient._prompt self) = None ->
   ModelClient.get_structured_completion self client
   = (Raise (mkExc ValueError "No response schema provided and none defined in prompt"),
      client))
  /\ (forall response_schema,
        Prompt.response_schema (ModelClient._prompt self) = Some response_schema ->
        let call :=
          ParseCall.mk
            (PromptSettings.model (Prompt.settings (ModelClient._prompt self)))
            response_schema
            [ RoleContent "system" (Prompt.system_prompt (ModelClient._prompt self));
              RoleContent "user" (Prompt.user_prompt (ModelClient._prompt self)) ] in
        let answer := beta_chat_completions_parse call client in
        snd (ModelClient.get_structured_completion self client) = snd answer
        /\ (forall completion parsed others,
              fst answer = Ok completion ->
              ParsedChatCompletion.choices completion = parsed :: others ->
              fst (ModelClient.get_structured_completion self client) = Ok parsed)
        /\ (forall e, fst answer = Raise e ->
              fst (ModelClient.get_structured_completion self client) = Raise e)).
Proof.
  split.
  - unfold ModelClient.get_structured_completion. intros ->. reflexivity.
  - intros response_schema Hschema call answer.
    unfold ModelClient.get_structured_completion. rewrite Hschema.
    unfold ModelClient._build_base_messages, ModelClient.first_parsed. py_unfold.
    fold call. fold answer.
    destruct answer as [[completion|e] client']; simpl.
    + split; [now destruct (ParsedChatCompletion.choices completion) |].
      split; [| discriminate]. intros ? parsed others [= <-] ->. reflexivity.
    + split; [reflexivity |]. split; [discriminate |]. now intros ? [= <-].
Qed.

End StructuredCompletion.

Lemma structured_completion_needs_schema_witness :
  ModelClient.get_structured_completion (parse_class := MoreSamples.counting_parser)
    (ModelClient.mk Sample.plain_prompt) 0
  = (Raise (mkExc ValueError "No response schema provided and none defined in prompt"), 0).
Proof.
  exact (proj1 (structured_completion_needs_schema
                  (parse_class := MoreSamples.counting_parser)
                  (ModelClient.mk Sample.plain_prompt) 0) eq_refl).
Defined.

Section ToolBranchFailures.
Context {json : JsonModule} {C : Type} {client_class : ChatClient C}.



End ToolBranchFailures.


(* --------------------------------------------------------------------- *)
(** ** The prompt loader, again (prompt_loader.py)                        *)
(* --------------------------------------------------------------------- *)

Section LoaderSettings.
Context {json : JsonModule} {P : Type} {provider_class : StorageProviderBase P}.

(** X21.  A prompt whose [settings.json] is there but cannot be used: the
    construction of the loader raises, whatever the other two files are and
    also when they are missing.  Bytes that are not UTF-8 raise a
    [UnicodeDecodeError]; a text that [json.loads] rejects raises what
    [json.loads] raises; a JSON value that is no object, or an object with
    a key other than [provider] and [model], or without one of these two,
    raises a [TypeError], which is no [ValueError]. *)
Theorem loader_settings_errors (provider : P)
    (placeholders : option (gmap string string))
    (response_schema : option PyValue) (tools : option (list PyValue))
    (content : bytes) :
  list_files provider <> [] ->
  download_file provider "settings.json" = Some content ->
  (utf8_valid content = false ->
   exists e,
     PromptLoader.__init__ provider placeholders response_schema tools = Raise e
     /\ exc_class e = UnicodeDecodeError)
  /\ (forall text e,
        bytes_decode content = Ok text -> json_loads text = Raise e ->
        PromptLoader.__init__ provider placeholders response_schema tools = Raise e)
  /\ (forall text settings_json,
        bytes_decode content = Ok text -> json_loads text = Ok settings_json ->
        match settings_json with
        | PyDict entries =>
            (exists key, key ∈ dict_keys entries /\ key ∉ ["provider"; "model"])
            \/ dict_get "provider" entries = None
            \/ dict_get "model" entries = None
        | _ => True
        end ->
        exists e,
          PromptLoader.__init__ provider placeholders response_schema tools = Raise e
          /\ exc_class e = TypeError
          /\ is_ValueError e = false).
Proof.
  intros Hlist Hsettings.
  unfold PromptLoader.__init__, PromptLoader.load.
  destruct (list_files provider); [congruence |]. rewrite Hsettings.
  split; [| split].
  - intros Hinvalid. unfold bytes_decode. rewrite Hinvalid. simpl.
    eexists. split; reflexivity.
  - intros text e -> Hloads. simpl. now rewrite Hloads.
  - intros text settings_json -> Hloads Hshape. simpl. rewrite Hloads. simpl.
    assert (Hraise : exists e, PromptSettings.from_kwargs settings_json = Raise e
                               /\ exc_class e = TypeError).
    { unfold PromptSettings.from_kwargs.
      destruct settings_json as [| | | |items|entries|]; try (eexists; split; reflexivity).
      destruct (forallb _ (dict_keys entries)) eqn:Hkeys;
        [| eexists; split; reflexivity].
      destruct Hshape as [(key & Hin & Hother) | [Hmissing | Hmissing]].
      - rewrite forallb_forall in Hkeys.
        apply list_elem_of_In, Hkeys, bool_decide_eq_true in Hin. contradiction.
      - rewrite Hmissing. eexists. split; reflexivity.
      - rewrite Hmissing.
        destruct (dict_get "provider" entries) as [[]|]; eexists; split; reflexivity. }
    destruct Hraise as (e & -> & Hclass). simpl. exists e.
    split; [reflexivity |]. split; [exact Hclass |].
    unfold is_ValueError. now rewrite Hclass.
Qed.

End LoaderSettings.

(** A settings file with one key too many. *)
Lemma loader_settings_errors_witness :
  let settings_json :=
    PyDict [("provider", PyStr "openai"); ("model", PyStr "gpt-4");
            ("temperature", PyStr "0")] in
  let directory :=
    Sample.directory "prompts/demo"
      [("settings.json", str_encode (Sample.dumps settings_json));
       ("system.md", str_encode "You are a helpful assistant.")] in
  exists e,
    PromptLoader.__init__ (json := Sample.json)
      (provider_class := @FileSystemProvider_is_provider directory)
      Sample.demo None None None = Raise e
    /\ exc_class e = TypeError
    /\ is_ValueError e = false.
Proof.
  intros settings_json directory.
  refine (proj2 (proj2 (loader_settings_errors (json := Sample.json)
                          (provider_class := @FileSystemProvider_is_provider directory)
                          Sample.demo None None None
                          (str_encode (Sample.dumps settings_json)) _ eq_refl))
            (Sample.dumps settings_json) settings_json eq_refl eq_refl _).
  - discriminate.
  - left. exists "temperature". split; apply (bool_decide_unpack _); exact I.
Defined.

Section MemoryRoundTrip.
Context {json : JsonModule}.

(** X22.  Round trip through a memory provider, for any settings and any
    placeholders: when the texts are texts and the [json] module gives back
    the settings it wrote, the loader over the provider that holds them is
    constructed; its settings are the settings given, its schema the schema
    given, and its system and user text are the texts given, rewritten by
    the loop of [_fill_placeholders] when placeholders were given.  The
    empty mapping and [None] give the texts as they are. *)
Theorem memory_loader_round_trip_general (S U : string) (prompt_settings : PromptSettings.t)
    (placeholders : option (gmap string string))
    (response_schema : option PyValue) (tools : option (list PyValue)) :
  is_text S -> is_text U ->
  is_text (json_dumps (PromptSettings.__dict__ prompt_settings)) ->
  json_loads (json_dumps (PromptSettings.__dict__ prompt_settings))
  = Ok (PromptSettings.__dict__ prompt_settings) ->
  exists loader,
    PromptLoader.__init__ (MemoryProvider.__init__ S prompt_settings U)
      placeholders response_schema tools = Ok loader
    /\ PromptLoader.get_prompt_settings loader = prompt_settings
    /\ Prompt.settings (PromptLoader.get_prompt loader) = prompt_settings
    /\ Prompt.response_schema (PromptLoader.get_prompt loader) = response_schema
    /\ Prompt.system_prompt (PromptLoader.get_prompt loader)
       = match placeholders with
         | Some d => PromptLoader.fill_loop d S
         | None => S
         end
    /\ Prompt.user_prompt (PromptLoader.get_prompt loader)
       = match placeholders with
         | Some d => PromptLoader.fill_loop d U
         | None => U
         end
    /\ (placeholders = Some ∅ ->
        Prompt.system_prompt (PromptLoader.get_prompt loader) = S
        /\ Prompt.user_prompt (PromptLoader.get_prompt loader) = U).
Proof.
  intros HS HU Hwritten Hloads.
  assert (Hempty : forall text, PromptLoader.fill_loop ∅ text = text).
  { intros text. apply fill_loop_no_key. intros name _. apply lookup_empty. }
  rewrite memory_init_is_load.
  unfold PromptLoader.load, MemoryProvider.__init__. simpl.
  unfold MemoryProvider.download_file. simpl.
  rewrite (decode_encode _ Hwritten). simpl. rewrite Hloads.
  destruct prompt_settings as [provider_name model_name]. simpl.
  rewrite (decode_encode _ HS). simpl.
  unfold MemoryProvider.truthy.
  assert (Hdecoded : match (if negb (bool_decide (U = ""))
                            then Some (str_encode U) else None) with
                     | Some user_prompt_content => bytes_decode user_prompt_content
                     | None => Ok ""
                     end = Ok U).
  { case_bool_decide as HUe; simpl; [now subst U | apply decode_encode, HU]. }
  rewrite Hdecoded. clear Hdecoded. simpl.
  destruct placeholders as [d|]; simpl.
  - case_bool_decide as Hd; simpl.
    + subst d. eexists. split; [reflexivity |]. rewrite !Hempty. simpl. auto 10.
    + eexists. split; [reflexivity |]. simpl.
      do 5 (split; [reflexivity |]). intros [= Hd']. contradiction.
  - eexists. split; [reflexivity |]. simpl.
    do 5 (split; [reflexivity |]). discriminate.
Qed.

End MemoryRoundTrip.

Lemma memory_loader_round_trip_general_witness :
  exists loader,
    PromptLoader.__init__ (json := Sample.json)
      (provider_class := MemoryProvider_is_provider (json := Sample.json))
      (MemoryProvider.__init__ "You are a {role} assistant."
         (PromptSettings.mk "azure" "gpt-4o") "Hello, {name}.")
      (Some {[ "role" := "technical" ]}) None None = Ok loader
    /\ PromptLoader.get_prompt_settings loader = PromptSettings.mk "azure" "gpt-4o"
    /\ Prompt.system_prompt (PromptLoader.get_prompt loader)
       = "You are a technical assistant."
    /\ Prompt.user_prompt (PromptLoader.get_prompt loader) = "Hello, {name}.".
Proof.
  set (m := {[ "role" := "technical" ]} : gmap string string).
  destruct (memory_loader_round_trip_general (json := Sample.json)
              "You are a {role} assistant." "Hello, {name}."
              (PromptSettings.mk "azure" "gpt-4o") (Some m) None None
              eq_refl eq_refl eq_refl eq_refl)
    as (loader & Hloader & Hsettings & _ & _ & Hsystem & Huser & _).
  exists loader. split; [exact Hloader |]. split; [exact Hsettings |].
  split; [rewrite Hsystem | rewrite Huser]; reflexivity.
Defined.

Section FileSystemLoader.
Context {json : JsonModule} {os : OS}.

(** X23.  A loader over a directory in which one regular file cannot be
    examined: the listing comes back empty, and the construction raises the
    [ValueError] of a prompt that does not exist, whatever the directory
    holds otherwise, the three files of a prompt included. *)
Theorem filesystem_loader_needs_listing (self : FileSystemProvider.t)
    (filenames : list string) (filename : string) (e : PyExc)
    (placeholders : option (gmap string string))
    (response_schema : option PyValue) (tools : option (list PyValue)) :
  os_listdir (FileSystemProvider._prompt_path self) = Ok filenames ->
  filename ∈ filenames ->
  os_path_isfile (os_path_join (FileSystemProvider._prompt_path self) filename) = true ->
  os_stat (os_path_join (FileSystemProvider._prompt_path self) filename) = Raise e ->
  PromptLoader.__init__ self placeholders response_schema tools
  = Raise (mkExc ValueError "Prompt does not exist in storage").
Proof.
  intros Hlist Hin Hfile Hstat.
  destruct (list_files_loop_raises self filenames [] filename e Hin Hfile Hstat)
    as (e' & Hloop).
  unfold PromptLoader.__init__. simpl.
  unfold FileSystemProvider.list_files. rewrite Hlist. unfold rbind. now rewrite Hloop.
Qed.

End FileSystemLoader.

Lemma filesystem_loader_needs_listing_witness :
  PromptLoader.__init__ (json := Sample.json)
    (provider_class := @FileSystemProvider_is_provider MoreSamples.racing_dir)
    Sample.demo None None None
  = Raise (mkExc ValueError "Prompt does not exist in storage")
  /\ download_file (StorageProviderBase := @FileSystemProvider_is_provider
                                             MoreSamples.racing_dir)
       Sample.demo "system.md" = Some (str_encode "You are a helpful assistant.").
Proof.
  split; [| reflexivity].
  apply (filesystem_loader_needs_listing (json := Sample.json)
           (os := MoreSamples.racing_dir) Sample.demo
           ["settings.json"; "system.md"; "user.md"; " "] "user.md"
           (mkExc OSError "No such file or directory") None None None eq_refl).
  - apply (bool_decide_unpack _). exact I.
  - reflexivity.
  - reflexivity.
Defined.

(* --------------------------------------------------------------------- *)
(** ** From the loader to the orchestrator                                *)
(* --------------------------------------------------------------------- *)

Section LoaderToOrchestrator.
Context {json : JsonModule} {P : Type} {provider_class : StorageProviderBase P}.
Context {C : Type} {client_class : ChatClient C}.


End LoaderToOrchestrator.


(* --------------------------------------------------------------------- *)
(** ** File names that are absolute paths (storage_providers.py)          *)
(* --------------------------------------------------------------------- *)

Section FileSystemAbsolute.
Context {os : OS}.

(** X25.  The file system provider joins the name to the prompt path with
    [os.path.join], which drops the prompt path when the name starts with
    a slash.  So for such a name [download_file] and [file_exists] look at
    the path that the name is, outside the prompt directory: the answer
    is the same for every provider, and [download_file] returns the bytes
    of that file when it exists and can be read. *)
Theorem filesystem_absolute_name (self other : FileSystemProvider.t) (file_name : string) :
  startswith "/" file_name = true ->
  FileSystemProvider.download_file self file_name
  = FileSystemProvider.download_file other file_name
  /\ FileSystemProvider.file_exists self file_name
     = FileSystemProvider.file_exists other file_name
  /\ FileSystemProvider.file_exists self file_name = os_path_isfile file_name
  /\ (forall content,
        os_path_exists file_name = true -> open_rb_read file_name = Ok content ->
        FileSystemProvider.download_file self file_name = Some content).
Proof.
  intros Habsolute.
  unfold FileSystemProvider.download_file, FileSystemProvider.file_exists, os_path_join.
  rewrite Habsolute. repeat split. intros content -> ->. reflexivity.
Qed.

End FileSystemAbsolute.

Lemma filesystem_absolute_name_witness :
  FileSystemProvider.download_file (os := MoreSamples.with_hosts) Sample.demo "/etc/hosts"
  = Some (str_encode "127.0.0.1 localhost").
Proof.
  exact (proj2 (proj2 (proj2 (filesystem_absolute_name (os := MoreSamples.with_hosts)
                                Sample.demo Sample.demo "/etc/hosts" eq_refl)))
           (str_encode "127.0.0.1 localhost") eq_refl eq_refl).
Defined.

(* --------------------------------------------------------------------- *)
(** ** A prompt that loads (prompt_loader.py, storage_providers.py)       *)
(* --------------------------------------------------------------------- *)

Section LoaderSuccess.
Context {json : JsonModule} {P : Type} {provider_class : StorageProviderBase P}.

(** X26.  A loader over any provider whose listing is not empty, whose
    [settings.json] decodes to settings and whose [system.md] decodes to a
    text.  When [user.md] is there and decodes, the loader is constructed
    with the settings, the two texts, rewritten by the loop of
    [_fill_placeholders] when placeholders that are not empty were given,
    and the schema and the tools it was given.  When [user.md] is there and
    is not UTF-8 the construction raises a [UnicodeDecodeError], though the
    file is optional. *)
Theorem loader_loads_three_files (provider : P)
    (placeholders : option (gmap string string))
    (response_schema : option PyValue) (tools : option (list PyValue))
    (settings_content system_content user_content : bytes)
    (settings_text system_prompt : string)
    (settings_json : PyValue) (prompt_settings : PromptSettings.t) :
  list_files provider <> [] ->
  download_file provider "settings.json" = Some settings_content ->
  bytes_decode settings_content = Ok settings_text ->
  json_loads settings_text = Ok settings_json ->
  PromptSettings.from_kwargs settings_json = Ok prompt_settings ->
  download_file provider "system.md" = Some system_content ->
  bytes_decode system_content = Ok system_prompt ->
  download_file provider "user.md" = Some user_content ->
  (forall user_prompt,
     bytes_decode user_content = Ok user_prompt ->
     PromptLoader.__init__ provider placeholders response_schema tools
     = Ok (PromptLoader.mk provider response_schema tools prompt_settings
             (match placeholders with
              | Some d => PromptLoader.fill_loop d system_prompt
              | None => system_prompt
              end)
             (match placeholders with
              | Some d => PromptLoader.fill_loop d user_prompt
              | None => user_prompt
              end)))
  /\ (utf8_valid user_content = false ->
      exists e,
        PromptLoader.__init__ provider placeholders response_schema tools = Raise e
        /\ exc_class e = UnicodeDecodeError).
Proof.
  intros Hlist Hsettings Hdecode Hloads Hkwargs Hsystem Hsysdecode Huser.
  unfold PromptLoader.__init__, PromptLoader.load.
  destruct (list_files provider); [congruence |].
  rewrite Hsettings, Hdecode. simpl. rewrite Hloads. simpl. rewrite Hkwargs. simpl.
  rewrite Hsystem, Hsysdecode. simpl. rewrite Huser. split.
  - intros user_prompt ->. simpl. f_equal.
    destruct placeholders as [d|]; [| reflexivity].
    unfold PromptLoader.truthy. destruct (decide (d = ∅)) as [-> | Hd].
    + rewrite bool_decide_eq_true_2 by reflexivity. simpl.
      now rewrite !(fill_loop_no_key ∅) by (intros name _; apply lookup_empty).
    + rewrite bool_decide_eq_false_2 by exact Hd. reflexivity.
  - intros Hinvalid. unfold bytes_decode at 1. rewrite Hinvalid. simpl.
    eexists. split; reflexivity.
Qed.

End LoaderSuccess.

Lemma loader_loads_three_files_witness :
  PromptLoader.__init__ (json := Sample.json)
    (provider_class := @FileSystemProvider_is_provider Sample.prompt_dir)
    Sample.demo None None None
  = Ok (PromptLoader.mk Sample.demo None None (PromptSettings.mk "openai" "gpt-4")
          "You are a helpful assistant." "Hello, how are you?").
Proof.
  refine (proj1 (loader_loads_three_files (json := Sample.json)
                   (provider_class := @FileSystemProvider_is_provider Sample.prompt_dir)
                   Sample.demo None None None
                   (str_encode Sample.settings_text)
                   (str_encode "You are a helpful assistant.")
                   (str_encode "Hello, how are you?")
                   Sample.settings_text "You are a helpful assistant."
                   (PromptSettings.__dict__ (PromptSettings.mk "openai" "gpt-4"))
                   (PromptSettings.mk "openai" "gpt-4")
                   _ eq_refl eq_refl eq_refl eq_refl eq_refl eq_refl eq_refl)
            "Hello, how are you?" eq_refl).
  discriminate.
Defined.

Section FileSystemInit.
Context {os : OS}.

(** X27.  On a file system where what is a directory exists, the file
    system provider of a prompt name is constructed exactly when the base
    path joined with the name is a directory, and its prompt path is that
    path.  Otherwise the construction raises a [ValueError]; it raises
    nothing else. *)
Theorem filesystem_provider_init (prompt_name base_path : string) :
  (forall path, os_path_isdir path = true -> os_path_exists path = true) ->
  (os_path_isdir (os_path_join base_path prompt_name) = true ->
   FileSystemProvider.__init__ prompt_name base_path
   = Ok (FileSystemProvider.mk (os_path_join base_path prompt_name)))
  /\ (os_path_isdir (os_path_join base_path prompt_name) = false ->
      exists message,
        FileSystemProvider.__init__ prompt_name base_path
        = Raise (mkExc ValueError message))
  /\ (forall self, FileSystemProvider.__init__ prompt_name base_path = Ok self ->
        FileSystemProvider._prompt_path self = os_path_join base_path prompt_name
        /\ os_path_isdir (FileSystemProvider._prompt_path self) = true).
Proof.
  intros Hcontract. unfold FileSystemProvider.__init__.
  specialize (Hcontract (os_path_join base_path prompt_name)).
  destruct (os_path_isdir (os_path_join base_path prompt_name)) eqn:Hdir.
  - rewrite Hcontract by reflexivity. simpl.
    split; [reflexivity |]. split; [discriminate |]. intros self [= <-]. auto.
  - destruct (os_path_exists (os_path_join base_path prompt_name)); simpl.
    + split; [discriminate |]. split; [intros _; eexists; reflexivity | discriminate].
    + split; [discriminate |]. split; [intros _; eexists; reflexivity | discriminate].
Qed.

End FileSystemInit.

Lemma filesystem_provider_init_witness :
  FileSystemProvider.__init__ (os := Sample.prompt_dir) "demo" "prompts" = Ok Sample.demo
  /\ exists message,
       FileSystemProvider.__init__ (os := Sample.prompt_dir) "demo/system.md" "prompts"
       = Raise (mkExc ValueError message).
Proof.
  assert (Hcontract : forall path,
            @os_path_isdir Sample.prompt_dir path = true ->
            @os_path_exists Sample.prompt_dir path = true).
  { intros path. simpl. now intros ->. }
  split.
  - apply (proj1 (filesystem_provider_init (os := Sample.prompt_dir)
                    "demo" "prompts" Hcontract)). reflexivity.
  - apply (proj1 (proj2 (filesystem_provider_init (os := Sample.prompt_dir)
                           "demo/system.md" "prompts" Hcontract))). reflexivity.
Defined.
